(** * message-wall: the stem-and-branch trading system, embedded and verified

    A shallow embedding of [bazi_trading_system.py]:
    - [BaziCalculator]: the date to four-pillar code, the element counts and
      the generation / overcoming relation between elements;
    - [TradingStrategy.get_trading_signal]: the scoring loop and the decision
      rule;
    - [BacktestingEngine.run_backtest]: the sequential portfolio simulation;
    - [BacktestingEngine.calculate_metrics]: the summary statistics;
    - [DataProcessor.get_multiple_symbols_data] and the cut of the curve in
      [Visualization.plot_portfolio_performance];
    - the analysis of a chart in 品种八字分析.py and the month table and the
      monthly prediction of 月度规律分析.py, which call the calculator.

    Conventions of the embedding.
    - Python [int] is [Z]; [%] with a positive divisor is [Z.modulo] and [//]
      is [Z.div].
    - Python and numpy floats are exact rationals [Q]: rounding is not
      modelled.  A division by zero is: where numpy divides, the result is
      [inf] or [nan] and the run goes on ([NonFinite] of [xfloat]); where
      Python divides, or where [int()] is applied to [inf] or [nan], an
      exception is raised.
    - A raised exception is [None] ([IndexError], [KeyError],
      [ZeroDivisionError], [OverflowError], [ValueError]).
    - The five elements, the ten stems, the twelve branches and the relation
      names are one-character strings drawn from fixed tables in the source;
      they are enumerations here, and [*_str] gives back the source's text.
    - A [dict] keyed by symbol is a [gmap string _]; Python lists are lists,
      [append] adds at the end. *)

From Stdlib Require Import ZArith QArith Qround Qminmax Qabs Sorted Lia Lqa.
From stdpp Require Import gmap strings list fin_maps.

#[local] Open Scope Z_scope.

(** ** BaziCalculator *)

(** [self.tiangan]: 甲 乙 丙 丁 戊 己 庚 辛 壬 癸. *)
Inductive tiangan_t : Set :=
| TG_jia | TG_yi | TG_bing | TG_ding | TG_wu
| TG_ji | TG_geng | TG_xin | TG_ren | TG_gui.

(** [self.dizhi]: 子 丑 寅 卯 辰 巳 午 未 申 酉 戌 亥. *)
Inductive dizhi_t : Set :=
| DZ_zi | DZ_chou | DZ_yin | DZ_mao | DZ_chen | DZ_si
| DZ_wu | DZ_wei | DZ_shen | DZ_you | DZ_xu | DZ_hai.

(** The five elements: 木 火 土 金 水. *)
Inductive wuxing_t : Set := Mu | Huo | Tu | Jin | Shui.

#[global] Instance wuxing_eq_dec : EqDecision wuxing_t.
Proof. solve_decision. Defined.

Definition tiangan : list tiangan_t :=
  [TG_jia; TG_yi; TG_bing; TG_ding; TG_wu; TG_ji; TG_geng; TG_xin; TG_ren; TG_gui].

Definition dizhi : list dizhi_t :=
  [DZ_zi; DZ_chou; DZ_yin; DZ_mao; DZ_chen; DZ_si;
   DZ_wu; DZ_wei; DZ_shen; DZ_you; DZ_xu; DZ_hai].

Definition wuxing_list : list wuxing_t := [Mu; Huo; Tu; Jin; Shui].

Definition tiangan_str (t : tiangan_t) : string :=
  match t with
  | TG_jia => "甲" | TG_yi => "乙" | TG_bing => "丙" | TG_ding => "丁"
  | TG_wu => "戊" | TG_ji => "己" | TG_geng => "庚" | TG_xin => "辛"
  | TG_ren => "壬" | TG_gui => "癸"
  end.

Definition dizhi_str (d : dizhi_t) : string :=
  match d with
  | DZ_zi => "子" | DZ_chou => "丑" | DZ_yin => "寅" | DZ_mao => "卯"
  | DZ_chen => "辰" | DZ_si => "巳" | DZ_wu => "午" | DZ_wei => "未"
  | DZ_shen => "申" | DZ_you => "酉" | DZ_xu => "戌" | DZ_hai => "亥"
  end.

Definition wuxing_str (w : wuxing_t) : string :=
  match w with
  | Mu => "木" | Huo => "火" | Tu => "土" | Jin => "金" | Shui => "水"
  end.

(** [self.wuxing_tiangan]. *)
Definition wuxing_tiangan (t : tiangan_t) : wuxing_t :=
  match t with
  | TG_jia | TG_yi => Mu
  | TG_bing | TG_ding => Huo
  | TG_wu | TG_ji => Tu
  | TG_geng | TG_xin => Jin
  | TG_ren | TG_gui => Shui
  end.

(** [self.wuxing_dizhi]. *)
Definition wuxing_dizhi (d : dizhi_t) : wuxing_t :=
  match d with
  | DZ_zi => Shui | DZ_chou => Tu | DZ_yin => Mu | DZ_mao => Mu
  | DZ_chen => Tu | DZ_si => Huo | DZ_wu => Huo | DZ_wei => Tu
  | DZ_shen => Jin | DZ_you => Jin | DZ_xu => Tu | DZ_hai => Shui
  end.

(** One row of [self.wuxing_shengke]: the keys 生, 克, 被生, 被克. *)
Record shengke_row : Set := {
  sheng : wuxing_t;
  ke : wuxing_t;
  bei_sheng : wuxing_t;
  bei_ke : wuxing_t
}.

(** [self.wuxing_shengke]. *)
Definition wuxing_shengke (w : wuxing_t) : shengke_row :=
  match w with
  | Mu   => {| sheng := Huo;  ke := Tu;   bei_sheng := Shui; bei_ke := Jin |}
  | Huo  => {| sheng := Tu;   ke := Jin;  bei_sheng := Mu;   bei_ke := Shui |}
  | Tu   => {| sheng := Jin;  ke := Shui; bei_sheng := Huo;  bei_ke := Mu |}
  | Jin  => {| sheng := Shui; ke := Mu;   bei_sheng := Tu;   bei_ke := Huo |}
  | Shui => {| sheng := Mu;   ke := Huo;  bei_sheng := Jin;  bei_ke := Tu |}
  end.

(** The values [get_wuxing_relationship] returns: 同 生 克 被生 被克 无. *)
Inductive relation_t : Set :=
| R_tong | R_sheng | R_ke | R_bei_sheng | R_bei_ke | R_wu.

#[global] Instance relation_eq_dec : EqDecision relation_t.
Proof. solve_decision. Defined.

(** The fields of [datetime] the calculator reads. *)
Record datetime : Set := {
  dt_year : Z;
  dt_month : Z;
  dt_day : Z;
  dt_hour : Z
}.

(** [get_tiangan_dizhi]; a list index out of range is [None]. *)
Definition get_tiangan_dizhi (year : Z) : option (tiangan_t * dizhi_t) :=
  let base_year := 1900 in
  let offset := (year - base_year) mod 60 in
  let tiangan_index := offset mod 10 in
  let dizhi_index := offset mod 12 in
  tg ← tiangan !! Z.to_nat tiangan_index;
  dz ← dizhi !! Z.to_nat dizhi_index;
  Some (tg, dz).

(** The dictionary [calculate_bazi] returns.  Its entries [year], [month],
    [day] and [hour] are the two characters of the pillar, see [pillar_str]. *)
Record bazi_t : Set := {
  year_tg : tiangan_t;  year_dz : dizhi_t;
  month_tg : tiangan_t; month_dz : dizhi_t;
  day_tg : tiangan_t;   day_dz : dizhi_t;
  hour_tg : tiangan_t;  hour_dz : dizhi_t
}.

Definition pillar_str (tg : tiangan_t) (dz : dizhi_t) : string :=
  (tiangan_str tg ++ dizhi_str dz)%string.

Definition calculate_bazi (date : datetime) : option bazi_t :=
  '(y_tg, y_dz) ← get_tiangan_dizhi (dt_year date);
  m_tg ← tiangan !! Z.to_nat ((dt_month date - 1) mod 10);
  m_dz ← dizhi !! Z.to_nat ((dt_month date - 1) mod 12);
  d_tg ← tiangan !! Z.to_nat ((dt_day date - 1) mod 10);
  d_dz ← dizhi !! Z.to_nat ((dt_day date - 1) mod 12);
  h_tg ← tiangan !! Z.to_nat ((dt_hour date / 2) mod 10);
  h_dz ← dizhi !! Z.to_nat ((dt_hour date / 2) mod 12);
  Some {| year_tg := y_tg; year_dz := y_dz;
          month_tg := m_tg; month_dz := m_dz;
          day_tg := d_tg; day_dz := d_dz;
          hour_tg := h_tg; hour_dz := h_dz |}.

(** The dictionary [wuxing_count], one integer per element. *)
Record wuxing_count : Set := {
  n_mu : Z; n_huo : Z; n_tu : Z; n_jin : Z; n_shui : Z
}.

(** [wuxing_count.get(w, 0)]: a key that is missing reads as 0, like a
    field that is 0. *)
Definition wx_get (c : wuxing_count) (w : wuxing_t) : Z :=
  match w with
  | Mu => n_mu c | Huo => n_huo c | Tu => n_tu c | Jin => n_jin c | Shui => n_shui c
  end.

(** [wuxing_count[w] += 1]. *)
Definition wx_incr (w : wuxing_t) (c : wuxing_count) : wuxing_count :=
  match w with
  | Mu   => {| n_mu := n_mu c + 1; n_huo := n_huo c; n_tu := n_tu c; n_jin := n_jin c; n_shui := n_shui c |}
  | Huo  => {| n_mu := n_mu c; n_huo := n_huo c + 1; n_tu := n_tu c; n_jin := n_jin c; n_shui := n_shui c |}
  | Tu   => {| n_mu := n_mu c; n_huo := n_huo c; n_tu := n_tu c + 1; n_jin := n_jin c; n_shui := n_shui c |}
  | Jin  => {| n_mu := n_mu c; n_huo := n_huo c; n_tu := n_tu c; n_jin := n_jin c + 1; n_shui := n_shui c |}
  | Shui => {| n_mu := n_mu c; n_huo := n_huo c; n_tu := n_tu c; n_jin := n_jin c; n_shui := n_shui c + 1 |}
  end.

Definition wx_zero : wuxing_count :=
  {| n_mu := 0; n_huo := 0; n_tu := 0; n_jin := 0; n_shui := 0 |}.

(** [analyze_wuxing_strength]: the first loop runs over the four stems, the
    second over the four branches, each in the order year, month, day, hour.
    The guards [key in bazi] and [if wuxing] always hold for a dictionary
    made by [calculate_bazi]. *)
Definition analyze_wuxing_strength (bazi : bazi_t) : wuxing_count :=
  let after_tg :=
    fold_left (fun c tg => wx_incr (wuxing_tiangan tg) c)
      [year_tg bazi; month_tg bazi; day_tg bazi; hour_tg bazi] wx_zero in
  fold_left (fun c dz => wx_incr (wuxing_dizhi dz) c)
    [year_dz bazi; month_dz bazi; day_dz bazi; hour_dz bazi] after_tg.

(** [get_wuxing_relationship]. *)
Definition get_wuxing_relationship (wuxing1 wuxing2 : wuxing_t) : relation_t :=
  if decide (wuxing1 = wuxing2) then R_tong
  else if decide (sheng (wuxing_shengke wuxing1) = wuxing2) then R_sheng
  else if decide (ke (wuxing_shengke wuxing1) = wuxing2) then R_ke
  else if decide (bei_sheng (wuxing_shengke wuxing1) = wuxing2) then R_bei_sheng
  else if decide (bei_ke (wuxing_shengke wuxing1) = wuxing2) then R_bei_ke
  else R_wu.

(** ** Dates and price data

    [datetime.date], as the entries of [data.index.date]. *)
Record date : Set := {
  d_year : Z;
  d_month : Z;
  d_day : Z
}.

#[global] Instance date_eq_dec : EqDecision date.
Proof. solve_decision. Defined.

(** A price [DataFrame], reduced to what the code reads of it: for each row
    the date of its index entry and its [Close], in the order of the rows. *)
Definition series : Type := list (date * Q).

(** ** TradingStrategy *)

Inductive signal_t : Set := BUY | SELL | HOLD.

#[global] Instance signal_eq_dec : EqDecision signal_t.
Proof. solve_decision. Defined.

(** The dictionary [get_trading_signal] returns. *)
Record signal_info : Type := {
  signal : signal_t;
  confidence : Q;
  strength : Z;
  reason : list string;
  current_bazi : bazi_t;
  current_wuxing : wuxing_count;
  symbol_wuxing : wuxing_count
}.

(** The body of the inner loop over [target_wuxing]; the accumulator is
    [(signal_strength, signal_reason)]. *)
Definition score_target (sym_wx : wuxing_count) (wuxing : wuxing_t)
    (acc : Z * list string) (target_wuxing : wuxing_t) : Z * list string :=
  if decide (wuxing ≠ target_wuxing) then
    let relationship := get_wuxing_relationship wuxing target_wuxing in
    if bool_decide (relationship = R_sheng) && (0 <? wx_get sym_wx target_wuxing) then
      (fst acc + 1,
       snd acc ++ [(wuxing_str wuxing ++ "生" ++ wuxing_str target_wuxing)%string])
    else acc
  else acc.

(** The body of the outer loop over [wuxing]. *)
Definition score_wuxing (cur_wx sym_wx : wuxing_count)
    (acc : Z * list string) (wuxing : wuxing_t) : Z * list string :=
  let current_strength := wx_get cur_wx wuxing in
  let symbol_strength := wx_get sym_wx wuxing in
  if symbol_strength <? current_strength then
    fold_left (score_target sym_wx wuxing) wuxing_list acc
  else acc.

(** Lines 145 to 160: the two nested loops, from [(0, [])]. *)
Definition signal_score (cur_wx sym_wx : wuxing_count) : Z * list string :=
  fold_left (score_wuxing cur_wx sym_wx) wuxing_list (0, []).

(** Lines 163 to 171: the decision rule on the score. *)
Definition decide_signal (signal_strength : Z) : signal_t * Q :=
  if 3 <=? signal_strength then
    (BUY, Qmin (inject_Z signal_strength / 5) 1)
  else if signal_strength <=? -3 then
    (SELL, Qmin (inject_Z (Z.abs signal_strength) / 5) 1)
  else
    (HOLD, 1 # 2)%Q.

(** Lines 145 to 181 of [get_trading_signal]: what it computes from the two
    element counts; [bazi] is only copied into the result. *)
Definition evaluate (bazi : bazi_t) (cur_wx sym_wx : wuxing_count) : signal_info :=
  let '(signal_strength, signal_reason) := signal_score cur_wx sym_wx in
  let '(sig, conf) := decide_signal signal_strength in
  {| signal := sig; confidence := conf; strength := signal_strength;
     reason := signal_reason; current_bazi := bazi;
     current_wuxing := cur_wx; symbol_wuxing := sym_wx |}.

(** [date - timedelta(days=1)] of the standard library, on the proleptic
    Gregorian calendar; [None] is the [OverflowError] below year 1. *)
Definition is_leap (y : Z) : bool :=
  (y mod 4 =? 0) && (negb (y mod 100 =? 0) || (y mod 400 =? 0)).

Definition days_in_month (y m : Z) : Z :=
  if m =? 2 then (if is_leap y then 29 else 28)
  else if (m =? 4) || (m =? 6) || (m =? 9) || (m =? 11) then 30
  else 31.

Definition minus_one_day (d : datetime) : option datetime :=
  if 1 <? dt_day d then
    Some {| dt_year := dt_year d; dt_month := dt_month d;
            dt_day := dt_day d - 1; dt_hour := dt_hour d |}
  else if 1 <? dt_month d then
    Some {| dt_year := dt_year d; dt_month := dt_month d - 1;
            dt_day := days_in_month (dt_year d) (dt_month d - 1);
            dt_hour := dt_hour d |}
  else if 1 <? dt_year d then
    Some {| dt_year := dt_year d - 1; dt_month := 12; dt_day := 31;
            dt_hour := dt_hour d |}
  else None.

(** [get_trading_signal]; the symbol and the price data are not read. *)
Definition get_trading_signal (symbol : string) (date : datetime)
    (price_data : series) : option signal_info :=
  current_bazi ← calculate_bazi date;
  let cur_wx := analyze_wuxing_strength current_bazi in
  yesterday ← minus_one_day date;
  symbol_bazi ← calculate_bazi yesterday;
  let sym_wx := analyze_wuxing_strength symbol_bazi in
  Some (evaluate current_bazi cur_wx sym_wx).

(** ** BacktestingEngine *)

(** [datetime.combine(date, datetime.min.time())]. *)
Definition combine_min_time (d : date) : datetime :=
  {| dt_year := d_year d; dt_month := d_month d; dt_day := d_day d; dt_hour := 0 |}.

(** The order of [datetime.date]. *)
Definition date_ltb (a b : date) : bool :=
  (d_year a <? d_year b)
  || ((d_year a =? d_year b)
      && ((d_month a <? d_month b)
          || ((d_month a =? d_month b) && (d_day a <? d_day b)))).

(** [date in data.index.date], and then
    [data.loc[data.index.date == date, 'Close'].iloc[0]]: the [Close] of the
    first row of that date; [None] when the date is not in the index. *)
Fixpoint close_on (data : series) (d : date) : option Q :=
  match data with
  | [] => None
  | (d', c) :: rest => if decide (d' = d) then Some c else close_on rest d
  end.

(** An entry of [positions]. *)
Record position : Type := {
  shares : Z;
  entry_price : Q;
  entry_date : date
}.

Inductive action_t : Set := A_BUY | A_SELL.

(** An entry of [results['trades']]. *)
Record trade : Type := {
  t_date : date;
  t_symbol : string;
  t_action : action_t;
  t_shares : Z;
  t_price : Q;
  t_confidence : Q
}.

(** A float that may have left the finite numbers: [NonFinite] is [inf],
    [-inf] or [nan]. *)
Inductive xfloat : Type :=
| Finite (q : Q)
| NonFinite.

(** [a / b] on numpy floats: a zero divisor gives [inf] or [nan], and
    nothing is raised. *)
Definition np_div (a b : Q) : xfloat :=
  if Qeq_bool b 0 then NonFinite else Finite (a / b).

(** [a + b]: a sum with [inf] or [nan] is [inf] or [nan]. *)
Definition x_add (a b : xfloat) : xfloat :=
  match a, b with
  | Finite x, Finite y => Finite (x + y)
  | _, _ => NonFinite
  end.

(** [int(x)] on a finite float: truncation toward zero. *)
Definition py_int (x : Q) : Z := Z.quot (Qnum x) (Z.pos (Qden x)).

(** [int(a / b)] with a numpy divisor: [int(inf)] and [int(nan)] raise. *)
Definition int_of_div (a b : Q) : option Z :=
  match np_div a b with
  | Finite x => Some (py_int x)
  | NonFinite => None
  end.

(** What the loop over the symbols of one date reads and writes:
    [current_capital], [positions], [results['trades']] and the local
    [daily_returns]. *)
Record sim_state : Type := {
  current_capital : Q;
  positions : gmap string position;
  trades : list trade;
  daily_returns : xfloat
}.

(** [for x in l: st = f(st, x)], stopping at the first exception. *)
Fixpoint for_each {A B : Type} (f : A → B → option A) (l : list B) (a : A) : option A :=
  match l with
  | [] => Some a
  | x :: rest => a' ← f a x; for_each f rest a'
  end.

(** The fields of [results] that grow date by date, with the cash and the
    positions carried from one date to the next. *)
Record run_state : Type := {
  rs_capital : Q;
  rs_positions : gmap string position;
  rs_trades : list trade;
  portfolio_value : list Q;
  returns : list xfloat;
  daily_returns_list : list xfloat;
  dates : list date
}.

(** What [run_backtest] returns: the dictionary with the key [error], or the
    results. *)
Inductive backtest_result : Type :=
| NoData
| Results (r : run_state).

Section Engine.

(** [self.strategy.get_trading_signal]; [None] when it raises. *)
Variable strategy : string → datetime → series → option signal_info.

(** [data_dict], the price data by symbol. *)
Variable data_dict : gmap string series.

(** Lines 290 to 308: the BUY branch, taken when the signal is BUY and the
    symbol is not in [positions]. *)
Definition buy (date : date) (symbol : string) (current_price : Q)
    (info : signal_info) (st : sim_state) : option sim_state :=
  n ← int_of_div (current_capital st * confidence info * (1 # 10)) current_price;
  if 0 <? n then
    let cost := (inject_Z n * current_price)%Q in
    Some {| current_capital := (current_capital st - cost)%Q;
            positions :=
              <[symbol := {| shares := n; entry_price := current_price;
                             entry_date := date |}]> (positions st);
            trades :=
              trades st ++ [{| t_date := date; t_symbol := symbol;
                               t_action := A_BUY; t_shares := n;
                               t_price := current_price;
                               t_confidence := confidence info |}];
            daily_returns := daily_returns st |}
  else Some st.

(** Lines 310 to 326: the SELL branch, taken when the signal is SELL and
    [pos] is the symbol's entry of [positions]. *)
Definition sell (date : date) (symbol : string) (current_price : Q)
    (info : signal_info) (pos : position) (st : sim_state) : sim_state :=
  let proceeds := (inject_Z (shares pos) * current_price)%Q in
  let r := np_div (current_price - entry_price pos) (entry_price pos) in
  {| current_capital := (current_capital st + proceeds)%Q;
     positions := delete symbol (positions st);
     trades :=
       trades st ++ [{| t_date := date; t_symbol := symbol;
                        t_action := A_SELL; t_shares := shares pos;
                        t_price := current_price;
                        t_confidence := confidence info |}];
     daily_returns := x_add (daily_returns st) r |}.

(** Lines 328 to 332: the unrealised return of a position still open. *)
Definition mark (symbol : string) (current_price : Q) (st : sim_state) : sim_state :=
  match positions st !! symbol with
  | Some pos =>
      let r := np_div (current_price - entry_price pos) (entry_price pos) in
      {| current_capital := current_capital st;
         positions := positions st;
         trades := trades st;
         daily_returns := x_add (daily_returns st) r |}
  | None => st
  end.

(** Lines 289 to 326: the trading decision for one symbol at its price. *)
Definition trade_symbol (date : date) (symbol : string) (current_price : Q)
    (info : signal_info) (st : sim_state) : option sim_state :=
  match signal info, positions st !! symbol with
  | BUY, None => buy date symbol current_price info st
  | SELL, Some pos => Some (sell date symbol current_price info pos st)
  | _, _ => Some st
  end.

(** Lines 276 to 332: the body of [for symbol in symbols]. *)
Definition process_symbol (date : date) (st : sim_state) (symbol : string) : option sim_state :=
  match data_dict !! symbol with
  | None => Some st
  | Some data =>
      match close_on data date with
      | None => Some st
      | Some current_price =>
          info ← strategy symbol (combine_min_time date) data;
          st' ← trade_symbol date symbol current_price info st;
          Some (mark symbol current_price st')
      end
  end.

(** One term of the sum of lines 335 to 337, added to the running total;
    a position whose symbol has no bar on the date is left out. *)
Definition add_position_value (date : date) (sym : string) (pos : position)
    (acc : option Q) : option Q :=
  total ← acc;
  data ← data_dict !! sym;
  match close_on data date with
  | Some c => Some (total + inject_Z (shares pos) * c)%Q
  | None => Some total
  end.

(** Lines 335 to 337: [total_position_value].  Python adds the terms in the
    order the positions were opened, [map_fold] in the order of the map; in
    exact arithmetic the sum is the same number.  [data_dict[sym]] raises
    [KeyError] for a symbol without price data. *)
Definition total_position_value (date : date) (ps : gmap string position) : option Q :=
  map_fold (add_position_value date) (Some 0%Q) ps.

(** Line 341: the return on the previous portfolio value.  Until the
    first trade every number in it is a Python number (the initial capital,
    an [int] or [float] like the default 100000), and a zero divisor raises
    [ZeroDivisionError]; the first trade subtracts a numpy float from the
    capital, so from then on the capital and the portfolio value are numpy
    floats, and the division gives [inf] or [nan]. *)
Definition period_return (trades_so_far : list trade) (value prev : Q) : option xfloat :=
  match trades_so_far with
  | [] => if Qeq_bool prev 0 then None else Some (Finite ((value - prev) / prev))
  | _ :: _ => Some (np_div (value - prev) prev)
  end.

(** Lines 271 to 343: the body of [for date in all_dates]. *)
Definition process_date (symbols : list string) (rs : run_state) (date : date) : option run_state :=
  st ← for_each (process_symbol date) symbols
         {| current_capital := rs_capital rs; positions := rs_positions rs;
            trades := rs_trades rs; daily_returns := Finite 0 |};
  tpv ← total_position_value date (positions st);
  let value := (current_capital st + tpv)%Q in
  prev ← last (portfolio_value rs);
  r ← period_return (trades st) value prev;
  Some {| rs_capital := current_capital st;
          rs_positions := positions st;
          rs_trades := trades st;
          portfolio_value := portfolio_value rs ++ [value];
          returns := returns rs ++ [r];
          daily_returns_list := daily_returns_list rs ++ [daily_returns st];
          dates := dates rs ++ [date] |}.

End Engine.

(** [sorted(list(all_dates))]: the dates are kept in ascending order and
    without repeats as they are added. *)
Fixpoint date_insert (d : date) (l : list date) : list date :=
  match l with
  | [] => [d]
  | x :: rest =>
      if date_ltb d x then d :: l
      else if decide (d = x) then l
      else x :: date_insert d rest
  end.

(** Lines 265 to 269: the dates of all the price series, sorted. *)
Definition all_dates (data_dict : gmap string series) : list date :=
  map_fold (fun _ data acc => foldr date_insert acc (data.*1)) [] data_dict.

(** The state before the first date. *)
Definition initial_state (initial_capital : Q) : run_state :=
  {| rs_capital := initial_capital; rs_positions := ∅; rs_trades := [];
     portfolio_value := [initial_capital]; returns := [Finite 0];
     daily_returns_list := []; dates := [] |}.

(** [run_backtest], from the price data already fetched. *)
Definition run_backtest (strategy : string → datetime → series → option signal_info)
    (initial_capital : Q) (symbols : list string)
    (data_dict : gmap string series) : option backtest_result :=
  if (size data_dict =? 0)%nat then Some NoData
  else
    rs ← for_each (process_date strategy data_dict symbols) (all_dates data_dict)
           (initial_state initial_capital);
    Some (Results rs).

(** ** calculate_metrics

    The statistics are numpy float computations (a real power, a standard
    deviation, a square root, divisions that give [inf] or [nan] rather than
    raise).  They are kept abstract: [calculate_metrics] is written over any
    implementation of the operations it calls. *)
Class FloatOps (F : Type) : Type := {
  f_of_Q : Q → F;
  f_nonfinite : F;
  f_add : F → F → F;
  f_sub : F → F → F;
  f_mul : F → F → F;
  f_div : F → F → F;
  f_pow : F → F → F;
  f_gtb : F → F → bool;
  f_max : F → F → F;
  f_min : F → F → F;
  np_std : list F → F;
  np_sqrt : F → F
}.

Section Metrics.

Context {F : Type} `{FloatOps F}.

(** [np.array] on an entry of [results['returns']]. *)
Definition f_of_xfloat (x : xfloat) : F :=
  match x with
  | Finite q => f_of_Q q
  | NonFinite => f_nonfinite
  end.

(** [np.maximum.accumulate] of [x :: l]. *)
Fixpoint maximum_accumulate (x : F) (l : list F) : list F :=
  x :: match l with
       | [] => []
       | y :: rest => maximum_accumulate (f_max x y) rest
       end.

(** [np.min] of [x :: l]. *)
Definition np_min (x : F) (l : list F) : F := fold_left f_min l x.

(** [calculate_metrics]; the result is the dictionary as the list of its
    entries, in the order of the source. *)
Definition calculate_metrics (results : backtest_result) : list (string * F) :=
  match results with
  | NoData => []
  | Results r =>
      match portfolio_value r with
      | [] => []
      | v0 :: vs =>
          let portfolio_values := f_of_Q <$> (v0 :: vs) in
          let rets := f_of_xfloat <$> drop 1 (returns r) in
          let first := f_of_Q v0 in
          let total_return := f_div (f_sub (f_of_Q (List.last vs v0)) first) first in
          let days := length (v0 :: vs) in
          let annual_return :=
            f_sub (f_pow (f_add (f_of_Q 1) total_return)
                         (f_of_Q (365 / inject_Z (Z.of_nat days))))
                  (f_of_Q 1) in
          let volatility := f_mul (np_std rets) (np_sqrt (f_of_Q 252)) in
          let risk_free_rate := f_of_Q (3 # 100) in
          let sharpe_ratio :=
            if f_gtb volatility (f_of_Q 0)
            then f_div (f_sub annual_return risk_free_rate) volatility
            else f_of_Q 0 in
          let peak := maximum_accumulate (f_of_Q v0) (f_of_Q <$> vs) in
          let drawdown := zip_with (fun v p => f_div (f_sub v p) p) portfolio_values peak in
          let max_drawdown :=
            match drawdown with
            | [] => f_of_Q 0
            | d0 :: ds => np_min d0 ds
            end in
          let winning_trades := length (List.filter (fun r => f_gtb r (f_of_Q 0)) rets) in
          let win_rate :=
            if (0 <? length rets)%nat
            then f_of_Q (inject_Z (Z.of_nat winning_trades) / inject_Z (Z.of_nat (length rets)))
            else f_of_Q 0 in
          [("总收益率", total_return);
           ("年化收益率", annual_return);
           ("波动率", volatility);
           ("夏普比率", sharpe_ratio);
           ("最大回撤", max_drawdown);
           ("胜率", win_rate);
           ("交易次数", f_of_Q (inject_Z (Z.of_nat (length (rs_trades r)))))]
      end
  end.

End Metrics.

(** ** Scenarios

    Scenario A of the specification: one symbol with the closes 100, 110 and
    90 on three consecutive dates, an initial capital of 100000, and a
    strategy forced to BUY with confidence 0.5 on the first date and to
    SELL on the second. *)
Definition forced_signal (sig : signal_t) (conf : Q) : signal_info :=
  {| signal := sig; confidence := conf; strength := 0; reason := [];
     current_bazi :=
       {| year_tg := TG_jia; year_dz := DZ_zi; month_tg := TG_jia; month_dz := DZ_zi;
          day_tg := TG_jia; day_dz := DZ_zi; hour_tg := TG_jia; hour_dz := DZ_zi |};
     current_wuxing := wx_zero; symbol_wuxing := wx_zero |}.

Definition day (y m d : Z) : date := {| d_year := y; d_month := m; d_day := d |}.

Definition scenario_A_series : series :=
  [(day 2023 1 2, 100%Q); (day 2023 1 3, 110%Q); (day 2023 1 4, 90%Q)].

Definition scenario_A_data : gmap string series :=
  {[ "DEMO" := scenario_A_series ]}.

Definition scenario_A_strategy (symbol : string) (date : datetime)
    (price_data : series) : option signal_info :=
  if dt_day date =? 2 then Some (forced_signal BUY (1 # 2))
  else if dt_day date =? 3 then Some (forced_signal SELL (1 # 2))
  else Some (forced_signal HOLD (1 # 2)).

Definition scenario_A_start : sim_state :=
  {| current_capital := 100000; positions := ∅; trades := [];
     daily_returns := Finite 0 |}.

(** The state of scenario A when the second date begins. *)
Definition scenario_A_open : sim_state :=
  {| current_capital := 95000;
     positions := {[ "DEMO" := {| shares := 50; entry_price := 100;
                                  entry_date := day 2023 1 2 |} ]};
     trades := [{| t_date := day 2023 1 2; t_symbol := "DEMO"; t_action := A_BUY;
                   t_shares := 50; t_price := 100; t_confidence := 1 # 2 |}];
     daily_returns := Finite 0 |}.

(** Scenario E of the specification: the symbol Y has no bar on the second
    of three dates; both symbols are held when that date begins. *)
Definition scenario_E_data : gmap string series :=
  {[ "X" := [(day 2023 1 2, 100%Q); (day 2023 1 3, 110%Q); (day 2023 1 4, 90%Q)];
     "Y" := [(day 2023 1 2, 20%Q); (day 2023 1 4, 25%Q)] ]}.

Definition scenario_E_open : sim_state :=
  {| current_capital := 90250;
     positions :=
       {[ "X" := {| shares := 50; entry_price := 100; entry_date := day 2023 1 2 |};
          "Y" := {| shares := 237; entry_price := 20; entry_date := day 2023 1 2 |} ]};
     trades := [];
     daily_returns := Finite 0 |}.

(** Two symbols with a bar on 1 January 1986, a date on which
    [get_trading_signal] says BUY, and on the day after. *)
Definition two_symbol_data : gmap string series :=
  {[ "A" := [(day 1986 1 1, 100%Q); (day 1986 1 2, 110%Q)];
     "B" := [(day 1986 1 1, 7%Q); (day 1986 1 2, 7%Q)] ]}.

(** The same two symbols, but B has no bar on 1 January 1986. *)
Definition staggered_data : gmap string series :=
  {[ "A" := [(day 1986 1 1, 100%Q); (day 1986 1 2, 110%Q)];
     "B" := [(day 1986 1 2, 7%Q)] ]}.

(** ** Predicates of the statements *)

(** [a < b] on dates. *)
Definition date_lt (a b : date) : Prop := date_ltb a b = true.

(** The sum of the five counts. *)
Definition wx_total (c : wuxing_count) : Z :=
  n_mu c + n_huo c + n_tu c + n_jin c + n_shui c.

Definition wx_nonneg (c : wuxing_count) : Prop :=
  ∀ w, 0 ≤ wx_get c w.

(** Totals of position values are compared as rationals: [oQeq] is [==]
    under [option]. *)
Definition oQeq (a b : option Q) : Prop :=
  match a, b with
  | Some x, Some y => (x == y)%Q
  | None, None => True
  | _, _ => False
  end.

(** The states the loops of [run_backtest] pass through: the state before
    the first date, the state after one more symbol of a date, and the state
    with [daily_returns] reset when the next date begins. *)
Inductive reachable (strategy : string → datetime → series → option signal_info)
    (data_dict : gmap string series) (initial_capital : Q) : sim_state → Prop :=
| reachable_start :
    reachable strategy data_dict initial_capital
      {| current_capital := initial_capital; positions := ∅; trades := [];
         daily_returns := Finite 0 |}
| reachable_symbol st date symbol st' :
    reachable strategy data_dict initial_capital st →
    process_symbol strategy data_dict date st symbol = Some st' →
    reachable strategy data_dict initial_capital st'
| reachable_date st :
    reachable strategy data_dict initial_capital st →
    reachable strategy data_dict initial_capital
      {| current_capital := current_capital st; positions := positions st;
         trades := trades st; daily_returns := Finite 0 |}.

(** The state a date starts from. *)
Definition sim_of_run (rs : run_state) : sim_state :=
  {| current_capital := rs_capital rs; positions := rs_positions rs;
     trades := rs_trades rs; daily_returns := Finite 0 |}.

Definition shares_positive (ps : gmap string position) : Prop :=
  ∀ s pos, ps !! s = Some pos → 0 < shares pos.

(** The invariant: the cash is not negative and every open position holds
    a positive number of shares. *)
Definition solvent (st : sim_state) : Prop :=
  (0 <= current_capital st)%Q ∧ shares_positive (positions st).

(** What one symbol's turn reads of the state and writes to it, apart from
    the accumulator [daily_returns]. *)
Definition core (st : sim_state) : Q * gmap string position * list trade :=
  (current_capital st, positions st, trades st).

(** The fields of the results other than [daily_returns]. *)
Definition run_core (rs : run_state)
    : Q * gmap string position * list trade * list Q * list xfloat * list date :=
  (rs_capital rs, rs_positions rs, rs_trades rs, portfolio_value rs, returns rs,
   dates rs).

(** A symbol is inert on a date when its turn cannot trade: it has no price
    data, or no bar on the date, or its signal is HOLD. *)
Definition is_inert (strategy : string → datetime → series → option signal_info)
    (data_dict : gmap string series) (date : date) (symbol : string) : bool :=
  match data_dict !! symbol with
  | None => true
  | Some data =>
      match close_on data date with
      | None => true
      | Some _ =>
          match strategy symbol (combine_min_time date) data with
          | Some info => bool_decide (signal info = HOLD)
          | None => false
          end
      end
  end.

(** Two results that agree on everything but [daily_returns]; a run that
    raises agrees with a run that raises. *)
Definition same_outcome (a b : option backtest_result) : Prop :=
  match a, b with
  | Some (Results r1), Some (Results r2) => run_core r1 = run_core r2
  | Some NoData, Some NoData => True
  | None, None => True
  | _, _ => False
  end.

(** At most one of the symbols is not inert on the date. *)
Definition one_active (strategy : string → datetime → series → option signal_info)
    (data_dict : gmap string series) (date : date) (symbols : list string) : Prop :=
  ∀ s s', s ∈ symbols → s' ∈ symbols →
    is_inert strategy data_dict date s = false →
    is_inert strategy data_dict date s' = false →
    s = s'.

(** [results.get('portfolio_value')]: absent from the error dictionary. *)
Definition equity_curve (results : backtest_result) : list Q :=
  match results with
  | NoData => []
  | Results r => portfolio_value r
  end.

(** The keys of the dictionary of statistics. *)
Definition metric_names : list string :=
  ["总收益率"; "年化收益率"; "波动率"; "夏普比率"; "最大回撤"; "胜率"; "交易次数"].

(** An implementation of the float operations that keeps no number: what is
    left of [calculate_metrics] is the keys it returns. *)
#[local] Instance shape_only : FloatOps unit := {|
  f_of_Q := λ _, ();
  f_nonfinite := ();
  f_add := λ _ _, ();
  f_sub := λ _ _, ();
  f_mul := λ _ _, ();
  f_div := λ _ _, ();
  f_pow := λ _ _, ();
  f_gtb := λ _ _, false;
  f_max := λ _ _, ();
  f_min := λ _ _, ();
  np_std := λ _, ();
  np_sqrt := λ _, ()
|}.

#[global] Instance tiangan_eq_dec : EqDecision tiangan_t.
Proof. solve_decision. Defined.

#[global] Instance dizhi_eq_dec : EqDecision dizhi_t.
Proof. solve_decision. Defined.

(** The stem and the branch at a position of the cycle: the entries of the
    tables at the position taken modulo their lengths. *)
Definition stem_at (x : Z) : tiangan_t :=
  default TG_jia (tiangan !! Z.to_nat (x mod 10)).

Definition branch_at (x : Z) : dizhi_t :=
  default DZ_zi (dizhi !! Z.to_nat (x mod 12)).

(** The four pillars of a date, read off its fields. *)
Definition pillars_of (date : datetime) : bazi_t :=
  {| year_tg := stem_at (dt_year date - 1900);
     year_dz := branch_at (dt_year date - 1900);
     month_tg := stem_at (dt_month date - 1);
     month_dz := branch_at (dt_month date - 1);
     day_tg := stem_at (dt_day date - 1);
     day_dz := branch_at (dt_day date - 1);
     hour_tg := stem_at (dt_hour date / 2);
     hour_dz := branch_at (dt_hour date / 2) |}.

(** [n] steps along the generation cycle. *)
Definition sheng_n (n : nat) (a : wuxing_t) : wuxing_t :=
  Nat.iter n (λ w, sheng (wuxing_shengke w)) a.

(** ** The score, element by element *)

(** [1] when the two elements are the same. *)
Definition ind (e w : wuxing_t) : Z := if decide (e = w) then 1 else 0.

(** How often an element occurs in a list of elements. *)
Definition occurrences (l : list wuxing_t) (w : wuxing_t) : Z :=
  foldr (λ e s, ind e w + s) 0 l.

(** The elements of the stem and of the branch of a pillar. *)
Definition pillar_elements (x : Z) : list wuxing_t :=
  [wuxing_tiangan (stem_at x); wuxing_dizhi (branch_at x)].

(** The test under which the two loops of [get_trading_signal] add one to
    the score for an element: the current count exceeds the symbol's, and
    the symbol has the element it generates. *)
Definition gain (cur_wx sym_wx : wuxing_count) (w : wuxing_t) : bool :=
  (wx_get sym_wx w <? wx_get cur_wx w)
  && (0 <? wx_get sym_wx (sheng (wuxing_shengke w))).

(** The entry of [signal_reason] for an element. *)
Definition reason_of (w : wuxing_t) : string :=
  (wuxing_str w ++ "生" ++ wuxing_str (sheng (wuxing_shengke w)))%string.

(** The number of elements that pass a test. *)
Definition count_elements (f : wuxing_t → bool) : Z :=
  foldr (λ w s, Z.b2z (f w) + s) 0 wuxing_list.

(** The values [datetime] accepts. *)
Definition valid_datetime (d : datetime) : Prop :=
  1 ≤ dt_year d ≤ 9999 ∧ 1 ≤ dt_month d ≤ 12
  ∧ 1 ≤ dt_day d ≤ days_in_month (dt_year d) (dt_month d)
  ∧ 0 ≤ dt_hour d ≤ 23.

(** The dates on which the strategy buys. *)
Definition buy_day (y m d : Z) : Prop :=
  m = 1 ∧ d = 1 ∧ (y - 1900) mod 60 = 26.

(** The elements that occur more often in the list [dc] than in [ds]. *)
Definition dominated (dc ds : list wuxing_t) (w : wuxing_t) : bool :=
  occurrences ds w <? occurrences dc w.

(** The pillars in which a first of January differs from the day before,
    for a year at offset [o] in the cycle: year, month 1 and day 1 against
    the year before, month 12 and day 31. *)
Definition new_year_pillars (o : Z) : list wuxing_t * list wuxing_t :=
  (pillar_elements o ++ pillar_elements 0 ++ pillar_elements 0,
   pillar_elements (o - 1) ++ pillar_elements 11 ++ pillar_elements 30).

(** The pillars in which the first of month [m] differs from the day before,
    the last of a month of [dim] days. *)
Definition month_start_pillars (m dim : Z) : list wuxing_t * list wuxing_t :=
  (pillar_elements (m - 1) ++ pillar_elements 0,
   pillar_elements (m - 2) ++ pillar_elements (dim - 1)).

(** The offsets of the cycle, but 26, at which at most two elements gain on
    the first of January. *)
Definition new_year_check (o : Z) : bool :=
  (o =? 26)
  || (count_elements (dominated (new_year_pillars o).1 (new_year_pillars o).2) <=? 2).

(** A run that has not traded: the cash is the initial capital, nothing is
    held, every recorded value is the initial capital and every recorded
    return is zero. *)
Definition untouched (initial_capital : Q) (rs : run_state) : Prop :=
  rs_capital rs = initial_capital
  ∧ rs_positions rs = ∅
  ∧ rs_trades rs = []
  ∧ Forall (λ v, (v == initial_capital)%Q) (portfolio_value rs)
  ∧ Forall (λ r, ∃ q, r = Finite q ∧ (q == 0)%Q) (returns rs)
  ∧ Forall (λ r, r = Finite 0) (daily_returns_list rs).

(** The dates [datetime.date] can hold. *)
Definition valid_date (d : date) : Prop := valid_datetime (combine_min_time d).

(** The entries of [returns] after the first are the relative changes of
    [portfolio_value]. *)
Definition returns_follow_values (rs : run_state) : Prop :=
  length (returns rs) = length (portfolio_value rs)
  ∧ ∀ (i : nat) (prev value : Q),
      portfolio_value rs !! i = Some prev →
      portfolio_value rs !! S i = Some value →
      returns rs !! S i = Some (np_div (value - prev) prev).

(** ** The trade log *)

(** The records of a symbol in the trade log. *)
Definition trades_of (symbol : string) (l : list trade) : list trade :=
  filter (λ t, t_symbol t = symbol) l.

(** The position a BUY record opens. *)
Definition opened_by (t : trade) : position :=
  {| shares := t_shares t; entry_price := t_price t; entry_date := t_date t |}.

(** Replaying the records of one symbol from what is held of it: a BUY
    fits when nothing is held, and opens the position it records; a SELL
    fits when a position is held, and sells exactly its shares.  [None]
    when a record does not fit. *)
Fixpoint replay (held : option position) (l : list trade) : option (option position) :=
  match l with
  | [] => Some held
  | t :: rest =>
      match t_action t, held with
      | A_BUY, None => replay (Some (opened_by t)) rest
      | A_SELL, Some pos =>
          if decide (t_shares t = shares pos) then replay None rest else None
      | _, _ => None
      end
  end.

(** The positions are what the trade log says, symbol by symbol. *)
Definition book_kept (st : sim_state) : Prop :=
  ∀ symbol, replay None (trades_of symbol (trades st)) = Some (positions st !! symbol).

(** [a <= b] on dates. *)
Definition date_le (a b : date) : Prop := a = b ∨ date_lt a b.

(** A record of the trade log that names a symbol of the list, a positive
    number of shares, and the close of the symbol on the date as the
    price. *)
Definition trade_sound (data_dict : gmap string series) (symbols : list string)
    (t : trade) : Prop :=
  t_symbol t ∈ symbols ∧ 0 < t_shares t
  ∧ ∃ data, data_dict !! t_symbol t = Some data
            ∧ close_on data (t_date t) = Some (t_price t).

(** A position of a symbol of the list, with a positive number of shares,
    entered at the close of the symbol on its entry date. *)
Definition position_sound (data_dict : gmap string series) (symbols : list string)
    (symbol : string) (pos : position) : Prop :=
  symbol ∈ symbols ∧ 0 < shares pos
  ∧ ∃ data, data_dict !! symbol = Some data
            ∧ close_on data (entry_date pos) = Some (entry_price pos).

(** What the loop over the symbols keeps on a date: the records and the
    positions are sound, and the log is in the order of the dates and has
    not passed the date. *)
Definition log_sound (data_dict : gmap string series) (symbols : list string)
    (date : date) (ps : gmap string position) (l : list trade) : Prop :=
  Forall (trade_sound data_dict symbols) l
  ∧ map_Forall (position_sound data_dict symbols) ps
  ∧ StronglySorted (λ a b, date_le (t_date a) (t_date b)) l
  ∧ Forall (λ t, date_le (t_date t) date) l.

(** The symbols held have price data. *)
Definition held_in_data (data_dict : gmap string series) (st : sim_state) : Prop :=
  ∀ s, is_Some (positions st !! s) → is_Some (data_dict !! s).

(** Before the first trade the cash is the initial capital and nothing is
    held. *)
Definition fresh_until_traded (initial_capital : Q) (st : sim_state) : Prop :=
  trades st = [] → current_capital st = initial_capital ∧ positions st = ∅.

(** The strategy answers on every bar of the data, and no close is zero. *)
Definition answers_on_bars (strategy : string → datetime → series → option signal_info)
    (data_dict : gmap string series) : Prop :=
  ∀ symbol data d price,
    data_dict !! symbol = Some data → close_on data d = Some price →
    is_Some (strategy symbol (combine_min_time d) data) ∧ ¬ (price == 0)%Q.

(** What the loop over the dates keeps when nothing raises: the symbols
    held have price data, and before the first trade the cash and the last
    recorded value are the initial capital and nothing is held. *)
Definition run_safe (data_dict : gmap string series) (initial_capital : Q)
    (rs : run_state) : Prop :=
  held_in_data data_dict (sim_of_run rs)
  ∧ fresh_until_traded initial_capital (sim_of_run rs)
  ∧ ∃ prev, last (portfolio_value rs) = Some prev
            ∧ (rs_trades rs = [] → (prev == initial_capital)%Q).

(** ** DataProcessor

    [get_stock_data] asks the network, and answers with an empty frame when
    anything goes wrong there: it is a function of the state of the world,
    which it changes, and it never raises. *)

(** The body of the loop of [get_multiple_symbols_data]: the data of a
    symbol is kept unless it is empty. *)
Definition fetch_symbol {world : Type} (get_stock_data : world → string → series * world)
    (acc : gmap string series * world) (symbol : string)
    : gmap string series * world :=
  let '(data, w) := get_stock_data acc.2 symbol in
  match data with
  | [] => (acc.1, w)
  | _ :: _ => (<[symbol := data]> acc.1, w)
  end.

(** [get_multiple_symbols_data], from the empty dictionary. *)
Definition get_multiple_symbols_data {world : Type}
    (get_stock_data : world → string → series * world)
    (symbols : list string) (w : world) : gmap string series * world :=
  fold_left (fetch_symbol get_stock_data) symbols (∅, w).

(** [BacktestingEngine.run_backtest] with its first step, the fetch. *)
Definition run_backtest_fetching {world : Type}
    (get_stock_data : world → string → series * world)
    (strategy : string → datetime → series → option signal_info)
    (initial_capital : Q) (symbols : list string) (w : world)
    : option backtest_result :=
  run_backtest strategy initial_capital symbols
    (get_multiple_symbols_data get_stock_data symbols w).1.

(** ** AssetBaziAnalyzer (品种八字分析.py)

    The analysis of a chart made by [calculate_bazi] and of its counts made
    by [analyze_wuxing_strength]. *)

(** [max(wuxing, key=wuxing.get)]: the keys are visited in the order 木 火
    土 金 水 in which [analyze_wuxing_strength] made them, and a later key
    wins only with a larger count. *)
Definition max_wuxing (c : wuxing_count) : wuxing_t :=
  fold_left (λ best w, if wx_get c best <? wx_get c w then w else best)
    [Huo; Tu; Jin; Shui] Mu.

(** [min(wuxing, key=wuxing.get)]. *)
Definition min_wuxing (c : wuxing_count) : wuxing_t :=
  fold_left (λ best w, if wx_get c w <? wx_get c best then w else best)
    [Huo; Tu; Jin; Shui] Mu.

Definition wuxing_traits (w : wuxing_t) : list string :=
  match w with
  | Mu => ["创新"; "成长"; "灵活"; "进取"; "有活力"]
  | Huo => ["热情"; "活跃"; "变化"; "快速"; "有冲劲"]
  | Tu => ["稳健"; "保守"; "持久"; "可靠"; "有耐心"]
  | Jin => ["精确"; "理性"; "严谨"; "冷静"; "有价值"]
  | Shui => ["流动"; "智慧"; "适应"; "深沉"; "有韧性"]
  end.

(** [_generate_personality_traits]. *)
Definition generate_personality_traits (wuxing : wuxing_count) (max_wuxing : wuxing_t)
    : list string :=
  let traits := wuxing_traits max_wuxing in
  if 3 <=? wx_get wuxing max_wuxing then traits ++ ["特征明显"]
  else if wx_get wuxing max_wuxing =? 2 then traits ++ ["特征中等"]
  else traits ++ ["特征温和"].

(** [l.count(x)]. *)
Definition list_count {A : Type} `{EqDecision A} (l : list A) (x : A) : Z :=
  Z.of_nat (length (filter (λ y, y = x) l)).

(** [sum(count[x] for x in keys)]. *)
Definition sum_over {A : Type} (count : A → Z) (keys : list A) : Z :=
  fold_left (λ s x, s + count x) keys 0.

Definition yang_tiangan : list tiangan_t := [TG_jia; TG_bing; TG_wu; TG_geng; TG_ren].

Definition yin_tiangan : list tiangan_t := [TG_yi; TG_ding; TG_ji; TG_xin; TG_gui].

(** What [_analyze_tiangan] returns. *)
Record tiangan_analysis : Type := {
  tg_distribution : list (tiangan_t * Z);
  yang_count : Z;
  yin_count : Z;
  yang_yin_ratio : Q;
  nature : string
}.

(** [_analyze_tiangan]. *)
Definition analyze_tiangan (bazi : bazi_t) : tiangan_analysis :=
  let tiangan_list := [year_tg bazi; month_tg bazi; day_tg bazi; hour_tg bazi] in
  let tiangan_count := list_count tiangan_list in
  let yang := sum_over tiangan_count yang_tiangan in
  let yin := sum_over tiangan_count yin_tiangan in
  {| tg_distribution := (λ tg, (tg, tiangan_count tg)) <$> tiangan;
     yang_count := yang;
     yin_count := yin;
     yang_yin_ratio := inject_Z yang / inject_Z (Z.max yin 1);
     nature := if yin <? yang then "阳性" else "阴性" |}.

(** The seasons 春季 夏季 秋季 冬季. *)
Inductive season_t : Set := Spring | Summer | Autumn | Winter.

#[global] Instance season_eq_dec : EqDecision season_t.
Proof. solve_decision. Defined.

Definition season_dz (s : season_t) : list dizhi_t :=
  match s with
  | Spring => [DZ_yin; DZ_mao; DZ_chen]
  | Summer => [DZ_si; DZ_wu; DZ_wei]
  | Autumn => [DZ_shen; DZ_you; DZ_xu]
  | Winter => [DZ_zi; DZ_chou; DZ_hai]
  end.

(** What [_analyze_dizhi] returns. *)
Record dizhi_analysis : Type := {
  dz_distribution : list (dizhi_t * Z);
  season_distribution : season_t → Z;
  dominant_season : season_t;
  season_balance : Z
}.

(** [_analyze_dizhi]; [max(season_count, key=season_count.get)] visits the
    seasons in the order 春季 夏季 秋季 冬季. *)
Definition analyze_dizhi (bazi : bazi_t) : dizhi_analysis :=
  let dizhi_list := [year_dz bazi; month_dz bazi; day_dz bazi; hour_dz bazi] in
  let dizhi_count := list_count dizhi_list in
  let season_count := λ s, sum_over dizhi_count (season_dz s) in
  let values := season_count <$> [Summer; Autumn; Winter] in
  {| dz_distribution := (λ dz, (dz, dizhi_count dz)) <$> dizhi;
     season_distribution := season_count;
     dominant_season :=
       fold_left (λ best s, if season_count best <? season_count s then s else best)
         [Summer; Autumn; Winter] Spring;
     season_balance :=
       fold_left Z.max values (season_count Spring)
       - fold_left Z.min values (season_count Spring) |}.

(** Whether a stem is one of [yang_tiangan]. *)
Definition is_yang (tg : tiangan_t) : bool :=
  match tg with
  | TG_jia | TG_bing | TG_wu | TG_geng | TG_ren => true
  | TG_yi | TG_ding | TG_ji | TG_xin | TG_gui => false
  end.

(** The season of a branch. *)
Definition season_of (dz : dizhi_t) : season_t :=
  match dz with
  | DZ_yin | DZ_mao | DZ_chen => Spring
  | DZ_si | DZ_wu | DZ_wei => Summer
  | DZ_shen | DZ_you | DZ_xu => Autumn
  | DZ_zi | DZ_chou | DZ_hai => Winter
  end.

(** [asset_launch_dates] of [AssetBaziAnalyzer]: the three assets. *)
Definition asset_launch_dates (asset_name : string) : option datetime :=
  if decide (asset_name = "上证指数") then
    Some {| dt_year := 1990; dt_month := 12; dt_day := 19; dt_hour := 0 |}
  else if decide (asset_name = "黄金") then
    Some {| dt_year := 1971; dt_month := 8; dt_day := 15; dt_hour := 0 |}
  else if decide (asset_name = "BTC") then
    Some {| dt_year := 2009; dt_month := 1; dt_day := 3; dt_hour := 0 |}
  else None.

(** [get_asset_bazi]: the launch date, its chart and its counts; [None] is
    the [ValueError] for an asset that is not in the table. *)
Definition get_asset_bazi (asset_name : string)
    : option (datetime * bazi_t * wuxing_count) :=
  launch_date ← asset_launch_dates asset_name;
  bazi ← calculate_bazi launch_date;
  Some (launch_date, bazi, analyze_wuxing_strength bazi).

(** ** MonthlyPatternAnalyzer (月度规律分析.py) *)

(** [asset_bazi_features]: the dominant element, the nature and the season
    written down for each asset. *)
Definition asset_bazi_features (asset_name : string)
    : option (wuxing_t * string * season_t) :=
  if decide (asset_name = "上证指数") then Some (Mu, "阳性", Summer)
  else if decide (asset_name = "黄金") then Some (Mu, "阴性", Winter)
  else if decide (asset_name = "BTC") then Some (Mu, "阳性", Winter)
  else None.

(** [month_bazi]: the branch, the element and the season of each month. *)
Definition month_bazi (month : Z) : option (dizhi_t * wuxing_t * season_t) :=
  match month with
  | 1 => Some (DZ_chou, Tu, Winter)
  | 2 => Some (DZ_yin, Mu, Spring)
  | 3 => Some (DZ_mao, Mu, Spring)
  | 4 => Some (DZ_chen, Tu, Spring)
  | 5 => Some (DZ_si, Huo, Summer)
  | 6 => Some (DZ_wu, Huo, Summer)
  | 7 => Some (DZ_wei, Tu, Summer)
  | 8 => Some (DZ_shen, Jin, Autumn)
  | 9 => Some (DZ_you, Jin, Autumn)
  | 10 => Some (DZ_xu, Tu, Autumn)
  | 11 => Some (DZ_hai, Shui, Winter)
  | 12 => Some (DZ_zi, Shui, Winter)
  | _ => None
  end.

(** The months of a season in [_analyze_seasonal_patterns]. *)
Definition seasonal_months (s : season_t) : list Z :=
  match s with
  | Spring => [2; 3; 4]
  | Summer => [5; 6; 7]
  | Autumn => [8; 9; 10]
  | Winter => [11; 12; 1]
  end.

(** What [_predict_monthly_performance] returns. *)
Record monthly_prediction : Type := {
  expected_return : string;
  expected_volatility : string;
  expected_win_rate : Q;
  prediction_confidence : Q;
  prediction_reason : string;
  accuracy : Q
}.

(** [_predict_monthly_performance]; of [actual_stats] only the win rate is
    read. *)
Definition predict_monthly_performance (dominant_wuxing month_wuxing : string)
    (relationship : relation_t) (actual_win_rate : Q) : monthly_prediction :=
  let '(ret, vol, win, conf, why) :=
    match relationship with
    | R_tong =>
        ("较好", "较高", 6 # 10, 7 # 10,
         dominant_wuxing ++ "行与" ++ month_wuxing ++ "行相同，应该表现较好")
    | R_sheng =>
        ("很好", "高", 7 # 10, 8 # 10,
         dominant_wuxing ++ "行生" ++ month_wuxing ++ "行，应该表现很好")
    | R_bei_sheng =>
        ("好", "中等", 65 # 100, 7 # 10,
         month_wuxing ++ "行生" ++ dominant_wuxing ++ "行，应该表现好")
    | R_ke =>
        ("较差", "高", 4 # 10, 6 # 10,
         dominant_wuxing ++ "行克" ++ month_wuxing ++ "行，可能表现较差")
    | R_bei_ke =>
        ("差", "高", 3 # 10, 7 # 10,
         month_wuxing ++ "行克" ++ dominant_wuxing ++ "行，可能表现差")
    | R_wu => ("中等", "中等", 5 # 10, 5 # 10, "")
    end%string%Q in
  let acc := (1 - Qabs (actual_win_rate - win))%Q in
  {| expected_return := ret; expected_volatility := vol; expected_win_rate := win;
     prediction_confidence := (conf * acc)%Q; prediction_reason := why;
     accuracy := acc |}.

(** The body of the loop of [correlate_with_bazi] for one month: the
    relation of the dominant element, if the asset has one, to the element
    of the month, and the prediction made from it; [None] is the [KeyError]
    for a month that is not in [month_bazi]. *)
Definition correlate_month (dominant_wuxing : option wuxing_t) (month : Z)
    (actual_win_rate : Q) : option (relation_t * monthly_prediction) :=
  '(_, month_wuxing, _) ← month_bazi month;
  let relationship :=
    match dominant_wuxing with
    | Some d => get_wuxing_relationship d month_wuxing
    | None => R_wu
    end in
  Some (relationship,
        predict_monthly_performance (from_option wuxing_str ""%string dominant_wuxing)
          (wuxing_str month_wuxing) relationship actual_win_rate).

(** ** Visualization

    Lines 404 to 406 of [plot_portfolio_performance]: the dates and the
    values of the curve of the portfolio value, cut to the same length. *)
Definition plotted_curve (results : run_state) : list date * list Q :=
  let min_len := Nat.min (length (dates results)) (length (portfolio_value results)) in
  (take min_len (dates results), take min_len (portfolio_value results)).

(** A record of the trade log that was made on a signal of the strategy for
    its symbol on its date: BUY for a purchase, SELL for a sale, with the
    confidence of the signal. *)
Definition signalled (strategy : string → datetime → series → option signal_info)
    (data_dict : gmap string series) (t : trade) : Prop :=
  ∃ data info,
    data_dict !! t_symbol t = Some data
    ∧ strategy (t_symbol t) (combine_min_time (t_date t)) data = Some info
    ∧ signal info = match t_action t with A_BUY => BUY | A_SELL => SELL end
    ∧ t_confidence t = confidence info.

(** * Properties *)

(** ** The relation between elements *)

(** The generation cycle and the overcoming cycle of [wuxing_shengke] are
    inverted by its [bei_sheng] and [bei_ke] columns. *)
Lemma shengke_sheng_inverse (a : wuxing_t) :
  bei_sheng (wuxing_shengke (sheng (wuxing_shengke a))) = a
  ∧ sheng (wuxing_shengke (bei_sheng (wuxing_shengke a))) = a.
Proof. by destruct a. Qed.

Lemma shengke_ke_inverse (a : wuxing_t) :
  bei_ke (wuxing_shengke (ke (wuxing_shengke a))) = a
  ∧ ke (wuxing_shengke (bei_ke (wuxing_shengke a))) = a.
Proof. by destruct a. Qed.

(** The four columns of a row are four different elements, none of them the
    row's own: the tests of [get_wuxing_relationship] never overlap. *)
Lemma shengke_row_distinct (a : wuxing_t) :
  let r := wuxing_shengke a in
  NoDup [a; sheng r; ke r; bei_sheng r; bei_ke r].
Proof.
  destruct a; cbn; by apply (bool_decide_unpack _).
Qed.

Lemma relationship_sheng (a b : wuxing_t) :
  get_wuxing_relationship a b = R_sheng ↔ sheng (wuxing_shengke a) = b.
Proof.
  destruct a, b; cbv; split; congruence.
Qed.

Lemma relationship_ke (a b : wuxing_t) :
  get_wuxing_relationship a b = R_ke ↔ ke (wuxing_shengke a) = b.
Proof.
  destruct a, b; cbv; split; congruence.
Qed.

Lemma relationship_bei_sheng (a b : wuxing_t) :
  get_wuxing_relationship a b = R_bei_sheng ↔ bei_sheng (wuxing_shengke a) = b.
Proof.
  destruct a, b; cbv; split; congruence.
Qed.

Lemma relationship_bei_ke (a b : wuxing_t) :
  get_wuxing_relationship a b = R_bei_ke ↔ bei_ke (wuxing_shengke a) = b.
Proof.
  destruct a, b; cbv; split; congruence.
Qed.

(** C8.  For all elements [a] and [b]: [a] generates [b] exactly when [b] is
    generated by [a]; [a] overcomes [b] exactly when [b] is overcome by [a];
    and every element is in the relation "same" with itself. *)
Theorem relationship_inversion (a b : wuxing_t) :
  (get_wuxing_relationship a b = R_sheng ↔ get_wuxing_relationship b a = R_bei_sheng)
  ∧ (get_wuxing_relationship a b = R_ke ↔ get_wuxing_relationship b a = R_bei_ke)
  ∧ get_wuxing_relationship a a = R_tong.
Proof.
  rewrite relationship_sheng, relationship_bei_sheng,
    relationship_ke, relationship_bei_ke.
  split; [| split].
  - split; intros <-; apply shengke_sheng_inverse.
  - split; intros <-; apply shengke_ke_inverse.
  - unfold get_wuxing_relationship. by rewrite decide_True.
Qed.

(** The fallback 无 is never returned. *)
Lemma relationship_never_wu (a b : wuxing_t) : get_wuxing_relationship a b ≠ R_wu.
Proof. by destruct a, b. Qed.

(** ** The element counts of a date *)

Lemma wx_total_incr (w : wuxing_t) (c : wuxing_count) :
  wx_total (wx_incr w c) = wx_total c + 1.
Proof. destruct w; unfold wx_total; cbn; lia. Qed.

Lemma wx_get_incr (w v : wuxing_t) (c : wuxing_count) :
  wx_get (wx_incr w c) v = if decide (w = v) then wx_get c v + 1 else wx_get c v.
Proof. by destruct w, v. Qed.

Lemma wx_nonneg_incr (w : wuxing_t) (c : wuxing_count) :
  wx_nonneg c → wx_nonneg (wx_incr w c).
Proof.
  intros Hc v. rewrite wx_get_incr. specialize (Hc v). case_decide; lia.
Qed.

(** Counting a list of symbols adds its length to the total. *)
Lemma wx_count_fold {A : Type} (f : A → wuxing_t) (l : list A) (c : wuxing_count) :
  let c' := fold_left (fun c x => wx_incr (f x) c) l c in
  wx_total c' = wx_total c + Z.of_nat (length l) ∧ (wx_nonneg c → wx_nonneg c').
Proof.
  revert c. induction l as [| x l IH]; intros c; cbn.
  - split; [lia | done].
  - destruct (IH (wx_incr (f x) c)) as [Ht Hn]. split.
    + rewrite Ht, wx_total_incr. lia.
    + intros Hc. by apply Hn, wx_nonneg_incr.
Qed.

Lemma analyze_wuxing_strength_total (bazi : bazi_t) :
  wx_total (analyze_wuxing_strength bazi) = 8
  ∧ wx_nonneg (analyze_wuxing_strength bazi).
Proof.
  unfold analyze_wuxing_strength.
  set (tgs := [year_tg bazi; month_tg bazi; day_tg bazi; hour_tg bazi]).
  set (dzs := [year_dz bazi; month_dz bazi; day_dz bazi; hour_dz bazi]).
  destruct (wx_count_fold wuxing_tiangan tgs wx_zero) as [Ht1 Hn1].
  destruct (wx_count_fold wuxing_dizhi dzs
              (fold_left (fun c x => wx_incr (wuxing_tiangan x) c) tgs wx_zero))
    as [Ht2 Hn2].
  split.
  - rewrite Ht2, Ht1. reflexivity.
  - apply Hn2, Hn1. by intros [].
Qed.

(** An index taken modulo the length of the table is in the table. *)
Lemma tiangan_lookup_mod (z : Z) : is_Some (tiangan !! Z.to_nat (z mod 10)).
Proof.
  apply lookup_lt_is_Some. cbn.
  pose proof (Z.mod_pos_bound z 10). lia.
Qed.

Lemma dizhi_lookup_mod (z : Z) : is_Some (dizhi !! Z.to_nat (z mod 12)).
Proof.
  apply lookup_lt_is_Some. cbn.
  pose proof (Z.mod_pos_bound z 12). lia.
Qed.

(** [calculate_bazi] raises on no date. *)
Lemma calculate_bazi_total (date : datetime) : is_Some (calculate_bazi date).
Proof.
  unfold calculate_bazi, get_tiangan_dizhi.
  destruct (tiangan_lookup_mod ((dt_year date - 1900) mod 60)) as [? ->].
  destruct (dizhi_lookup_mod ((dt_year date - 1900) mod 60)) as [? ->].
  destruct (tiangan_lookup_mod (dt_month date - 1)) as [? ->].
  destruct (dizhi_lookup_mod (dt_month date - 1)) as [? ->].
  destruct (tiangan_lookup_mod (dt_day date - 1)) as [? ->].
  destruct (dizhi_lookup_mod (dt_day date - 1)) as [? ->].
  destruct (tiangan_lookup_mod (dt_hour date / 2)) as [? ->].
  destruct (dizhi_lookup_mod (dt_hour date / 2)) as [? ->].
  by eexists.
Qed.

(** C7.  For every timestamp, [calculate_bazi] returns a pillar set, and the
    element counts [analyze_wuxing_strength] makes of it are all non-negative
    and add up to exactly 8. *)
Theorem strength_of_date_sums_to_8 (date : datetime) :
  ∃ bazi, calculate_bazi date = Some bazi
    ∧ (∀ w, 0 ≤ wx_get (analyze_wuxing_strength bazi) w)
    ∧ n_mu (analyze_wuxing_strength bazi) + n_huo (analyze_wuxing_strength bazi)
      + n_tu (analyze_wuxing_strength bazi) + n_jin (analyze_wuxing_strength bazi)
      + n_shui (analyze_wuxing_strength bazi) = 8.
Proof.
  destruct (calculate_bazi_total date) as [bazi Hb].
  exists bazi. split; [done |].
  destruct (analyze_wuxing_strength_total bazi) as [Ht Hn].
  split; [exact Hn | exact Ht].
Qed.

(** ** The score and the decision rule *)

(** A loop whose body never lowers the score never lowers it. *)
Lemma fold_left_score_mono {A : Type} (f : Z * list string → A → Z * list string)
    (l : list A) (acc : Z * list string) :
  (∀ acc x, acc.1 ≤ (f acc x).1) → acc.1 ≤ (fold_left f l acc).1.
Proof.
  intros Hf. revert acc. induction l as [| x l IH]; intros acc; cbn.
  - lia.
  - etransitivity; [apply (Hf acc x) | apply IH].
Qed.

Lemma score_target_mono sym_wx wuxing acc target :
  acc.1 ≤ (score_target sym_wx wuxing acc target).1.
Proof.
  unfold score_target.
  case_decide; [| lia].
  destruct (bool_decide _ && _); cbn; lia.
Qed.

Lemma score_wuxing_mono cur_wx sym_wx acc wuxing :
  acc.1 ≤ (score_wuxing cur_wx sym_wx acc wuxing).1.
Proof.
  unfold score_wuxing.
  destruct (_ <? _); [| lia].
  apply fold_left_score_mono. intros. apply score_target_mono.
Qed.

Lemma signal_score_nonneg (cur_wx sym_wx : wuxing_count) :
  0 ≤ (signal_score cur_wx sym_wx).1.
Proof.
  unfold signal_score.
  change 0 with ((0, @nil string).1) at 1.
  apply fold_left_score_mono. intros. apply score_wuxing_mono.
Qed.

(** What [evaluate] returns, field by field. *)
Lemma evaluate_fields (bazi : bazi_t) (cur_wx sym_wx : wuxing_count) :
  strength (evaluate bazi cur_wx sym_wx) = (signal_score cur_wx sym_wx).1
  ∧ reason (evaluate bazi cur_wx sym_wx) = (signal_score cur_wx sym_wx).2
  ∧ (signal (evaluate bazi cur_wx sym_wx), confidence (evaluate bazi cur_wx sym_wx))
    = decide_signal (signal_score cur_wx sym_wx).1.
Proof.
  unfold evaluate.
  destruct (signal_score cur_wx sym_wx) as [s rs]; cbn.
  by destruct (decide_signal s).
Qed.

(** SELL is decided only on a score of -3 or less. *)
Lemma evaluate_sell_score (bazi : bazi_t) (cur_wx sym_wx : wuxing_count) :
  signal (evaluate bazi cur_wx sym_wx) = SELL → (signal_score cur_wx sym_wx).1 ≤ -3.
Proof.
  destruct (evaluate_fields bazi cur_wx sym_wx) as (_ & _ & Hd).
  intros Hsell. rewrite Hsell in Hd. revert Hd.
  unfold decide_signal.
  destruct (3 <=? _) eqn:H3; [discriminate |].
  destruct (_ <=? -3) eqn:Hm3; [| discriminate].
  intros _. by apply Z.leb_le in Hm3.
Qed.

(** C3.  For every pair of element counts the score is non-negative, and the
    signal is never SELL. *)
Theorem score_nonneg_never_sell (bazi : bazi_t) (cur_wx sym_wx : wuxing_count) :
  0 ≤ strength (evaluate bazi cur_wx sym_wx)
  ∧ signal (evaluate bazi cur_wx sym_wx) ≠ SELL.
Proof.
  destruct (evaluate_fields bazi cur_wx sym_wx) as (Hs & _ & _).
  pose proof (signal_score_nonneg cur_wx sym_wx) as Hnn.
  split; [by rewrite Hs |].
  intros Hsell%evaluate_sell_score. lia.
Qed.

(** The decision rule, on any integer score. *)
Lemma decide_signal_rule (s : Z) :
  (3 ≤ s → decide_signal s = (BUY, Qmin (inject_Z s / 5) 1))
  ∧ (s ≤ -3 → decide_signal s = (SELL, Qmin (inject_Z (Z.abs s) / 5) 1))
  ∧ (-3 < s < 3 → decide_signal s = (HOLD, 1 # 2)%Q).
Proof.
  unfold decide_signal. split; [| split]; intros Hs.
  - by rewrite (proj2 (Z.leb_le 3 s) Hs).
  - rewrite (proj2 (Z.leb_gt 3 s)) by lia.
    by rewrite (proj2 (Z.leb_le s (-3)) Hs).
  - rewrite (proj2 (Z.leb_gt 3 s)) by lia.
    by rewrite (proj2 (Z.leb_gt s (-3))) by lia.
Qed.

(** C6.  [evaluate] reports the score of the scoring loops and decides on
    it: BUY with confidence [min(score/5, 1)] from 3 up, SELL with
    confidence [min(|score|/5, 1)] from -3 down, and HOLD with confidence
    0.5 in between.  The signal and the confidence are those of
    [decide_signal] at the score, and [decide_signal] follows the same rule
    at every integer, the negative ones included. *)
Theorem evaluate_decision_rule (bazi : bazi_t) (cur_wx sym_wx : wuxing_count) :
  let r := evaluate bazi cur_wx sym_wx in
  let score := (signal_score cur_wx sym_wx).1 in
  strength r = score
  ∧ (3 ≤ score → signal r = BUY ∧ confidence r = Qmin (inject_Z score / 5) 1)
  ∧ (score ≤ -3 → signal r = SELL ∧ confidence r = Qmin (inject_Z (Z.abs score) / 5) 1)
  ∧ (-3 < score < 3 → signal r = HOLD ∧ confidence r = (1 # 2)%Q)
  ∧ (signal r, confidence r) = decide_signal score
  ∧ (∀ s : Z,
       (3 ≤ s → decide_signal s = (BUY, Qmin (inject_Z s / 5) 1))
       ∧ (s ≤ -3 → decide_signal s = (SELL, Qmin (inject_Z (Z.abs s) / 5) 1))
       ∧ (-3 < s < 3 → decide_signal s = (HOLD, 1 # 2)%Q)).
Proof.
  intros r score.
  destruct (evaluate_fields bazi cur_wx sym_wx) as (Hs & _ & Hd).
  fold r score in Hs, Hd.
  destruct (decide_signal_rule score) as (Hbuy & Hsell & Hhold).
  split; [exact Hs |].
  split; [| split; [| split; [| split]]].
  - intros Hc. rewrite (Hbuy Hc) in Hd. by inversion Hd.
  - intros Hc. rewrite (Hsell Hc) in Hd. by inversion Hd.
  - intros Hc. rewrite (Hhold Hc) in Hd. by inversion Hd.
  - exact Hd.
  - exact decide_signal_rule.
Qed.

(** ** Numbers *)

Lemma np_div_finite (a b : Q) : ¬ (b == 0)%Q → np_div a b = Finite (a / b).
Proof.
  intros Hb. unfold np_div.
  destruct (Qeq_bool b 0) eqn:E; [| done].
  by apply Qeq_bool_iff in E.
Qed.

Lemma np_div_zero (a b : Q) : (b == 0)%Q → np_div a b = NonFinite.
Proof.
  intros Hb. unfold np_div. by rewrite (proj2 (Qeq_bool_iff b 0) Hb).
Qed.

(** [int()] truncates: it agrees with the floor from 1 up, and gives no
    positive integer below 1. *)
Lemma py_int_floor_pos (x : Q) : 0 < Qfloor x → py_int x = Qfloor x.
Proof.
  destruct x as [n d]. unfold py_int, Qfloor; cbn. intros Hpos.
  apply Z.quot_div_nonneg; [| lia].
  destruct (Z.neg_nonneg_cases n) as [Hneg |]; [| done].
  pose proof (Z.div_lt_upper_bound n (Z.pos d) 0 ltac:(lia) ltac:(lia)). lia.
Qed.

Lemma py_int_floor_nonpos (x : Q) : Qfloor x ≤ 0 → py_int x ≤ 0.
Proof.
  destruct x as [n d]. unfold py_int, Qfloor; cbn. intros Hle.
  destruct (Z.neg_nonneg_cases n) as [Hneg | Hnn].
  - pose proof (Z.quot_opp_l n (Z.pos d) ltac:(lia)) as Hq.
    pose proof (Z.quot_pos (- n) (Z.pos d) ltac:(lia) ltac:(lia)). lia.
  - rewrite Z.quot_div_nonneg by lia. done.
Qed.

(** A positive [int(x)] is at most [x]. *)
Lemma py_int_pos_le (x : Q) : 0 < py_int x → (inject_Z (py_int x) <= x)%Q.
Proof.
  intros Hpos.
  destruct (Z.lt_ge_cases 0 (Qfloor x)) as [Hf | Hf].
  - rewrite (py_int_floor_pos x Hf). apply Qfloor_le.
  - pose proof (py_int_floor_nonpos x ltac:(lia)). lia.
Qed.

(** ** One symbol on one date *)

#[local] Opaque Qplus Qminus Qmult Qdiv Qinv Qfloor py_int.

Section EngineFacts.

Variable strategy : string → datetime → series → option signal_info.
Variable data_dict : gmap string series.

(** [process_symbol] at a symbol with a bar: the strategy is asked, the
    trade is made and the open position marked. *)
Lemma process_symbol_bar date st symbol data price info :
  data_dict !! symbol = Some data →
  close_on data date = Some price →
  strategy symbol (combine_min_time date) data = Some info →
  process_symbol strategy data_dict date st symbol
  = mark symbol price <$> trade_symbol date symbol price info st.
Proof.
  intros Hdata Hbar Hinfo. unfold process_symbol.
  rewrite Hdata, Hbar, Hinfo. cbn.
  by destruct (trade_symbol date symbol price info st).
Qed.

(** [mark] only touches the accumulator [daily_returns]. *)
Lemma mark_frame symbol price st :
  current_capital (mark symbol price st) = current_capital st
  ∧ positions (mark symbol price st) = positions st
  ∧ trades (mark symbol price st) = trades st.
Proof. unfold mark. by destruct (positions st !! symbol). Qed.


(** C5.  On a date where the symbol has a bar, a SELL signal for a symbol
    with an open position of [s] shares credits the cash [s * close],
    appends a SELL record carrying [s] to the trade log, and removes the
    position: the symbol is flat again. *)
Theorem sell_rule (date : date) (st : sim_state) (symbol : string)
    (data : series) (price : Q) (info : signal_info) (pos : position) :
  data_dict !! symbol = Some data →
  close_on data date = Some price →
  strategy symbol (combine_min_time date) data = Some info →
  signal info = SELL →
  positions st !! symbol = Some pos →
  ∃ st', process_symbol strategy data_dict date st symbol = Some st'
    ∧ current_capital st' = (current_capital st + inject_Z (shares pos) * price)%Q
    ∧ trades st'
      = trades st ++ [{| t_date := date; t_symbol := symbol; t_action := A_SELL;
                         t_shares := shares pos; t_price := price;
                         t_confidence := confidence info |}]
    ∧ positions st' = delete symbol (positions st)
    ∧ positions st' !! symbol = None.
Proof.
  intros Hdata Hbar Hinfo Hsell Hopen.
  rewrite (process_symbol_bar _ _ _ _ _ _ Hdata Hbar Hinfo).
  unfold trade_symbol. rewrite Hsell, Hopen. cbn.
  eexists. split; [reflexivity |].
  destruct (mark_frame symbol price (sell date symbol price info pos st))
    as (Hc & Hp & Ht).
  rewrite Hc, Hp, Ht. cbn.
  repeat split. apply lookup_delete_eq.
Qed.

End EngineFacts.

#[local] Transparent Qplus Qminus Qmult Qdiv Qinv Qfloor py_int.


(** The SELL rule at the second date of scenario A: the 50 shares are sold
    at 110 and the cash rises from 95000 to 100500. *)
Lemma sell_rule_scenario_A :
  ∃ st', process_symbol scenario_A_strategy scenario_A_data (day 2023 1 3)
           scenario_A_open "DEMO" = Some st'
    ∧ (current_capital st' == 100500)%Q
    ∧ positions st' !! "DEMO" = None
    ∧ (t_action <$> trades st', t_shares <$> trades st') = ([A_BUY; A_SELL], [50; 50]).
Proof.
  destruct (sell_rule scenario_A_strategy scenario_A_data (day 2023 1 3)
              scenario_A_open "DEMO" scenario_A_series 110
              (forced_signal SELL (1 # 2))
              {| shares := 50; entry_price := 100; entry_date := day 2023 1 2 |}
              eq_refl eq_refl eq_refl eq_refl eq_refl)
    as (st' & Hrun & Hcash & Htr & _ & Hflat).
  exists st'. split; [exact Hrun |].
  rewrite Hcash, Htr. split; [by vm_compute |].
  split; [exact Hflat | reflexivity].
Defined.

(** Scenario A as a whole run: the equity curve is 100000, 100000, 100500,
    100500 and the cash ends at 100500. *)
Example scenario_A_run :
  ∃ r, run_backtest scenario_A_strategy 100000 ["DEMO"] scenario_A_data
       = Some (Results r)
    ∧ Qred <$> portfolio_value r = [100000; 100000; 100500; 100500]%Q
    ∧ Qred (rs_capital r) = 100500%Q
    ∧ t_action <$> rs_trades r = [A_BUY; A_SELL]
    ∧ rs_positions r = ∅.
Proof.
  eexists. split; [by vm_compute |]. by vm_compute.
Qed.

(** ** Sums of position values

    The sum of line 335 runs over [positions.items()]; [map_fold] visits the
    same entries in another order, and the sum is the same rational number. *)
#[local] Instance oQeq_equivalence : Equivalence oQeq.
Proof.
  split.
  - intros [x |]; cbn; first [reflexivity | done].
  - intros [x |] [y |]; cbn; try done; intros Hxy; by symmetry.
  - intros [x |] [y |] [z |]; cbn; try done; intros Hxy Hyz; by etransitivity.
Qed.

Section DayFacts.

Variable strategy : string → datetime → series → option signal_info.
Variable data_dict : gmap string series.

Lemma add_position_value_proper date sym pos :
  Proper (oQeq ==> oQeq) (add_position_value data_dict date sym pos).
Proof.
  intros [x |] [y |] Hxy; cbn in *; try done.
  destruct (data_dict !! sym) as [data |]; cbn; [| done].
  destruct (close_on data date); cbn; [| done].
  by rewrite Hxy.
Qed.

Lemma add_position_value_comm date s1 p1 s2 p2 acc :
  oQeq (add_position_value data_dict date s1 p1 (add_position_value data_dict date s2 p2 acc))
       (add_position_value data_dict date s2 p2 (add_position_value data_dict date s1 p1 acc)).
Proof.
  destruct acc as [x |]; cbn; [| done].
  destruct (data_dict !! s1) as [data1 |] eqn:Hd1,
           (data_dict !! s2) as [data2 |] eqn:Hd2; cbn.
  all: try destruct (close_on data1 date); try destruct (close_on data2 date);
    cbn; rewrite ?Hd1, ?Hd2; cbn.
  all: first [ring | done].
Qed.

(** A symbol with no bar on the date adds nothing to the total. *)
Lemma add_position_value_no_bar date symbol data pos acc :
  data_dict !! symbol = Some data →
  close_on data date = None →
  add_position_value data_dict date symbol pos acc = acc.
Proof.
  intros Hdata Hbar. unfold add_position_value.
  destruct acc as [x |]; cbn; [| done].
  by rewrite Hdata; cbn; rewrite Hbar.
Qed.

Lemma total_position_value_no_bar date symbol data ps :
  data_dict !! symbol = Some data →
  close_on data date = None →
  oQeq (total_position_value data_dict date ps)
       (total_position_value data_dict date (delete symbol ps)).
Proof.
  intros Hdata Hbar. unfold total_position_value.
  destruct (ps !! symbol) as [pos |] eqn:Hpos.
  - rewrite (map_fold_delete oQeq (add_position_value data_dict date) (Some 0%Q) symbol pos ps).
    + by rewrite (add_position_value_no_bar _ _ _ _ _ Hdata Hbar).
    + intros. apply add_position_value_proper.
    + intros. apply add_position_value_comm.
    + done.
  - by rewrite delete_id.
Qed.

(** A symbol with no bar on the date is passed over. *)
Lemma process_symbol_no_bar date symbol data st :
  data_dict !! symbol = Some data →
  close_on data date = None →
  process_symbol strategy data_dict date st symbol = Some st.
Proof.
  intros Hdata Hbar. unfold process_symbol. by rewrite Hdata, Hbar.
Qed.

(** A symbol with no price data at all is passed over too. *)
Lemma process_symbol_no_data date symbol st :
  data_dict !! symbol = None →
  process_symbol strategy data_dict date st symbol = Some st.
Proof.
  intros Hdata. unfold process_symbol. by rewrite Hdata.
Qed.

(** The trade of one symbol leaves the positions of the others alone. *)
Lemma trade_symbol_frame date symbol price info st st' other :
  trade_symbol date symbol price info st = Some st' →
  other ≠ symbol →
  positions st' !! other = positions st !! other.
Proof.
  unfold trade_symbol, buy. intros Htrade Hne.
  destruct (signal info), (positions st !! symbol) as [pos |]; simplify_eq; try done.
  - destruct (int_of_div _ _) as [n |]; [| done]. cbn in Htrade.
    destruct (0 <? n); simplify_eq; [| done].
    cbn. by rewrite lookup_insert_ne.
  - cbn. by rewrite lookup_delete_ne.
Qed.

Lemma process_symbol_frame date symbol st st' other :
  process_symbol strategy data_dict date st symbol = Some st' →
  other ≠ symbol →
  positions st' !! other = positions st !! other.
Proof.
  unfold process_symbol. intros Hrun Hne.
  destruct (data_dict !! symbol) as [data |]; [| by simplify_eq].
  destruct (close_on data date) as [price |]; [| by simplify_eq].
  destruct (strategy _ _ _) as [info |]; [| done]. cbn in Hrun.
  destruct (trade_symbol _ _ _ _ _) as [st1 |] eqn:Htrade; [| done].
  cbn in Hrun. simplify_eq.
  destruct (mark_frame symbol price st1) as (_ & -> & _).
  by eapply trade_symbol_frame.
Qed.

(** The symbol loop of a date leaves the position of a symbol with no bar
    on that date as it was. *)
Lemma for_each_no_bar date symbol data symbols st st' :
  data_dict !! symbol = Some data →
  close_on data date = None →
  for_each (process_symbol strategy data_dict date) symbols st = Some st' →
  positions st' !! symbol = positions st !! symbol.
Proof.
  intros Hdata Hbar. revert st.
  induction symbols as [| s symbols IH]; intros st Hrun; cbn in Hrun.
  - by simplify_eq.
  - destruct (process_symbol strategy data_dict date st s) as [st1 |] eqn:Hstep; [| done].
    cbn in Hrun. rewrite (IH _ Hrun).
    destruct (decide (symbol = s)) as [<- | Hne].
    + rewrite (process_symbol_no_bar _ _ _ _ Hdata Hbar) in Hstep.
      by simplify_eq.
    + by eapply process_symbol_frame.
Qed.

(** C9.  A symbol that has price data but no bar on a date is skipped on
    that date without an error, whatever the state; it is left out of that
    date's sum of position values; and its position, open or not, is the
    same after the symbol loop of the date and in the state carried to the
    next date. *)
Theorem no_bar_symbol_skipped (date : date) (symbol : string) (data : series) :
  data_dict !! symbol = Some data →
  close_on data date = None →
  (∀ st, process_symbol strategy data_dict date st symbol = Some st)
  ∧ (∀ ps, oQeq (total_position_value data_dict date ps)
                (total_position_value data_dict date (delete symbol ps)))
  ∧ (∀ symbols st st',
       for_each (process_symbol strategy data_dict date) symbols st = Some st' →
       positions st' !! symbol = positions st !! symbol)
  ∧ (∀ symbols rs rs',
       process_date strategy data_dict symbols rs date = Some rs' →
       rs_positions rs' !! symbol = rs_positions rs !! symbol).
Proof.
  intros Hdata Hbar. split; [| split; [| split]].
  - intros st. by eapply process_symbol_no_bar.
  - intros ps. by eapply total_position_value_no_bar.
  - intros symbols st st'. by eapply for_each_no_bar.
  - intros symbols rs rs' Hrun. unfold process_date in Hrun.
    destruct (for_each _ symbols _) as [st |] eqn:Hloop; [| done].
    cbn -[last] in Hrun.
    destruct (total_position_value data_dict date (positions st)); [| done].
    destruct (last (portfolio_value rs)); [| done].
    cbn in Hrun.
    destruct (period_return _ _ _); [| done].
    cbn in Hrun. simplify_eq. cbn.
    by rewrite (for_each_no_bar _ _ _ _ _ _ Hdata Hbar Hloop).
Qed.

End DayFacts.

(** Scenario E at its second date: Y is skipped, X is sold, and the position
    in Y is the same afterwards. *)
Lemma no_bar_scenario_E :
  process_symbol scenario_A_strategy scenario_E_data (day 2023 1 3)
    scenario_E_open "Y" = Some scenario_E_open
  ∧ oQeq (total_position_value scenario_E_data (day 2023 1 3)
            (positions scenario_E_open))
         (Some (50 * 110)%Q)
  ∧ ∃ st', for_each (process_symbol scenario_A_strategy scenario_E_data (day 2023 1 3))
             ["X"; "Y"] scenario_E_open = Some st'
      ∧ positions st' !! "X" = None
      ∧ positions st' !! "Y"
        = Some {| shares := 237; entry_price := 20; entry_date := day 2023 1 2 |}.
Proof.
  destruct (no_bar_symbol_skipped scenario_A_strategy scenario_E_data
              (day 2023 1 3) "Y" [(day 2023 1 2, 20%Q); (day 2023 1 4, 25%Q)]
              eq_refl eq_refl) as (Hskip & Hsum & Hkeep & _).
  split; [apply Hskip |]. split.
  - transitivity (total_position_value scenario_E_data (day 2023 1 3)
                    (delete "Y" (positions scenario_E_open)));
      [apply Hsum | vm_compute; reflexivity].
  - destruct (for_each _ ["X"; "Y"] scenario_E_open) as [st' |] eqn:Hrun;
      [| by vm_compute in Hrun].
    exists st'. split; [reflexivity |].
    rewrite (Hkeep _ _ _ Hrun). split; [| by vm_compute].
    vm_compute in Hrun. by simplify_eq.
Defined.

(** ** The cash balance *)

Section Reachability.

Variable strategy : string → datetime → series → option signal_info.
Variable data_dict : gmap string series.
Variable initial_capital : Q.

Lemma for_each_reachable date symbols st st' :
  reachable strategy data_dict initial_capital st →
  for_each (process_symbol strategy data_dict date) symbols st = Some st' →
  reachable strategy data_dict initial_capital st'.
Proof.
  revert st. induction symbols as [| s symbols IH]; intros st Hst Hrun; cbn in Hrun.
  - by simplify_eq.
  - destruct (process_symbol strategy data_dict date st s) as [st1 |] eqn:Hstep;
      [| done].
    cbn in Hrun. eapply IH; [| exact Hrun]. by eapply reachable_symbol.
Qed.

Lemma process_date_reachable symbols rs date rs' :
  reachable strategy data_dict initial_capital (sim_of_run rs) →
  process_date strategy data_dict symbols rs date = Some rs' →
  reachable strategy data_dict initial_capital (sim_of_run rs').
Proof.
  intros Hrs Hrun. unfold process_date in Hrun.
  destruct (for_each _ symbols _) as [st |] eqn:Hloop; [| done].
  cbn in Hrun.
  destruct (total_position_value data_dict date (positions st)); [| done].
  destruct (last (portfolio_value rs)); [| done].
  cbn in Hrun.
  destruct (period_return _ _ _); [| done].
  cbn in Hrun. simplify_eq. unfold sim_of_run; cbn.
  apply reachable_date. by eapply for_each_reachable.
Qed.

Lemma run_backtest_reachable symbols rs :
  run_backtest strategy initial_capital symbols data_dict = Some (Results rs) →
  reachable strategy data_dict initial_capital (sim_of_run rs).
Proof.
  unfold run_backtest. destruct (_ =? _)%nat; [done |].
  intros Hrun.
  destruct (for_each _ _ _) as [rs1 |] eqn:Hloop; [| done].
  cbn in Hrun. simplify_eq.
  assert (Hstart : reachable strategy data_dict initial_capital
                     (sim_of_run (initial_state initial_capital)))
    by apply reachable_start.
  revert Hstart Hloop. generalize (initial_state initial_capital).
  induction (all_dates data_dict) as [| d ds IH]; intros rs0 H0 Hloop; cbn in Hloop.
  - by simplify_eq.
  - destruct (process_date _ _ _ rs0 d) as [rs1 |] eqn:Hd; [| done].
    cbn in Hloop. eapply IH; [| exact Hloop]. by eapply process_date_reachable.
Qed.

(** What the strategy must grant for the cash to stay non-negative: a
    confidence between 0 and 1 on BUY, and no SELL at a negative close. *)
Hypothesis confidence_bounds :
  ∀ s d data info,
    strategy s d data = Some info → signal info = BUY →
    (0 <= confidence info)%Q ∧ (confidence info <= 1)%Q.
Hypothesis sell_price_nonneg :
  ∀ s date data price info,
    data_dict !! s = Some data → close_on data date = Some price →
    strategy s (combine_min_time date) data = Some info → signal info = SELL →
    (0 <= price)%Q.

Lemma buy_solvent date symbol price info st st' :
  (0 <= confidence info)%Q → (confidence info <= 1)%Q →
  solvent st →
  buy date symbol price info st = Some st' →
  solvent st'.
Proof.
  intros Hc0 Hc1 [Hcash Hsh]. unfold buy, int_of_div, np_div.
  destruct (Qeq_bool price 0) eqn:Hz; [done |].
  assert (Hprice : ¬ (price == 0)%Q) by (by intros ?%Qeq_bool_iff; congruence).
  cbn. set (x := (current_capital st * confidence info * (1 # 10) / price)%Q).
  destruct (0 <? py_int x) eqn:Hn; intros ?; simplify_eq; [| done].
  apply Z.ltb_lt in Hn. pose proof (py_int_pos_le x Hn) as Hle.
  assert (Hx : (x * price == current_capital st * confidence info * (1 # 10))%Q)
    by (unfold x; by field).
  assert (Hn1 : (1 <= inject_Z (py_int x))%Q)
    by (rewrite <- (Zle_Qle 1); lia).
  assert (Hpos : (0 < price)%Q).
  { destruct (Qlt_le_dec 0 price) as [| Hneg]; [done |]. exfalso.
    assert (0 < price \/ price < 0)%Q as [? | Hlt] by (destruct (Q_dec 0 price) as [[|]|]; [by left | by right | by exfalso; apply Hprice ]).
    - lra.
    - nra. }
  split; cbn.
  - nra.
  - intros s pos. destruct (decide (symbol = s)) as [<- | Hne].
    + rewrite lookup_insert_eq. intros ?; simplify_eq. by cbn.
    + rewrite lookup_insert_ne by done. apply Hsh.
Qed.

Lemma sell_solvent date symbol price info pos st :
  (0 <= price)%Q →
  solvent st →
  positions st !! symbol = Some pos →
  solvent (sell date symbol price info pos st).
Proof.
  intros Hprice [Hcash Hsh] Hpos. split; cbn.
  - assert (0 <= inject_Z (shares pos))%Q
      by (rewrite <- (Zle_Qle 0); pose proof (Hsh _ _ Hpos); lia).
    nra.
  - intros s p. destruct (decide (symbol = s)) as [<- | Hne].
    + by rewrite lookup_delete_eq.
    + rewrite lookup_delete_ne by done. apply Hsh.
Qed.

Lemma mark_solvent symbol price st : solvent st → solvent (mark symbol price st).
Proof.
  unfold solvent. by destruct (mark_frame symbol price st) as (-> & -> & _).
Qed.

(** One symbol of one date keeps the invariant. *)
Lemma process_symbol_solvent date st symbol st' :
  solvent st →
  process_symbol strategy data_dict date st symbol = Some st' →
  solvent st'.
Proof.
  intros Hst. unfold process_symbol.
  destruct (data_dict !! symbol) as [data |] eqn:Hdata; [| by intros; simplify_eq].
  destruct (close_on data date) as [price |] eqn:Hbar; [| by intros; simplify_eq].
  destruct (strategy _ _ _) as [info |] eqn:Hinfo; [| done]. cbn.
  destruct (trade_symbol _ _ _ _ _) as [st1 |] eqn:Htrade; [| done]. cbn.
  intros ?; simplify_eq. apply mark_solvent.
  unfold trade_symbol in Htrade.
  destruct (signal info) eqn:Hsig, (positions st !! symbol) as [pos |] eqn:Hpos;
    simplify_eq; try done.
  - destruct (confidence_bounds _ _ _ _ Hinfo Hsig). by eapply buy_solvent.
  - eapply sell_solvent; [| done..]. by eapply sell_price_nonneg.
Qed.

Lemma reachable_solvent st :
  (0 <= initial_capital)%Q →
  reachable strategy data_dict initial_capital st →
  solvent st.
Proof.
  intros Hcap. induction 1 as [| st date symbol st' _ IH Hstep | st _ IH].
  - split; [done |]. by intros s pos ?.
  - by eapply process_symbol_solvent.
  - exact IH.
Qed.

End Reachability.

(** The confidence [get_trading_signal] reports lies between 0 and 1, and
    its signal is never SELL. *)
Lemma get_trading_signal_bounds symbol date data info :
  get_trading_signal symbol date data = Some info →
  (0 <= confidence info)%Q ∧ (confidence info <= 1)%Q ∧ signal info ≠ SELL.
Proof.
  unfold get_trading_signal.
  destruct (calculate_bazi date) as [b1 |]; [| done]. cbn -[evaluate analyze_wuxing_strength].
  destruct (minus_one_day date) as [y |]; [| done]. cbn -[evaluate analyze_wuxing_strength].
  destruct (calculate_bazi y) as [b2 |]; [| done]. cbn -[evaluate analyze_wuxing_strength].
  intros ?; simplify_eq.
  set (cur := analyze_wuxing_strength b1). set (sym := analyze_wuxing_strength b2).
  pose proof (signal_score_nonneg cur sym) as Hs.
  destruct (evaluate_fields b1 cur sym) as (Hst & _ & Hd).
  split; [| split; [| by intros Hsell%evaluate_sell_score; lia]].
  - revert Hd. unfold decide_signal.
    destruct (3 <=? _) eqn:H3; [| destruct (_ <=? -3)]; intros [= _ ->].
    + apply Z.leb_le in H3. apply Q.min_glb; [| done].
      apply Qle_shift_div_l; [done |]. rewrite Qmult_0_l, <- (Zle_Qle 0). lia.
    + apply Q.min_glb; [| done].
      apply Qle_shift_div_l; [done |]. rewrite Qmult_0_l, <- (Zle_Qle 0). lia.
    + done.
  - revert Hd. unfold decide_signal.
    destruct (3 <=? _); [| destruct (_ <=? -3)]; intros [= _ ->];
      first [apply Q.le_min_r | done].
Qed.

(** C10.  In a run of [run_backtest] with [get_trading_signal] from a
    non-negative initial capital, the cash is never negative: not in any state
    the loops pass through, and not in the result. *)
Theorem cash_never_negative (data_dict : gmap string series) (initial_capital : Q) :
  (0 <= initial_capital)%Q →
  (∀ st, reachable get_trading_signal data_dict initial_capital st →
         (0 <= current_capital st)%Q)
  ∧ (∀ symbols rs,
       run_backtest get_trading_signal initial_capital symbols data_dict
       = Some (Results rs) →
       reachable get_trading_signal data_dict initial_capital (sim_of_run rs)
       ∧ (0 <= rs_capital rs)%Q).
Proof.
  intros Hcap.
  assert (Hinv : ∀ st, reachable get_trading_signal data_dict initial_capital st →
                       solvent st).
  { intros st. apply reachable_solvent; [| | done].
    - intros s d data info Hinfo _.
      by destruct (get_trading_signal_bounds _ _ _ _ Hinfo) as (? & ? & _).
    - intros s date data price info _ _ Hinfo Hsell.
      by destruct (get_trading_signal_bounds _ _ _ _ Hinfo) as (_ & _ & ?). }
  split.
  - intros st Hst. apply (Hinv st Hst).
  - intros symbols rs Hrun.
    pose proof (run_backtest_reachable _ _ _ _ _ Hrun) as Hr.
    split; [exact Hr |]. apply (Hinv _ Hr).
Qed.

(** Two symbols bought on 1 January 1986 from 100000: the cash ends at
    88365. *)
Lemma cash_never_negative_two_symbols :
  ∃ rs, run_backtest get_trading_signal 100000 ["A"; "B"] two_symbol_data
        = Some (Results rs)
    ∧ t_shares <$> rs_trades rs = [60; 805]
    ∧ (rs_capital rs == 88365)%Q
    ∧ (0 <= rs_capital rs)%Q.
Proof.
  destruct (run_backtest get_trading_signal 100000 ["A"; "B"] two_symbol_data)
    as [[| rs] |] eqn:Hrun; try (by vm_compute in Hrun).
  exists rs. split; [reflexivity |].
  destruct (cash_never_negative two_symbol_data 100000) as [_ Hres]; [done |].
  destruct (Hres _ _ Hrun) as [_ Hcash].
  vm_compute in Hrun. simplify_eq.
  split; [reflexivity |]. split; [by vm_compute | exact Hcash].
Defined.

(** ** The order of the symbols within a date *)

Section SymbolOrder.

Variable strategy : string → datetime → series → option signal_info.
Variable data_dict : gmap string series.

(** The accumulator is never read by a trade. *)
Lemma process_symbol_core date st1 st2 symbol :
  core st1 = core st2 →
  core <$> process_symbol strategy data_dict date st1 symbol
  = core <$> process_symbol strategy data_dict date st2 symbol.
Proof.
  destruct st1 as [c1 p1 t1 d1], st2 as [c2 p2 t2 d2].
  intros [= -> -> ->]. unfold process_symbol.
  destruct (data_dict !! symbol) as [data |]; [| done].
  destruct (close_on data date) as [price |]; [| done].
  destruct (strategy _ _ _) as [info |]; [| done].
  cbn -[mark]. unfold trade_symbol, buy; cbn -[mark].
  destruct (signal info), (p2 !! symbol) as [pos |] eqn:Hp; cbn -[mark];
    try by (unfold mark; cbn; rewrite ?Hp, ?lookup_delete_eq).
  destruct (int_of_div _ _) as [n |]; [| done]. cbn -[mark].
  destruct (0 <? n); cbn -[mark]; unfold mark; cbn;
    by rewrite ?Hp, ?lookup_insert_eq.
Qed.

Lemma for_each_core date symbols st1 st2 :
  core st1 = core st2 →
  core <$> for_each (process_symbol strategy data_dict date) symbols st1
  = core <$> for_each (process_symbol strategy data_dict date) symbols st2.
Proof.
  revert st1 st2. induction symbols as [| s symbols IH]; intros st1 st2 Hcore; cbn.
  - by rewrite Hcore.
  - pose proof (process_symbol_core date st1 st2 s Hcore) as Hstep.
    destruct (process_symbol strategy data_dict date st1 s) as [st1' |],
             (process_symbol strategy data_dict date st2 s) as [st2' |];
      cbn -[core] in *; try done.
    apply IH. congruence.
Qed.

(** The turn of an inert symbol changes nothing but the accumulator. *)
Lemma process_symbol_inert date st symbol :
  is_inert strategy data_dict date symbol = true →
  ∃ st', process_symbol strategy data_dict date st symbol = Some st'
    ∧ core st' = core st.
Proof.
  unfold is_inert, process_symbol.
  destruct (data_dict !! symbol) as [data |]; [| by eexists].
  destruct (close_on data date) as [price |]; [| by eexists].
  destruct (strategy _ _ _) as [info |]; [| done].
  intros Hhold%bool_decide_eq_true.
  cbn -[mark trade_symbol]. unfold trade_symbol. rewrite Hhold. cbn -[mark].
  eexists. split; [done |].
  unfold core. by destruct (mark_frame symbol price st) as (-> & -> & ->).
Qed.

(** With every symbol but [s0] inert, only the turns of [s0] count. *)
Lemma for_each_drop_inert date s0 symbols st :
  (∀ s, s ∈ symbols → s ≠ s0 → is_inert strategy data_dict date s = true) →
  core <$> for_each (process_symbol strategy data_dict date) symbols st
  = core <$> for_each (process_symbol strategy data_dict date)
               (filter (λ s, s = s0) symbols) st.
Proof.
  revert st. induction symbols as [| s symbols IH]; intros st Hinert; [done |].
  assert (Hrest : ∀ s', s' ∈ symbols → s' ≠ s0 →
                        is_inert strategy data_dict date s' = true)
    by (intros s' Hs'; apply Hinert; by right).
  destruct (decide (s = s0)) as [-> | Hne].
  - rewrite filter_cons_True by done. cbn.
    destruct (process_symbol strategy data_dict date st s0) as [st' |]; [| done].
    cbn. by apply IH.
  - rewrite filter_cons_False by done. cbn.
    destruct (process_symbol_inert date st s) as (st' & -> & Hcore).
    { apply Hinert; [by left | done]. }
    cbn. rewrite <- (IH st Hrest). by apply for_each_core.
Qed.

(** The turns of [s0] are as many in any order of the symbols. *)
Lemma filter_eq_permutation (s0 : string) (l1 l2 : list string) :
  l1 ≡ₚ l2 → filter (λ s, s = s0) l1 = filter (λ s, s = s0) l2.
Proof.
  intros Hperm.
  assert (Hrep : ∀ l : list string,
             filter (λ s, s = s0) l
             = replicate (length (filter (λ s, s = s0) l)) s0).
  { intros l. symmetry. apply replicate_as_Forall. split; [done |].
    apply Forall_forall. by intros s [-> _]%list_elem_of_filter. }
  rewrite (Hrep l1), (Hrep l2). by rewrite Hperm.
Qed.

Lemma one_active_all_but_one date symbols :
  one_active strategy data_dict date symbols →
  ∃ s0, ∀ s, s ∈ symbols → s ≠ s0 → is_inert strategy data_dict date s = true.
Proof.
  intros Hone.
  destruct (decide (Exists (λ s, is_inert strategy data_dict date s = false) symbols))
    as [Hex | Hnone].
  - apply Exists_exists in Hex as (s0 & Hs0 & Hact). exists s0.
    intros s Hs Hne. destruct (is_inert _ _ _ s) eqn:Hi; [done |].
    by destruct Hne; apply Hone.
  - exists "". intros s Hs _.
    destruct (is_inert _ _ _ s) eqn:Hi; [done |].
    destruct Hnone. apply Exists_exists. by exists s.
Qed.

Lemma for_each_permutation date l1 l2 st1 st2 :
  l1 ≡ₚ l2 → one_active strategy data_dict date l1 → core st1 = core st2 →
  core <$> for_each (process_symbol strategy data_dict date) l1 st1
  = core <$> for_each (process_symbol strategy data_dict date) l2 st2.
Proof.
  intros Hperm Hone Hcore.
  destruct (one_active_all_but_one date l1 Hone) as (s0 & Hinert).
  rewrite (for_each_drop_inert date s0 l1 st1 Hinert).
  rewrite (for_each_drop_inert date s0 l2 st2).
  - rewrite (filter_eq_permutation s0 l1 l2 Hperm). by apply for_each_core.
  - intros s Hs. apply Hinert. by rewrite Hperm.
Qed.

Lemma process_date_permutation date l1 l2 rs1 rs2 :
  l1 ≡ₚ l2 → one_active strategy data_dict date l1 → run_core rs1 = run_core rs2 →
  run_core <$> process_date strategy data_dict l1 rs1 date
  = run_core <$> process_date strategy data_dict l2 rs2 date.
Proof.
  intros Hperm Hone Hrs.
  destruct rs1 as [c1 p1 t1 v1 r1 dl1 ds1], rs2 as [c2 p2 t2 v2 r2 dl2 ds2].
  injection Hrs as -> -> -> -> -> ->.
  unfold process_date; cbn -[for_each].
  set (st0 := {| current_capital := c2; positions := p2; trades := t2;
                 daily_returns := Finite 0 |}).
  pose proof (for_each_permutation date l1 l2 st0 st0 Hperm Hone eq_refl) as Hloop.
  destruct (for_each _ l1 st0) as [[c p t d] |], (for_each _ l2 st0) as [[c' p' t' d'] |];
    cbn in Hloop; try done.
  injection Hloop as -> -> ->. cbn.
  destruct (total_position_value data_dict date p') as [tpv |]; [| done]. cbn.
  destruct (last v2) as [prev |]; [| done]. cbn.
  by destruct (period_return t' _ prev).
Qed.

Lemma run_dates_permutation ds l1 l2 rs1 rs2 :
  l1 ≡ₚ l2 → (∀ d, d ∈ ds → one_active strategy data_dict d l1) → run_core rs1 = run_core rs2 →
  run_core <$> for_each (process_date strategy data_dict l1) ds rs1
  = run_core <$> for_each (process_date strategy data_dict l2) ds rs2.
Proof.
  intros Hperm. revert rs1 rs2.
  induction ds as [| d ds IH]; intros rs1 rs2 Hone Hrs; cbn -[run_core].
  - by rewrite Hrs.
  - pose proof (process_date_permutation d l1 l2 rs1 rs2 Hperm
                  (Hone d ltac:(by left)) Hrs) as Hd.
    destruct (process_date strategy data_dict l1 rs1 d) as [rs1' |],
             (process_date strategy data_dict l2 rs2 d) as [rs2' |];
      cbn -[run_core] in *; try done.
    apply IH; [| congruence]. intros d' Hd'. apply Hone. by right.
Qed.

End SymbolOrder.

(** C2, amended.  Processing the symbols in another order gives the same
    equity curve, returns, trade log, cash, positions and dates, provided
    that on every date of the run at most one of the symbols is not inert,
    that is, has a bar and a signal other than HOLD.  (Without the proviso
    the symbols that trade on one date draw on the same cash, and the order
    decides how many shares each buys.) *)
Theorem symbol_order_irrelevant_one_active
    (strategy : string → datetime → series → option signal_info)
    (data_dict : gmap string series) (initial_capital : Q)
    (symbols1 symbols2 : list string) :
  symbols1 ≡ₚ symbols2 →
  (∀ date, date ∈ all_dates data_dict →
           one_active strategy data_dict date symbols1) →
  same_outcome (run_backtest strategy initial_capital symbols1 data_dict)
               (run_backtest strategy initial_capital symbols2 data_dict).
Proof.
  intros Hperm Hone. unfold run_backtest.
  destruct (size data_dict =? 0)%nat; [done |].
  pose proof (run_dates_permutation strategy data_dict (all_dates data_dict)
                symbols1 symbols2 (initial_state initial_capital)
                (initial_state initial_capital) Hperm Hone eq_refl) as Hrun.
  destruct (for_each _ _ _) as [r1 |], (for_each _ _ _) as [r2 |];
    cbn -[run_core] in *; try done.
  congruence.
Qed.

(** With B absent on the only BUY date, the two orders of A and B agree:
    A alone buys, 60 shares. *)
Lemma symbol_order_staggered :
  same_outcome (run_backtest get_trading_signal 100000 ["A"; "B"] staggered_data)
               (run_backtest get_trading_signal 100000 ["B"; "A"] staggered_data)
  ∧ ∃ r, run_backtest get_trading_signal 100000 ["B"; "A"] staggered_data
         = Some (Results r)
      ∧ (t_symbol <$> rs_trades r, t_shares <$> rs_trades r) = (["A"], [60]).
Proof.
  split.
  - apply symbol_order_irrelevant_one_active.
    + apply Permutation_swap.
    + intros date Hdate s s' Hs Hs' Hact Hact'.
      assert (Hb : is_inert get_trading_signal staggered_data date "B" = true).
      { vm_compute in Hdate.
        apply elem_of_cons in Hdate as [-> | Hdate]; [by vm_compute |].
        apply elem_of_cons in Hdate as [-> | Hdate]; [by vm_compute |].
        by apply elem_of_nil in Hdate. }
      apply elem_of_cons in Hs as [-> | Hs]; apply elem_of_cons in Hs' as [-> | Hs'];
        try done;
        repeat match goal with
               | H : _ ∈ [_] |- _ => apply list_elem_of_singleton in H as ->
               end; congruence.
  - eexists. split; [by vm_compute | reflexivity].
Defined.

(** C2 as stated fails.  On 1 January 1986 [get_trading_signal] says BUY;
    with A at 100 and B at 7 on that day and a capital of 100000, the order
    A, B buys 60 and 805 shares and the order B, A buys 857 and 56: the trade
    logs differ, and so do the equity curves on the next day. *)
Lemma symbol_order_changes_result :
  ["A"; "B"] ≡ₚ ["B"; "A"]
  ∧ ∃ r1 r2,
      run_backtest get_trading_signal 100000 ["A"; "B"] two_symbol_data
      = Some (Results r1)
      ∧ run_backtest get_trading_signal 100000 ["B"; "A"] two_symbol_data
        = Some (Results r2)
      ∧ (t_symbol <$> rs_trades r1, t_shares <$> rs_trades r1)
        = (["A"; "B"], [60; 805])
      ∧ (t_symbol <$> rs_trades r2, t_shares <$> rs_trades r2)
        = (["B"; "A"], [857; 56])
      ∧ Qred <$> portfolio_value r1 = [100000; 100000; 100600]%Q
      ∧ Qred <$> portfolio_value r2 = [100000; 100000; 100560]%Q
      ∧ rs_trades r1 ≠ rs_trades r2
      ∧ ¬ Forall2 Qeq (portfolio_value r1) (portfolio_value r2).
Proof.
  split; [apply Permutation_swap |].
  eexists _, _. split; [by vm_compute |]. split; [by vm_compute |].
  split; [reflexivity |]. split; [reflexivity |].
  split; [reflexivity |]. split; [reflexivity |].
  split.
  - intros Heq. discriminate Heq.
  - intros H. repeat (apply Forall2_cons_1 in H as [? H]).
    by match goal with Hq : (_ == _)%Q |- _ => vm_compute in Hq end.
Qed.


(** ** The dates of a run *)

Lemma date_ltb_spec (a b : date) :
  date_ltb a b = true ↔
  d_year a < d_year b
  ∨ (d_year a = d_year b
     ∧ (d_month a < d_month b ∨ (d_month a = d_month b ∧ d_day a < d_day b))).
Proof.
  unfold date_ltb.
  rewrite !orb_true_iff, !andb_true_iff, !orb_true_iff, !andb_true_iff,
    !Z.ltb_lt, !Z.eqb_eq.
  tauto.
Qed.

Lemma date_lt_trans (a b c : date) : date_lt a b → date_lt b c → date_lt a c.
Proof. unfold date_lt. rewrite !date_ltb_spec. lia. Qed.

Lemma date_lt_irrefl (a : date) : ¬ date_lt a a.
Proof. unfold date_lt. rewrite date_ltb_spec. lia. Qed.

Lemma date_ltb_total (a b : date) : date_ltb a b = false → a ≠ b → date_lt b a.
Proof.
  intros Hab Hne. unfold date_lt. apply date_ltb_spec.
  assert (Hn : ¬ (date_ltb a b = true)) by (by rewrite Hab).
  rewrite date_ltb_spec in Hn.
  destruct a as [ya ma da], b as [yb mb db]; cbn in *.
  assert (¬ (ya = yb ∧ ma = mb ∧ da = db)) by (intros (-> & -> & ->); done).
  lia.
Qed.

Lemma date_insert_elem (x d : date) (l : list date) :
  x ∈ date_insert d l ↔ x = d ∨ x ∈ l.
Proof.
  induction l as [| y l IH]; cbn.
  - rewrite list_elem_of_singleton. split; [by left |].
    by intros [? | ?%elem_of_nil].
  - destruct (date_ltb d y); [apply elem_of_cons |].
    case_decide as Heq.
    + subst y. split; [by right |]. intros [-> | ?]; [by left | done].
    + rewrite !elem_of_cons, IH. tauto.
Qed.

(** Adding a date keeps the list in strictly ascending order. *)
Lemma date_insert_sorted (d : date) (l : list date) :
  StronglySorted date_lt l → StronglySorted date_lt (date_insert d l).
Proof.
  induction 1 as [| y l Hsorted IH Hall]; cbn.
  - repeat constructor.
  - destruct (date_ltb d y) eqn:Hdy.
    + constructor; [by constructor |].
      constructor; [done |].
      eapply Forall_impl; [exact Hall |]. intros z Hz. by eapply date_lt_trans.
    + case_decide as Heq; [by constructor |].
      constructor; [exact IH |].
      apply Forall_forall. intros z [-> | Hz]%date_insert_elem.
      * by apply date_ltb_total.
      * by eapply Forall_forall in Hall.
Qed.

(** [all_dates] is in strictly ascending order, so without repeats, and it
    holds exactly the dates on which some symbol has a bar. *)
Lemma all_dates_sorted (data_dict : gmap string series) :
  StronglySorted date_lt (all_dates data_dict)
  ∧ ∀ d, d ∈ all_dates data_dict ↔
         ∃ symbol data, data_dict !! symbol = Some data ∧ is_Some (close_on data d).
Proof.
  unfold all_dates.
  apply (map_fold_weak_ind
           (λ acc (m : gmap string series),
              StronglySorted date_lt acc
              ∧ ∀ d, d ∈ acc ↔ ∃ symbol data, m !! symbol = Some data
                                  ∧ is_Some (close_on data d))).
  - split; [constructor |]. intros d. split; [by intros ?%elem_of_nil |].
    by intros (s & data & ?%lookup_empty_Some & _).
  - intros s data m acc Hnew [Hsorted Helem].
    assert (Hfold : ∀ rows : series,
               StronglySorted date_lt (foldr date_insert acc (rows.*1))
               ∧ ∀ d, d ∈ foldr date_insert acc (rows.*1)
                      ↔ is_Some (close_on rows d) ∨ d ∈ acc).
    { induction rows as [| [d0 c0] rows [IHs IHe]]; cbn.
      - split; [done |]. intros d. split; [by right |]. by intros [[? [=]] |].
      - split; [by apply date_insert_sorted |].
        intros d. rewrite date_insert_elem, IHe.
        case_decide as Hd; [subst d0 |].
        + split; [by left; eexists |]. by left.
        + split; [intros [-> | ?]; [done | done] | by right]. }
    destruct (Hfold data) as [Hs He]. split; [exact Hs |].
    intros d. rewrite He, Helem. split.
    + intros [Hbar | (s' & data' & Hs' & Hbar)].
      * exists s, data. by rewrite lookup_insert_eq.
      * exists s', data'. split; [| done].
        rewrite lookup_insert_ne; [done |]. by intros ->; rewrite Hnew in Hs'.
    + intros (s' & data' & Hs' & Hbar).
      destruct (decide (s = s')) as [-> | Hne].
      * rewrite lookup_insert_eq in Hs'. simplify_eq. by left.
      * rewrite lookup_insert_ne in Hs' by done. right. by exists s', data'.
Qed.

(** ** The guard of calculate_metrics *)

(** C4, amended.  [calculate_metrics] returns the empty mapping exactly when
    the equity curve is absent or has no entry; for an equity curve with one
    entry or more it returns the seven statistics. *)
Theorem metrics_empty_iff {F : Type} `{FloatOps F} (results : backtest_result) :
  (calculate_metrics results = [] ↔ equity_curve results = [])
  ∧ (equity_curve results ≠ [] → (calculate_metrics results).*1 = metric_names).
Proof.
  destruct results as [| r]; cbn.
  - split; [done |]. by intros [].
  - unfold calculate_metrics.
    destruct (portfolio_value r) as [| v0 vs]; cbn.
    + split; [done |]. by intros [].
    + split; [| done]. split; intros Habs; discriminate Habs.
Qed.

(** C4 as stated fails: the equity curve of a run with no date has one
    entry, the initial capital, and [calculate_metrics] returns the seven
    statistics for it, not the empty mapping. *)
Lemma metrics_of_one_entry_not_empty :
  portfolio_value (initial_state 100000) = [100000%Q]
  ∧ (@calculate_metrics unit shape_only (Results (initial_state 100000))).*1
    = metric_names
  ∧ ¬ (∀ (F : Type) (ops : FloatOps F) (r : run_state),
         (length (portfolio_value r) < 2)%nat →
         calculate_metrics (Results r) = []).
Proof.
  split; [reflexivity |]. split; [reflexivity |].
  intros Hclaim.
  specialize (Hclaim unit shape_only (initial_state 100000)).
  cbn in Hclaim. specialize (Hclaim ltac:(lia)). discriminate Hclaim.
Qed.

(** * Further properties of the calculator *)

(** An entry of a table of distinct symbols is at one index only. *)
Lemma tiangan_lookup_inj (i j : nat) (t : tiangan_t) :
  tiangan !! i = Some t → tiangan !! j = Some t → i = j.
Proof.
  apply NoDup_lookup. by apply (bool_decide_unpack _).
Qed.

Lemma dizhi_lookup_inj (i j : nat) (d : dizhi_t) :
  dizhi !! i = Some d → dizhi !! j = Some d → i = j.
Proof.
  apply NoDup_lookup. by apply (bool_decide_unpack _).
Qed.

(** [get_tiangan_dizhi] in terms of the offset of the year in the cycle. *)
Lemma get_tiangan_dizhi_offset (year : Z) :
  ∃ tg dz,
    get_tiangan_dizhi year = Some (tg, dz)
    ∧ tiangan !! Z.to_nat (((year - 1900) mod 60) mod 10) = Some tg
    ∧ dizhi !! Z.to_nat (((year - 1900) mod 60) mod 12) = Some dz.
Proof.
  unfold get_tiangan_dizhi.
  destruct (tiangan_lookup_mod ((year - 1900) mod 60)) as [tg Htg].
  destruct (dizhi_lookup_mod ((year - 1900) mod 60)) as [dz Hdz].
  exists tg, dz. by rewrite Htg, Hdz.
Qed.

(** X1.  The year pillar of 1900 is 甲子; the year pillar is defined for every
    year; and two years have the same pillar exactly when they differ by a
    multiple of 60: the pillar repeats every 60 years and the 60 pillars of
    a cycle are all different. *)
Theorem year_pillar_cycle (y1 y2 : Z) :
  get_tiangan_dizhi 1900 = Some (TG_jia, DZ_zi)
  ∧ is_Some (get_tiangan_dizhi y1)
  ∧ (get_tiangan_dizhi y1 = get_tiangan_dizhi y2 ↔ (y1 - y2) mod 60 = 0).
Proof.
  split; [reflexivity |].
  destruct (get_tiangan_dizhi_offset y1) as (tg1 & dz1 & H1 & Ht1 & Hd1).
  destruct (get_tiangan_dizhi_offset y2) as (tg2 & dz2 & H2 & Ht2 & Hd2).
  split; [by rewrite H1 |].
  rewrite H1, H2. split.
  - intros [= <- <-].
    pose proof (tiangan_lookup_inj _ _ _ Ht1 Ht2) as Hi.
    pose proof (dizhi_lookup_inj _ _ _ Hd1 Hd2) as Hj.
    set (o1 := (y1 - 1900) mod 60) in *. set (o2 := (y2 - 1900) mod 60) in *.
    assert (0 ≤ o1 < 60 ∧ 0 ≤ o2 < 60) as [Ho1 Ho2]
      by (split; apply Z.mod_pos_bound; lia).
    apply Z2Nat.inj in Hi; [| apply Z.mod_pos_bound; lia ..].
    apply Z2Nat.inj in Hj; [| apply Z.mod_pos_bound; lia ..].
    assert (Heq : o1 = o2) by (clearbody o1 o2; Z.div_mod_to_equations; lia).
    unfold o1, o2 in Heq. Z.div_mod_to_equations. lia.
  - intros Hmod.
    assert (Hoff : (y1 - 1900) mod 60 = (y2 - 1900) mod 60)
      by (Z.div_mod_to_equations; lia).
    rewrite Hoff in Ht1, Hd1. congruence.
Qed.

Lemma tiangan_lookup_stem_at (x : Z) :
  tiangan !! Z.to_nat (x mod 10) = Some (stem_at x).
Proof.
  unfold stem_at. by destruct (tiangan_lookup_mod x) as [t ->].
Qed.

Lemma dizhi_lookup_branch_at (x : Z) :
  dizhi !! Z.to_nat (x mod 12) = Some (branch_at x).
Proof.
  unfold branch_at. by destruct (dizhi_lookup_mod x) as [d ->].
Qed.

Lemma stem_at_mod_60 (x : Z) : stem_at (x mod 60) = stem_at x.
Proof.
  unfold stem_at. replace ((x mod 60) mod 10) with (x mod 10); [done |].
  Z.div_mod_to_equations. lia.
Qed.

Lemma branch_at_mod_60 (x : Z) : branch_at (x mod 60) = branch_at x.
Proof.
  unfold branch_at. replace ((x mod 60) mod 12) with (x mod 12); [done |].
  Z.div_mod_to_equations. lia.
Qed.

(** [calculate_bazi] never raises, and gives the pillars of the date. *)
Lemma calculate_bazi_pillars (date : datetime) :
  calculate_bazi date = Some (pillars_of date).
Proof.
  unfold calculate_bazi, get_tiangan_dizhi, pillars_of.
  rewrite !tiangan_lookup_stem_at, !dizhi_lookup_branch_at. cbn.
  by rewrite stem_at_mod_60, branch_at_mod_60.
Qed.

(** The positions of a pillar's stem and branch in their tables have the
    same parity. *)
Lemma pillar_parity (x : Z) (i j : nat) :
  tiangan !! i = Some (stem_at x) → dizhi !! j = Some (branch_at x) →
  Z.of_nat i mod 2 = Z.of_nat j mod 2.
Proof.
  intros Hi Hj.
  rewrite (tiangan_lookup_inj _ _ _ Hi (tiangan_lookup_stem_at x)).
  rewrite (dizhi_lookup_inj _ _ _ Hj (dizhi_lookup_branch_at x)).
  rewrite !Z2Nat.id by (apply Z.mod_pos_bound; lia).
  Z.div_mod_to_equations. lia.
Qed.

(** X2.  Every date has its four pillars, and in each of them the stem and
    the branch stand at positions of the same parity in [tiangan] and
    [dizhi]: only the 60 pairs of the sexagenary cycle occur, never one of
    the other 60 combinations of a stem and a branch. *)
Theorem pillars_are_sexagenary (date : datetime) :
  ∃ bazi, calculate_bazi date = Some bazi
    ∧ Forall (λ p : tiangan_t * dizhi_t,
                ∀ i j : nat, tiangan !! i = Some p.1 → dizhi !! j = Some p.2 →
                  Z.of_nat i mod 2 = Z.of_nat j mod 2)
        [(year_tg bazi, year_dz bazi); (month_tg bazi, month_dz bazi);
         (day_tg bazi, day_dz bazi); (hour_tg bazi, hour_dz bazi)].
Proof.
  exists (pillars_of date). split; [apply calculate_bazi_pillars |].
  repeat (apply Forall_cons; split; [intros i j; apply pillar_parity |]).
  apply Forall_nil_2.
Qed.

(** X3.  [get_wuxing_relationship] never falls through to 无, and it answers
    同 exactly for an element and itself: two different elements always
    stand in one of the four relations 生, 克, 被生, 被克. *)
Theorem relationship_total (a b : wuxing_t) :
  get_wuxing_relationship a b ≠ R_wu
  ∧ (get_wuxing_relationship a b = R_tong ↔ a = b)
  ∧ (a ≠ b →
     get_wuxing_relationship a b ∈ [R_sheng; R_ke; R_bei_sheng; R_bei_ke]).
Proof.
  split; [by destruct a, b |]. split.
  - destruct a, b; cbv; split; congruence.
  - intros Hne. destruct a, b; try done; cbv; set_solver.
Qed.

(** X4.  The 生 column of [wuxing_shengke] is one cycle through all five
    elements; 克 is two steps along it, 被克 three and 被生 four. *)
Theorem generation_cycle (a : wuxing_t) :
  NoDup [a; sheng_n 1 a; sheng_n 2 a; sheng_n 3 a; sheng_n 4 a]
  ∧ sheng_n 5 a = a
  ∧ ke (wuxing_shengke a) = sheng_n 2 a
  ∧ bei_ke (wuxing_shengke a) = sheng_n 3 a
  ∧ bei_sheng (wuxing_shengke a) = sheng_n 4 a.
Proof.
  split; [| by destruct a].
  destruct a; cbn; by apply (bool_decide_unpack _).
Qed.

(** * Further properties of the strategy *)

(** The inner loop over [target_wuxing] finds the one element that [wuxing]
    generates. *)
Lemma score_target_loop (sym_wx : wuxing_count) (w : wuxing_t) (acc : Z * list string) :
  fold_left (score_target sym_wx w) wuxing_list acc
  = if 0 <? wx_get sym_wx (sheng (wuxing_shengke w))
    then (acc.1 + 1, acc.2 ++ [reason_of w]) else acc.
Proof.
  destruct w; unfold score_target; cbn;
    match goal with |- context [0 <? ?x] => by destruct (0 <? x) end.
Qed.

Lemma score_wuxing_gain (cur_wx sym_wx : wuxing_count) (acc : Z * list string) (w : wuxing_t) :
  score_wuxing cur_wx sym_wx acc w
  = if gain cur_wx sym_wx w then (acc.1 + 1, acc.2 ++ [reason_of w]) else acc.
Proof.
  unfold score_wuxing, gain. rewrite score_target_loop.
  by destruct (wx_get sym_wx w <? wx_get cur_wx w).
Qed.

Lemma score_loop (cur_wx sym_wx : wuxing_count) (l : list wuxing_t) (acc : Z * list string) :
  fold_left (score_wuxing cur_wx sym_wx) l acc
  = (acc.1 + foldr (λ w s, Z.b2z (gain cur_wx sym_wx w) + s) 0 l,
     acc.2 ++ flat_map (λ w, if gain cur_wx sym_wx w then [reason_of w] else []) l).
Proof.
  revert acc. induction l as [| w l IH]; intros [s rs]; cbn [fold_left foldr flat_map].
  - cbn. by rewrite Z.add_0_r, app_nil_r.
  - rewrite IH, score_wuxing_gain.
    destruct (gain cur_wx sym_wx w); cbn; f_equal; try lia.
    by rewrite <- app_assoc.
Qed.

Lemma signal_score_gain (cur_wx sym_wx : wuxing_count) :
  signal_score cur_wx sym_wx
  = (count_elements (gain cur_wx sym_wx),
     flat_map (λ w, if gain cur_wx sym_wx w then [reason_of w] else []) wuxing_list).
Proof. unfold signal_score. by rewrite score_loop. Qed.

Lemma count_elements_le (f g : wuxing_t → bool) :
  (∀ w, f w = true → g w = true) → count_elements f ≤ count_elements g.
Proof.
  intros Hfg. unfold count_elements. cbn.
  pose proof (Hfg Mu). pose proof (Hfg Huo). pose proof (Hfg Tu).
  pose proof (Hfg Jin). pose proof (Hfg Shui).
  destruct (f Mu), (f Huo), (f Tu), (f Jin), (f Shui); cbn;
    repeat match goal with H : true = true → _ |- _ => rewrite (H eq_refl) end;
    cbn; destruct (g Mu), (g Huo), (g Tu), (g Jin), (g Shui); cbn; lia.
Qed.

Lemma count_elements_range (f : wuxing_t → bool) : 0 ≤ count_elements f ≤ 5.
Proof.
  unfold count_elements. cbn.
  destruct (f Mu), (f Huo), (f Tu), (f Jin), (f Shui); cbn; lia.
Qed.

(** X5.  The two nested loops of [get_trading_signal] test each of the five
    elements once: the score is the number of elements of which the current
    count exceeds the symbol's while the symbol has the element they
    generate, and the reasons are one per point, in the order of the
    elements.  So the score lies between 0 and 5, and it is at most 4 when
    the counts of the symbol add up to no less than the current ones, as
    they do for the counts of two dates. *)
Theorem score_by_element (cur_wx sym_wx : wuxing_count) :
  let score := (signal_score cur_wx sym_wx).1 in
  let reasons := (signal_score cur_wx sym_wx).2 in
  score = count_elements (gain cur_wx sym_wx)
  ∧ reasons = flat_map (λ w, if gain cur_wx sym_wx w then [reason_of w] else [])
                wuxing_list
  ∧ Z.of_nat (length reasons) = score
  ∧ 0 ≤ score ≤ 5
  ∧ (wx_total cur_wx ≤ wx_total sym_wx → score ≤ 4).
Proof.
  cbv zeta. rewrite signal_score_gain. cbn [fst snd].
  split; [done |]. split; [done |]. split; [| split].
  - unfold count_elements. cbn.
    by destruct (gain _ _ Mu), (gain _ _ Huo), (gain _ _ Tu), (gain _ _ Jin),
      (gain _ _ Shui).
  - apply count_elements_range.
  - intros Htot. unfold count_elements, gain. cbn.
    unfold wx_total in Htot.
    destruct cur_wx as [c1 c2 c3 c4 c5], sym_wx as [s1 s2 s3 s4 s5]; cbn in *.
    destruct (Z.ltb_spec s1 c1), (Z.ltb_spec s2 c2), (Z.ltb_spec s3 c3),
      (Z.ltb_spec s4 c4), (Z.ltb_spec s5 c5); cbn;
      try lia;
      destruct (0 <? s1), (0 <? s2), (0 <? s3), (0 <? s4), (0 <? s5); cbn; lia.
Qed.

Lemma wx_get_incr_ind (e w : wuxing_t) (c : wuxing_count) :
  wx_get (wx_incr e c) w = ind e w + wx_get c w.
Proof. rewrite wx_get_incr. unfold ind. case_decide; lia. Qed.

Lemma occurrences_app (l k : list wuxing_t) (w : wuxing_t) :
  occurrences (l ++ k) w = occurrences l w + occurrences k w.
Proof.
  unfold occurrences. induction l as [| e l IH]; cbn [app foldr]; [done |].
  rewrite IH. lia.
Qed.

Lemma occurrences_nonneg (l : list wuxing_t) (w : wuxing_t) : 0 ≤ occurrences l w.
Proof.
  unfold occurrences. induction l as [| e l IH]; cbn [foldr]; [done |].
  unfold ind at 1. case_decide; lia.
Qed.

Lemma pillar_elements_mod_60 (x y : Z) :
  x mod 60 = y mod 60 → pillar_elements x = pillar_elements y.
Proof.
  intros Hxy. unfold pillar_elements.
  by rewrite <- (stem_at_mod_60 x), <- (branch_at_mod_60 x), Hxy,
    stem_at_mod_60, branch_at_mod_60.
Qed.

(** The count of an element on a date: its occurrences in the four pillars. *)
Lemma wx_get_pillars (date : datetime) (w : wuxing_t) :
  wx_get (analyze_wuxing_strength (pillars_of date)) w
  = occurrences (pillar_elements (dt_year date - 1900)) w
    + occurrences (pillar_elements (dt_month date - 1)) w
    + occurrences (pillar_elements (dt_day date - 1)) w
    + occurrences (pillar_elements (dt_hour date / 2)) w.
Proof.
  unfold analyze_wuxing_strength, pillars_of, pillar_elements, occurrences.
  cbn [fold_left foldr year_tg year_dz month_tg month_dz day_tg day_dz hour_tg hour_dz].
  rewrite !wx_get_incr_ind.
  replace (wx_get wx_zero w) with 0 by (by destruct w). lia.
Qed.

Lemma ind_total (e : wuxing_t) :
  ind e Mu + ind e Huo + ind e Tu + ind e Jin + ind e Shui = 1.
Proof. by destruct e. Qed.

Lemma occurrences_total (l : list wuxing_t) :
  occurrences l Mu + occurrences l Huo + occurrences l Tu
  + occurrences l Jin + occurrences l Shui = Z.of_nat (length l).
Proof.
  unfold occurrences. induction l as [| e l IH]; [done |].
  cbn [foldr length]. rewrite Nat2Z.inj_succ, <- IH.
  pose proof (ind_total e). lia.
Qed.

(** A test that only elements of [l] can pass is passed by at most
    [length l] elements. *)
Lemma count_elements_occurrences (f : wuxing_t → bool) (l : list wuxing_t) :
  (∀ w, f w = true → 1 ≤ occurrences l w) →
  count_elements f ≤ Z.of_nat (length l).
Proof.
  intros Hf. rewrite <- occurrences_total.
  assert (Hw : ∀ w, Z.b2z (f w) ≤ occurrences l w).
  { intros w. pose proof (occurrences_nonneg l w). pose proof (Hf w).
    destruct (f w); cbn; lia. }
  unfold count_elements. cbn.
  pose proof (Hw Mu). pose proof (Hw Huo). pose proof (Hw Tu).
  pose proof (Hw Jin). pose proof (Hw Shui). lia.
Qed.

Lemma gain_shared (cur_wx sym_wx : wuxing_count) (shared : wuxing_t → Z)
    (dc ds : list wuxing_t) :
  (∀ w, wx_get cur_wx w = shared w + occurrences dc w) →
  (∀ w, wx_get sym_wx w = shared w + occurrences ds w) →
  ∀ w, gain cur_wx sym_wx w
       = dominated dc ds w
         && (0 <? shared (sheng (wuxing_shengke w))
                  + occurrences ds (sheng (wuxing_shengke w))).
Proof.
  intros Hc Hs w. unfold gain, dominated. rewrite Hc, !Hs. f_equal.
  destruct (Z.ltb_spec (shared w + occurrences ds w) (shared w + occurrences dc w)),
    (Z.ltb_spec (occurrences ds w) (occurrences dc w)); lia.
Qed.

Lemma days_in_month_range (y m : Z) : 28 ≤ days_in_month y m ≤ 31.
Proof.
  unfold days_in_month.
  destruct (m =? 2); [destruct (is_leap y); lia |].
  destruct (_ || _); lia.
Qed.

Lemma month_start_dominated (m dim : Z) :
  2 ≤ m ≤ 12 → 28 ≤ dim ≤ 31 →
  count_elements (dominated (month_start_pillars m dim).1 (month_start_pillars m dim).2) ≤ 2.
Proof.
  intros Hm Hd.
  assert (m = 2 ∨ m = 3 ∨ m = 4 ∨ m = 5 ∨ m = 6 ∨ m = 7 ∨ m = 8 ∨ m = 9
          ∨ m = 10 ∨ m = 11 ∨ m = 12) as Hm' by lia.
  assert (dim = 28 ∨ dim = 29 ∨ dim = 30 ∨ dim = 31) as Hd' by lia.
  apply Z.leb_le.
  destruct_or!; subst; vm_compute; reflexivity.
Qed.

Lemma new_year_check_all : forallb new_year_check (Z.of_nat <$> seq 0 60) = true.
Proof. vm_compute. reflexivity. Qed.

Lemma new_year_dominated (o : Z) :
  0 ≤ o < 60 → o ≠ 26 →
  count_elements (dominated (new_year_pillars o).1 (new_year_pillars o).2) ≤ 2.
Proof.
  intros Ho Hne.
  pose proof new_year_check_all as Hall.
  rewrite forallb_forall in Hall.
  specialize (Hall o). unfold new_year_check in Hall.
  apply Z.leb_le.
  destruct (Z.eqb_spec o 26) as [-> | _]; [done |].
  apply Hall. apply in_map_iff. exists (Z.to_nat o). split; [lia |].
  apply in_seq. lia.
Qed.

Lemma new_year_26_pillars (w : wuxing_t) :
  dominated (new_year_pillars 26).1 (new_year_pillars 26).2 w
  = match w with Mu | Jin | Shui => true | Huo | Tu => false end
  ∧ occurrences (new_year_pillars 26).2 w
    = match w with Mu | Tu => 2 | Huo | Shui => 1 | Jin => 0 end.
Proof. by destruct w; vm_compute. Qed.

(** At offset 26 three elements gain, whatever the pillar of the hour. *)
Lemma new_year_26_score (cur_wx sym_wx : wuxing_count) (shared : wuxing_t → Z) :
  (∀ w, 0 ≤ shared w) →
  (∀ w, wx_get cur_wx w = shared w + occurrences (new_year_pillars 26).1 w) →
  (∀ w, wx_get sym_wx w = shared w + occurrences (new_year_pillars 26).2 w) →
  count_elements (gain cur_wx sym_wx) = 3.
Proof.
  intros Hsh Hc Hs.
  unfold count_elements. cbn [foldr wuxing_list].
  rewrite !(gain_shared _ _ _ _ _ Hc Hs).
  cbn [wuxing_shengke sheng].
  rewrite !(proj1 (new_year_26_pillars _)), !(proj2 (new_year_26_pillars _)).
  pose proof (Hsh Huo). pose proof (Hsh Mu). pose proof (Hsh Shui).
  destruct (Z.ltb_spec 0 (shared Huo + 1)); [| lia].
  destruct (Z.ltb_spec 0 (shared Mu + 2)); [| lia].
  destruct (Z.ltb_spec 0 (shared Shui + 1)); [| lia].
  reflexivity.
Qed.

(** The score of a date against the day before. *)
Lemma date_score (date yesterday : datetime) :
  1 ≤ dt_month date ≤ 12 → 1 ≤ dt_day date →
  minus_one_day date = Some yesterday →
  let score :=
    (signal_score (analyze_wuxing_strength (pillars_of date))
       (analyze_wuxing_strength (pillars_of yesterday))).1 in
  0 ≤ score ≤ 3
  ∧ (score = 3 ↔ buy_day (dt_year date) (dt_month date) (dt_day date)).
Proof.
  intros Hm Hd Hy. cbv zeta. rewrite signal_score_gain. cbn [fst].
  set (cur := analyze_wuxing_strength (pillars_of date)).
  set (sym := analyze_wuxing_strength (pillars_of yesterday)).
  pose proof (count_elements_range (gain cur sym)) as Hrange.
  unfold buy_day.
  revert Hy. unfold minus_one_day.
  destruct (Z.ltb_spec 1 (dt_day date)) as [Hday | Hday].
  { (* Only the pillar of the day differs. *)
    intros [= Hy].
    assert (count_elements (gain cur sym) ≤ 2); [| lia].
    change 2 with (Z.of_nat (length (pillar_elements (dt_day date - 1)))).
    apply count_elements_occurrences. intros w Hw.
    rewrite (gain_shared cur sym
               (λ w, occurrences (pillar_elements (dt_year date - 1900)) w
                     + occurrences (pillar_elements (dt_month date - 1)) w
                     + occurrences (pillar_elements (dt_hour date / 2)) w)
               (pillar_elements (dt_day date - 1))
               (pillar_elements (dt_day date - 1 - 1))) in Hw.
    - apply andb_true_iff in Hw as [Hw _]. unfold dominated in Hw.
      apply Z.ltb_lt in Hw.
      pose proof (occurrences_nonneg (pillar_elements (dt_day date - 1 - 1)) w). lia.
    - intros v. unfold cur. rewrite wx_get_pillars. lia.
    - intros v. unfold sym. rewrite wx_get_pillars, <- Hy.
      cbn [dt_year dt_month dt_day dt_hour]. lia. }
  assert (dt_day date = 1) as Hd1 by lia.
  destruct (Z.ltb_spec 1 (dt_month date)) as [Hmonth | Hmonth].
  { (* The pillars of the month and of the day differ. *)
    intros [= Hy].
    assert (count_elements (gain cur sym) ≤ 2); [| lia].
    set (dim := days_in_month (dt_year date) (dt_month date - 1)) in *.
    etransitivity; [| apply (month_start_dominated (dt_month date) dim);
                      [lia | apply days_in_month_range]].
    apply count_elements_le. intros w Hw.
    rewrite (gain_shared cur sym
               (λ w, occurrences (pillar_elements (dt_year date - 1900)) w
                     + occurrences (pillar_elements (dt_hour date / 2)) w)
               (month_start_pillars (dt_month date) dim).1
               (month_start_pillars (dt_month date) dim).2) in Hw.
    - by apply andb_true_iff in Hw as [Hw _].
    - intros v. unfold cur, month_start_pillars. cbn [fst].
      rewrite wx_get_pillars, occurrences_app, Hd1. change (1 - 1) with 0. lia.
    - intros v. unfold sym, month_start_pillars. cbn [snd].
      rewrite wx_get_pillars, occurrences_app, <- Hy.
      cbn [dt_year dt_month dt_day dt_hour].
      replace (dt_month date - 1 - 1) with (dt_month date - 2) by lia. lia. }
  assert (dt_month date = 1) as Hm1 by lia.
  destruct (Z.ltb_spec 1 (dt_year date)) as [Hyear | Hyear]; [| done].
  intros [= Hy].
  set (o := (dt_year date - 1900) mod 60).
  assert (0 ≤ o < 60) as Ho by (apply Z.mod_pos_bound; lia).
  set (shared := λ w, occurrences (pillar_elements (dt_hour date / 2)) w).
  assert (Hcur : ∀ w, wx_get cur w = shared w + occurrences (new_year_pillars o).1 w).
  { intros v. unfold cur, shared, new_year_pillars. cbn [fst].
    rewrite wx_get_pillars, !occurrences_app, Hd1, Hm1.
    rewrite (pillar_elements_mod_60 (dt_year date - 1900) o)
      by (unfold o; by rewrite Z.mod_mod).
    change (1 - 1) with 0. lia. }
  assert (Hsym : ∀ w, wx_get sym w = shared w + occurrences (new_year_pillars o).2 w).
  { intros v. unfold sym, shared, new_year_pillars. cbn [snd].
    rewrite wx_get_pillars, !occurrences_app, <- Hy.
    cbn [dt_year dt_month dt_day dt_hour].
    rewrite (pillar_elements_mod_60 (dt_year date - 1 - 1900) (o - 1))
      by (unfold o; Z.div_mod_to_equations; lia).
    change (12 - 1) with 11. change (31 - 1) with 30. lia. }
  destruct (decide (o = 26)) as [Ho26 | Ho26].
  - rewrite Ho26 in Hcur, Hsym.
    rewrite (new_year_26_score cur sym shared); [lia | | done | done].
    intros w. apply occurrences_nonneg.
  - assert (count_elements (gain cur sym) ≤ 2); [| lia].
    etransitivity; [| apply (new_year_dominated o Ho Ho26)].
    apply count_elements_le. intros w Hw.
    rewrite (gain_shared cur sym shared _ _ Hcur Hsym) in Hw.
    by apply andb_true_iff in Hw as [Hw _].
Qed.

Lemma get_trading_signal_pillars (symbol : string) (date : datetime) (price_data : series) :
  get_trading_signal symbol date price_data
  = yesterday ← minus_one_day date;
    Some (evaluate (pillars_of date) (analyze_wuxing_strength (pillars_of date))
            (analyze_wuxing_strength (pillars_of yesterday))).
Proof.
  unfold get_trading_signal. rewrite calculate_bazi_pillars.
  cbn -[evaluate analyze_wuxing_strength].
  destruct (minus_one_day date) as [y |]; [| done].
  cbn -[evaluate analyze_wuxing_strength].
  by rewrite calculate_bazi_pillars.
Qed.

(** What [get_trading_signal] answers on a date with a month from 1 to 12
    and a day from 1. *)
Lemma get_trading_signal_rule (symbol : string) (date : datetime) (price_data : series) :
  1 ≤ dt_month date ≤ 12 → 1 ≤ dt_day date →
  match get_trading_signal symbol date price_data with
  | None => dt_year date ≤ 1 ∧ dt_month date = 1 ∧ dt_day date = 1
  | Some info =>
      0 ≤ strength info ≤ 3
      ∧ (strength info = 3 ↔ buy_day (dt_year date) (dt_month date) (dt_day date))
      ∧ (signal info, confidence info) = decide_signal (strength info)
  end.
Proof.
  intros Hm Hd. rewrite get_trading_signal_pillars.
  destruct (minus_one_day date) as [y |] eqn:Hy; cbn -[evaluate analyze_wuxing_strength].
  - destruct (evaluate_fields (pillars_of date)
                (analyze_wuxing_strength (pillars_of date))
                (analyze_wuxing_strength (pillars_of y))) as (-> & _ & ->).
    destruct (date_score date y Hm Hd Hy) as [Hrange Hbuy]. done.
  - revert Hy. unfold minus_one_day.
    destruct (Z.ltb_spec 1 (dt_day date)); [done |].
    destruct (Z.ltb_spec 1 (dt_month date)); [done |].
    destruct (Z.ltb_spec 1 (dt_year date)); [done |]. lia.
Qed.

(** X6.  On every date a [datetime] can hold, [get_trading_signal] raises
    only on 1 January of year 1, which has no day before, and otherwise
    says BUY exactly on the first of January of the years at offset 26 of
    the sixty-year cycle counted from 1900 (1926, 1986, 2046, ...), at any
    hour, with strength 3 and confidence 3/5.  On every other date the
    signal is HOLD with confidence 1/2 and a strength of at most 2: the day
    before shares all pillars but that of the day, or those of the day and
    the month. *)
Theorem buy_only_on_new_year (symbol : string) (date : datetime) (price_data : series) :
  valid_datetime date →
  match get_trading_signal symbol date price_data with
  | None => dt_year date = 1 ∧ dt_month date = 1 ∧ dt_day date = 1
  | Some info =>
      (signal info = BUY ↔ buy_day (dt_year date) (dt_month date) (dt_day date))
      ∧ (signal info = BUY → strength info = 3 ∧ confidence info = (3 # 5)%Q)
      ∧ (signal info ≠ BUY →
         signal info = HOLD ∧ confidence info = (1 # 2)%Q ∧ 0 ≤ strength info ≤ 2)
  end.
Proof.
  intros (Hyear & Hmonth & Hday & _).
  pose proof (get_trading_signal_rule symbol date price_data Hmonth
                ltac:(lia)) as Hrule.
  destruct (get_trading_signal symbol date price_data) as [info |]; [| lia].
  destruct Hrule as (Hrange & Hbuy & Hdec).
  destruct (decide (strength info = 3)) as [H3 | H3].
  - rewrite H3 in Hdec. injection Hdec as Hsig Hconf.
    rewrite Hsig. split; [| split]; [| done | done].
    split; [intros _; by apply Hbuy | done].
  - assert (decide_signal (strength info) = (HOLD, (1 # 2)%Q)) as Hhold.
    { unfold decide_signal.
      destruct (Z.leb_spec 3 (strength info)); [lia |].
      destruct (Z.leb_spec (strength info) (-3)); [lia | done]. }
    rewrite Hhold in Hdec. injection Hdec as Hsig Hconf.
    rewrite Hsig. split; [| split]; [| done |].
    + split; [done |]. intros Hb. by apply Hbuy in Hb.
    + intros _. split; [done |]. split; [done | lia].
Qed.

(** On 1 January 1986 at midnight, BUY with strength 3 and confidence 3/5. *)
Lemma buy_on_new_year_1986 :
  ∃ info,
    get_trading_signal "DEMO" (combine_min_time (day 1986 1 1)) [] = Some info
    ∧ signal info = BUY ∧ strength info = 3 ∧ confidence info = (3 # 5)%Q.
Proof.
  pose proof (buy_only_on_new_year "DEMO" (combine_min_time (day 1986 1 1)) []) as H.
  destruct (get_trading_signal "DEMO" (combine_min_time (day 1986 1 1)) [])
    as [info |] eqn:Hsig; [| by vm_compute in Hsig].
  exists info. split; [reflexivity |].
  destruct H as (Hbuy & Hthen & _); [unfold valid_datetime; cbn; lia |].
  assert (signal info = BUY) as Hb by (apply Hbuy; by vm_compute).
  split; [done |]. by apply Hthen.
Defined.

(** * Further properties of the engine *)

Section IdleRun.

Variable strategy : string → datetime → series → option signal_info.
Variable data_dict : gmap string series.

(** The turn of an inert symbol that is not held changes nothing. *)
Lemma process_symbol_idle date st symbol :
  is_inert strategy data_dict date symbol = true →
  positions st !! symbol = None →
  process_symbol strategy data_dict date st symbol = Some st.
Proof.
  unfold is_inert, process_symbol.
  destruct (data_dict !! symbol) as [data |]; [| done].
  destruct (close_on data date) as [price |]; [| done].
  destruct (strategy _ _ _) as [info |]; [| done].
  intros Hhold%bool_decide_eq_true Hpos.
  cbn -[mark trade_symbol]. unfold trade_symbol. rewrite Hhold. cbn -[mark].
  unfold mark. by rewrite Hpos.
Qed.

Lemma for_each_idle date symbols st :
  (∀ s, s ∈ symbols → is_inert strategy data_dict date s = true) →
  positions st = ∅ →
  for_each (process_symbol strategy data_dict date) symbols st = Some st.
Proof.
  intros Hinert Hpos. induction symbols as [| s symbols IH]; [done |].
  cbn. rewrite process_symbol_idle; [| apply Hinert; by left | by rewrite Hpos].
  cbn. apply IH. intros s' Hs'. apply Hinert. by right.
Qed.

Lemma process_date_idle symbols initial_capital rs date :
  ¬ (initial_capital == 0)%Q →
  (∀ s, s ∈ symbols → is_inert strategy data_dict date s = true) →
  untouched initial_capital rs → portfolio_value rs ≠ [] →
  ∃ rs', process_date strategy data_dict symbols rs date = Some rs'
    ∧ untouched initial_capital rs' ∧ portfolio_value rs' ≠ []
    ∧ dates rs' = dates rs ++ [date].
Proof.
  intros Hcap Hinert (Hc & Hp & Ht & Hv & Hr & Hd) Hne.
  unfold process_date.
  rewrite for_each_idle by done. cbn -[last].
  rewrite Hp. unfold total_position_value. rewrite map_fold_empty. cbn -[last].
  destruct (last (portfolio_value rs)) as [prev |] eqn:Hlast;
    [| by apply last_None in Hlast].
  assert (prev == initial_capital)%Q as Hprev.
  { apply last_Some in Hlast as [l Hl]. rewrite Hl in Hv.
    apply Forall_app in Hv as [_ Hv]. exact (Forall_inv Hv). }
  cbn. rewrite Ht. cbn.
  destruct (Qeq_bool prev 0) eqn:Hz.
  { apply Qeq_bool_iff in Hz. rewrite Hz in Hprev. by destruct Hcap. }
  eexists. split; [done |]. unfold untouched. cbn.
  split; [| split]; [| by destruct (portfolio_value rs) | done].
  split; [done |]. split; [done |]. split; [done |].
  split; [| split].
  - apply Forall_app. split; [done |]. apply Forall_singleton. rewrite Hc. ring.
  - apply Forall_app. split; [done |]. apply Forall_singleton.
    eexists. split; [done |]. rewrite Hc.
    assert (¬ prev == 0)%Q by (rewrite Hprev; done).
    rewrite Hprev. field. done.
  - apply Forall_app. split; [done |]. by apply Forall_singleton.
Qed.

Lemma run_dates_idle symbols initial_capital ds rs :
  ¬ (initial_capital == 0)%Q →
  (∀ d s, d ∈ ds → s ∈ symbols → is_inert strategy data_dict d s = true) →
  untouched initial_capital rs → portfolio_value rs ≠ [] →
  ∃ rs', for_each (process_date strategy data_dict symbols) ds rs = Some rs'
    ∧ untouched initial_capital rs' ∧ dates rs' = dates rs ++ ds.
Proof.
  intros Hcap. revert rs. induction ds as [| d ds IH]; intros rs Hinert Hrs Hne.
  - exists rs. by rewrite app_nil_r.
  - destruct (process_date_idle symbols initial_capital rs d Hcap) as
      (rs1 & Hstep & Hrs1 & Hne1 & Hd1); [| done | done |].
    { intros s Hs. apply Hinert; [by left | done]. }
    destruct (IH rs1) as (rs' & Hrun & Hrs' & Hd'); [| done | done |].
    { intros d' s Hd'' Hs. apply Hinert; [by right | done]. }
    exists rs'. cbn. rewrite Hstep. cbn. split; [done |]. split; [done |].
    by rewrite Hd', Hd1, <- app_assoc.
Qed.

End IdleRun.

(** Off the buy days every symbol is inert under [get_trading_signal]. *)
Lemma get_trading_signal_inert (data_dict : gmap string series) (d : date) (symbol : string) :
  valid_date d → ¬ buy_day (d_year d) (d_month d) (d_day d) → d ≠ day 1 1 1 →
  is_inert get_trading_signal data_dict d symbol = true.
Proof.
  intros (Hyear & Hmonth & Hday & _) Hbuy Hfirst. unfold is_inert.
  destruct (data_dict !! symbol) as [data |]; [| done].
  destruct (close_on data d); [| done].
  pose proof (get_trading_signal_rule symbol (combine_min_time d) data Hmonth
                ltac:(lia)) as Hrule.
  destruct (get_trading_signal symbol (combine_min_time d) data) as [info |].
  - destruct Hrule as (Hrange & H3 & Hdec). apply bool_decide_eq_true.
    assert (strength info ≠ 3) as Hne by (intros Hs; by apply H3 in Hs).
    revert Hdec. unfold decide_signal.
    destruct (Z.leb_spec 3 (strength info)); [lia |].
    destruct (Z.leb_spec (strength info) (-3)); [lia |]. by intros [= -> _].
  - destruct Hfirst. destruct d as [y m dd]. cbn in *. unfold day. f_equal; lia.
Qed.

(** X7.  With the strategy of the repository a backtest over data that has
    no bar on a buy day never trades: if the initial capital is not zero and
    every date of the data is a date of the calendar after 1 January of year
    1 and not the first of January of a year at offset 26 of the cycle, the
    run returns, with no trade and no position, the cash and every entry of
    [portfolio_value] equal to the initial capital, every return zero, and
    one entry per date of the data. *)
Theorem no_buy_day_no_trade (initial_capital : Q) (symbols : list string)
    (data_dict : gmap string series) :
  ¬ (initial_capital == 0)%Q →
  data_dict ≠ ∅ →
  (∀ d, d ∈ all_dates data_dict →
        valid_date d ∧ ¬ buy_day (d_year d) (d_month d) (d_day d) ∧ d ≠ day 1 1 1) →
  ∃ rs,
    run_backtest get_trading_signal initial_capital symbols data_dict
    = Some (Results rs)
    ∧ untouched initial_capital rs
    ∧ dates rs = all_dates data_dict.
Proof.
  intros Hcap Hdata Hdates. unfold run_backtest.
  destruct (Nat.eqb_spec (size data_dict) 0) as [Hsize | _].
  { by apply map_size_empty_iff in Hsize. }
  destruct (run_dates_idle get_trading_signal data_dict symbols initial_capital
              (all_dates data_dict) (initial_state initial_capital) Hcap)
    as (rs & Hrun & Hrs & Hd).
  - intros d s Hin _. destruct (Hdates d Hin) as (Hv & Hb & Hf).
    by apply get_trading_signal_inert.
  - unfold untouched, initial_state. cbn.
    repeat split; try done.
    + by apply Forall_singleton.
    + apply Forall_singleton. by exists 0%Q.
  - done.
  - exists rs. rewrite Hrun. done.
Qed.

(** The data of scenario E, all of January 2023, is not traded. *)
Lemma scenario_E_not_traded :
  ∃ rs,
    run_backtest get_trading_signal 100000 ["X"; "Y"] scenario_E_data
    = Some (Results rs)
    ∧ rs_trades rs = []
    ∧ dates rs = [day 2023 1 2; day 2023 1 3; day 2023 1 4].
Proof.
  destruct (no_buy_day_no_trade 100000 ["X"; "Y"] scenario_E_data)
    as (rs & Hrun & (_ & _ & Ht & _) & Hd).
  - done.
  - by vm_compute.
  - intros d Hin.
    assert (d ∈ [day 2023 1 2; day 2023 1 3; day 2023 1 4]) as Hd
      by (by vm_compute in Hin).
    unfold valid_date, valid_datetime, buy_day.
    clear Hin.
    repeat (apply elem_of_cons in Hd as [-> | Hd]); [.. | by apply elem_of_nil in Hd];
      cbn; (split; [lia |]); (split; [| done]); intros (? & ? & ?); lia.
  - exists rs. split; [done |]. split; [done |]. rewrite Hd. by vm_compute.
Defined.

Section RunShape.

Variable strategy : string → datetime → series → option signal_info.
Variable data_dict : gmap string series.

(** Whenever [period_return] returns, it returns the quotient of numpy. *)
Lemma period_return_np_div (trades_so_far : list trade) (value prev : Q) (r : xfloat) :
  period_return trades_so_far value prev = Some r → r = np_div (value - prev) prev.
Proof.
  unfold period_return, np_div. destruct trades_so_far.
  - destruct (Qeq_bool prev 0); [done | by intros [= <-]].
  - by intros [= <-].
Qed.

(** What a date appends to the results. *)
Lemma process_date_appends (symbols : list string) (rs rs' : run_state) (date : date) :
  process_date strategy data_dict symbols rs date = Some rs' →
  ∃ prev value,
    last (portfolio_value rs) = Some prev
    ∧ portfolio_value rs' = portfolio_value rs ++ [value]
    ∧ returns rs' = returns rs ++ [np_div (value - prev) prev]
    ∧ length (daily_returns_list rs') = S (length (daily_returns_list rs))
    ∧ dates rs' = dates rs ++ [date].
Proof.
  unfold process_date. intros Hrun.
  destruct (for_each _ symbols _) as [st |]; [| done]. cbn -[last] in Hrun.
  destruct (total_position_value _ _ _) as [tpv |]; [| done]. cbn -[last] in Hrun.
  destruct (last (portfolio_value rs)) as [prev |]; [| done]. cbn in Hrun.
  destruct (period_return _ _ _) as [r |] eqn:Hr; [| done]. cbn in Hrun.
  apply period_return_np_div in Hr. simplify_eq. cbn.
  eexists _, _. repeat split; try done. rewrite length_app. cbn. lia.
Qed.

Lemma process_date_returns (symbols : list string) (rs rs' : run_state) (date : date) :
  process_date strategy data_dict symbols rs date = Some rs' →
  returns_follow_values rs → returns_follow_values rs'.
Proof.
  intros (prev & value & Hlast & Hpv & Hret & _ & _)%process_date_appends [Hlen Hfollow].
  unfold returns_follow_values. rewrite Hpv, Hret, !length_app, Hlen.
  split; [done |]. intros i p v Hp Hv.
  apply last_Some in Hlast as [pvs Hpvs].
  destruct (decide (S i < length (portfolio_value rs))%nat) as [Hlt | Hge].
  - rewrite lookup_app_l in Hp by lia. rewrite lookup_app_l in Hv by lia.
    rewrite lookup_app_l by lia. by apply Hfollow.
  - assert (S i = length (portfolio_value rs)) as Hi.
    { apply lookup_lt_Some in Hv. rewrite length_app in Hv. cbn in Hv. lia. }
    rewrite Hi, <- Hlen, list_lookup_middle by done.
    rewrite Hi, list_lookup_middle in Hv by done.
    rewrite lookup_app_l in Hp by lia.
    rewrite Hpvs in Hp, Hi. rewrite length_app in Hi. cbn in Hi.
    replace i with (length pvs) in Hp by lia.
    rewrite list_lookup_middle in Hp by done. by simplify_eq.
Qed.

Lemma run_dates_shape (symbols : list string) (ds : list date) (rs rs' : run_state) :
  for_each (process_date strategy data_dict symbols) ds rs = Some rs' →
  returns_follow_values rs →
  returns_follow_values rs'
  ∧ dates rs' = dates rs ++ ds
  ∧ length (portfolio_value rs') = (length (portfolio_value rs) + length ds)%nat
  ∧ length (daily_returns_list rs')
    = (length (daily_returns_list rs) + length ds)%nat
  ∧ head (portfolio_value rs') = head (portfolio_value rs)
  ∧ head (returns rs') = head (returns rs).
Proof.
  revert rs. induction ds as [| d ds IH]; intros rs Hrun Hrs; cbn in Hrun.
  - simplify_eq. rewrite app_nil_r, !Nat.add_0_r. done.
  - destruct (process_date _ _ _ rs d) as [rs1 |] eqn:Hstep; [| done]. cbn in Hrun.
    pose proof (process_date_returns _ _ _ _ Hstep Hrs) as Hrs1.
    destruct (IH rs1 Hrun Hrs1) as (Hf & Hd & Hpv & Hdr & Hh & Hhr).
    apply process_date_appends in Hstep
      as (prev & value & Hlast & Hpv1 & Hret1 & Hdr1 & Hd1).
    split; [done |]. rewrite Hd, Hpv, Hdr, Hh, Hhr, Hd1, Hpv1, Hret1, Hdr1.
    rewrite <- app_assoc, length_app. cbn.
    split; [done |]. split; [lia |]. split; [lia |].
    apply last_Some in Hlast as [pvs Hpvs]. destruct Hrs as [Hlen _].
    rewrite Hpvs in Hlen |- *. rewrite length_app in Hlen. cbn in Hlen.
    split; [by destruct pvs |].
    destruct (returns rs); [cbn in Hlen; lia | done].
Qed.

End RunShape.

(** X8.  The shape of the results of [run_backtest], for every strategy:
    [dates] is the sorted list of the dates of the data, [portfolio_value]
    and [returns] have one entry more than [dates] (they begin with the
    initial capital and with 0), [daily_returns] has one entry per date, and
    every later entry of [returns] is the relative change of
    [portfolio_value] from the entry before, computed as numpy divides. *)
Theorem results_shape (strategy : string → datetime → series → option signal_info)
    (initial_capital : Q) (symbols : list string) (data_dict : gmap string series)
    (rs : run_state) :
  run_backtest strategy initial_capital symbols data_dict = Some (Results rs) →
  dates rs = all_dates data_dict
  ∧ length (portfolio_value rs) = S (length (dates rs))
  ∧ length (returns rs) = S (length (dates rs))
  ∧ length (daily_returns_list rs) = length (dates rs)
  ∧ head (portfolio_value rs) = Some initial_capital
  ∧ head (returns rs) = Some (Finite 0)
  ∧ ∀ (i : nat) (prev value : Q),
      portfolio_value rs !! i = Some prev →
      portfolio_value rs !! S i = Some value →
      returns rs !! S i = Some (np_div (value - prev) prev).
Proof.
  unfold run_backtest. destruct (_ =? _)%nat; [done |].
  destruct (for_each _ _ _) as [rs' |] eqn:Hrun; [| done].
  intros [= ->].
  apply run_dates_shape in Hrun as ([Hlen Hf] & Hd & Hpv & Hdr & Hh & Hhr).
  - cbn in *. rewrite Hd, Hlen, Hpv, Hdr, Hh, Hhr.
    repeat split; try done; lia.
  - split; [done |]. intros [| i] p v Hp Hv; cbn in *; done.
Qed.

(** The run of scenario A has four values for three dates. *)
Lemma scenario_A_shape :
  ∃ rs, run_backtest scenario_A_strategy 100000 ["DEMO"] scenario_A_data
        = Some (Results rs)
    ∧ dates rs = [day 2023 1 2; day 2023 1 3; day 2023 1 4]
    ∧ length (portfolio_value rs) = 4%nat.
Proof.
  destruct (run_backtest scenario_A_strategy 100000 ["DEMO"] scenario_A_data)
    as [[| rs] |] eqn:Hrun; try (by vm_compute in Hrun).
  exists rs. split; [reflexivity |].
  destruct (results_shape _ _ _ _ _ Hrun) as (Hd & Hpv & _).
  rewrite Hpv, Hd. clear Hrun Hd Hpv. vm_compute. split; reflexivity.
Defined.

Lemma close_on_elem (data : series) (d : date) :
  is_Some (close_on data d) ↔ ∃ c, (d, c) ∈ data.
Proof.
  induction data as [| [d' c'] data IH]; cbn.
  - split; [by intros [? ?] | by intros [? ?%elem_of_nil]].
  - case_decide as Hd.
    + subst d'. split; [intros _; exists c'; by left | by eexists].
    + rewrite IH. split.
      * intros [c Hc]. exists c. by right.
      * intros [c Hc]. apply elem_of_cons in Hc as [[= ? ?] | Hc]; [done | by exists c].
Qed.

Lemma date_sorted_NoDup (l : list date) : StronglySorted date_lt l → NoDup l.
Proof.
  induction 1 as [| d l _ IH Hall]; constructor; [| done].
  intros Hin. rewrite Forall_forall in Hall.
  by apply (date_lt_irrefl d), Hall.
Qed.

(** X9.  The dates [run_backtest] walks through are the dates of the rows
    of all the price series, each once, in strictly ascending order. *)
Theorem all_dates_spec (data_dict : gmap string series) :
  StronglySorted date_lt (all_dates data_dict)
  ∧ NoDup (all_dates data_dict)
  ∧ ∀ d, d ∈ all_dates data_dict ↔
         ∃ symbol data c, data_dict !! symbol = Some data ∧ (d, c) ∈ data.
Proof.
  destruct (all_dates_sorted data_dict) as [Hsorted Helem].
  split; [done |]. split; [by apply date_sorted_NoDup |].
  intros d. rewrite Helem. split.
  - intros (symbol & data & Hdata & [c Hc]%close_on_elem). by exists symbol, data, c.
  - intros (symbol & data & c & Hdata & Hc). exists symbol, data.
    split; [done |]. apply close_on_elem. by exists c.
Qed.


Lemma replay_snoc (held : option position) (l : list trade) (t : trade) :
  replay held (l ++ [t]) = (h ← replay held l; replay h [t]).
Proof.
  revert held. induction l as [| t' l IH]; intros held.
  - cbn. by destruct (replay held [t]).
  - cbn [app replay]. destruct (t_action t'), held as [pos |]; try done.
    case_decide; [apply IH | done].
Qed.

Lemma trades_of_snoc (symbol : string) (l : list trade) (t : trade) :
  trades_of symbol (l ++ [t])
  = if decide (t_symbol t = symbol) then trades_of symbol l ++ [t]
    else trades_of symbol l.
Proof.
  unfold trades_of. rewrite filter_app. case_decide.
  - by rewrite filter_cons_True.
  - rewrite filter_cons_False by done. by rewrite filter_nil, app_nil_r.
Qed.

Section BookKeeping.

Variable strategy : string → datetime → series → option signal_info.
Variable data_dict : gmap string series.

Lemma trade_symbol_book_kept date symbol price info st st' :
  book_kept st →
  trade_symbol date symbol price info st = Some st' →
  book_kept st'.
Proof.
  intros Hst. unfold trade_symbol.
  destruct (signal info), (positions st !! symbol) as [pos |] eqn:Hpos;
    try (by intros [= <-]).
  - (* BUY *)
    unfold buy. destruct (int_of_div _ _) as [n |]; [| done]. cbn.
    destruct (0 <? n); [| by intros [= <-]].
    intros [= <-] s. cbn [trades positions]. rewrite trades_of_snoc.
    cbn [t_symbol]. case_decide as Hs.
    + subst s. rewrite replay_snoc, Hst, Hpos, lookup_insert_eq. done.
    + rewrite lookup_insert_ne by done. apply Hst.
  - (* SELL *)
    intros [= <-] s. unfold sell. cbn [trades positions]. rewrite trades_of_snoc.
    cbn [t_symbol]. case_decide as Hs.
    + subst s. rewrite replay_snoc, Hst, Hpos, lookup_delete_eq. cbn.
      by rewrite decide_True.
    + rewrite lookup_delete_ne by done. apply Hst.
Qed.

Lemma process_symbol_book_kept date st symbol st' :
  book_kept st →
  process_symbol strategy data_dict date st symbol = Some st' →
  book_kept st'.
Proof.
  intros Hst. unfold process_symbol.
  destruct (data_dict !! symbol) as [data |]; [| by intros [= <-]].
  destruct (close_on data date) as [price |]; [| by intros [= <-]].
  destruct (strategy _ _ _) as [info |]; [| done]. cbn -[mark].
  destruct (trade_symbol _ _ _ _ _) as [st1 |] eqn:Htrade; [| done].
  cbn -[mark]. intros [= <-].
  pose proof (trade_symbol_book_kept _ _ _ _ _ _ Hst Htrade) as Hst1.
  intros s. destruct (mark_frame symbol price st1) as (_ & -> & ->). apply Hst1.
Qed.

Lemma reachable_book_kept initial_capital st :
  reachable strategy data_dict initial_capital st → book_kept st.
Proof.
  induction 1 as [| st date symbol st' _ IH Hstep | st _ IH].
  - by intros s.
  - by eapply process_symbol_book_kept.
  - exact IH.
Qed.

End BookKeeping.

(** X11.  The positions [run_backtest] returns are what its trade log
    says, for every strategy: the records of each symbol replay in order,
    so they alternate BUY, SELL, BUY, ... and begin with a BUY, every SELL
    sells exactly the shares of the BUY before it, and the symbol ends up
    held exactly when its last record is a BUY, with the shares, the price
    and the date of that record. *)
Theorem positions_replay_trades
    (strategy : string → datetime → series → option signal_info)
    (initial_capital : Q) (symbols : list string) (data_dict : gmap string series)
    (rs : run_state) :
  run_backtest strategy initial_capital symbols data_dict = Some (Results rs) →
  ∀ symbol,
    replay None (trades_of symbol (rs_trades rs)) = Some (rs_positions rs !! symbol).
Proof.
  intros Hrun%run_backtest_reachable symbol.
  by apply (reachable_book_kept _ _ _ _ Hrun symbol).
Qed.

(** In scenario A the symbol is bought and sold, and nothing is held. *)
Lemma scenario_A_replays :
  ∃ rs, run_backtest scenario_A_strategy 100000 ["DEMO"] scenario_A_data
        = Some (Results rs)
    ∧ t_action <$> trades_of "DEMO" (rs_trades rs) = [A_BUY; A_SELL]
    ∧ replay None (trades_of "DEMO" (rs_trades rs)) = Some None.
Proof.
  destruct (run_backtest scenario_A_strategy 100000 ["DEMO"] scenario_A_data)
    as [[| rs] |] eqn:Hrun; try (by vm_compute in Hrun).
  exists rs. split; [reflexivity |].
  pose proof (positions_replay_trades _ _ _ _ _ Hrun "DEMO") as Hreplay.
  rewrite Hreplay. vm_compute in Hrun. simplify_eq. clear Hreplay.
  split; reflexivity.
Defined.

(** An invariant of the body of a loop is an invariant of the loop. *)
Lemma for_each_invariant {A B : Type} (f : A → B → option A) (I : A → Prop)
    (l : list B) (a a' : A) :
  (∀ x a a', x ∈ l → I a → f a x = Some a' → I a') →
  I a → for_each f l a = Some a' → I a'.
Proof.
  revert a. induction l as [| x l IH]; intros a Hstep Ha Hrun; cbn in Hrun.
  - by simplify_eq.
  - destruct (f a x) as [a1 |] eqn:Hx; [| done]. cbn in Hrun.
    apply (IH a1); [| | done].
    + intros y b b' Hy. apply Hstep. by right.
    + apply (Hstep x a a1); [by left | done | done].
Qed.

Lemma StronglySorted_snoc {A : Type} (R : A → A → Prop) (l : list A) (x : A) :
  StronglySorted R l → Forall (λ a, R a x) l → StronglySorted R (l ++ [x]).
Proof.
  induction 1 as [| a l Hl IH Ha]; intros Hx; cbn.
  - repeat constructor.
  - apply Forall_cons in Hx as [Hax Hx]. constructor; [by apply IH |].
    apply Forall_app. split; [done |]. by apply Forall_singleton.
Qed.

Lemma date_le_trans_lt (a b c : date) : date_le a b → date_lt b c → date_le a c.
Proof. intros [-> | Hab] Hbc; right; [done | by eapply date_lt_trans]. Qed.

Section TradeLog.

Variable strategy : string → datetime → series → option signal_info.
Variable data_dict : gmap string series.
Variable symbols : list string.

Lemma process_symbol_log_sound date st symbol st' :
  symbol ∈ symbols →
  log_sound data_dict symbols date (positions st) (trades st) →
  process_symbol strategy data_dict date st symbol = Some st' →
  log_sound data_dict symbols date (positions st') (trades st').
Proof.
  intros Hsym Hst. unfold process_symbol.
  destruct (data_dict !! symbol) as [data |] eqn:Hdata; [| by intros [= <-]].
  destruct (close_on data date) as [price |] eqn:Hbar; [| by intros [= <-]].
  destruct (strategy _ _ _) as [info |]; [| done]. cbn -[mark].
  destruct (trade_symbol _ _ _ _ _) as [st1 |] eqn:Htrade; [| done].
  cbn -[mark]. intros [= <-].
  destruct (mark_frame symbol price st1) as (_ & -> & ->).
  revert Htrade. unfold trade_symbol.
  destruct Hst as (Hlog & Hpos & Hsorted & Hpast).
  destruct (signal info), (positions st !! symbol) as [pos |] eqn:Hheld;
    try (by intros [= <-]).
  - unfold buy. destruct (int_of_div _ _) as [n |]; [| done]. cbn.
    destruct (Z.ltb_spec 0 n) as [Hn | Hn]; [| by intros [= <-]].
    intros [= <-]. cbn. split; [| split; [| split]].
    + apply Forall_app. split; [done |]. apply Forall_singleton.
      split; [done |]. split; [done |]. by exists data.
    + apply map_Forall_insert_2; [| done].
      split; [done |]. split; [done |]. by exists data.
    + apply StronglySorted_snoc; [done |]. done.
    + apply Forall_app. split; [done |]. apply Forall_singleton. by left.
  - intros [= <-]. unfold sell. cbn. split; [| split; [| split]].
    + apply Forall_app. split; [done |]. apply Forall_singleton.
      split; [done |]. split; [by apply (Hpos symbol pos Hheld) |]. by exists data.
    + by apply map_Forall_delete.
    + apply StronglySorted_snoc; [done |]. done.
    + apply Forall_app. split; [done |]. apply Forall_singleton. by left.
Qed.

Lemma process_date_log_sound rs date rs' later :
  Forall (date_lt date) later →
  log_sound data_dict symbols date (rs_positions rs) (rs_trades rs) →
  process_date strategy data_dict symbols rs date = Some rs' →
  Forall (λ d, log_sound data_dict symbols d (rs_positions rs') (rs_trades rs')) later
  ∧ log_sound data_dict symbols date (rs_positions rs') (rs_trades rs').
Proof.
  intros Hlater Hrs. unfold process_date.
  destruct (for_each _ symbols _) as [st |] eqn:Hloop; [| done]. cbn -[last].
  destruct (total_position_value _ _ _); [| done]. cbn -[last].
  destruct (last (portfolio_value rs)); [| done]. cbn.
  destruct (period_return _ _ _); [| done]. cbn. intros [= <-]. cbn.
  assert (log_sound data_dict symbols date (positions st) (trades st)) as Hst.
  { apply (for_each_invariant _
             (λ st, log_sound data_dict symbols date (positions st) (trades st))
             _ _ _ (λ s a a' Hs, process_symbol_log_sound date a s a' Hs)
             (Hrs : log_sound data_dict symbols date
                      (positions (sim_of_run rs)) (trades (sim_of_run rs)))
             Hloop). }
  split; [| done].
  apply Forall_forall. intros d Hd.
  rewrite Forall_forall in Hlater. specialize (Hlater d Hd).
  destruct Hst as (Hlog & Hpos & Hsorted & Hpast).
  split; [done |]. split; [done |]. split; [done |].
  eapply Forall_impl; [exact Hpast |]. intros t Ht. cbn in Ht.
  by eapply date_le_trans_lt.
Qed.

Lemma run_dates_log_sound ds rs rs' :
  StronglySorted date_lt ds →
  Forall (λ d, log_sound data_dict symbols d (rs_positions rs) (rs_trades rs)) ds →
  Forall (trade_sound data_dict symbols) (rs_trades rs) →
  map_Forall (position_sound data_dict symbols) (rs_positions rs) →
  StronglySorted (λ a b, date_le (t_date a) (t_date b)) (rs_trades rs) →
  for_each (process_date strategy data_dict symbols) ds rs = Some rs' →
  Forall (trade_sound data_dict symbols) (rs_trades rs')
  ∧ map_Forall (position_sound data_dict symbols) (rs_positions rs')
  ∧ StronglySorted (λ a b, date_le (t_date a) (t_date b)) (rs_trades rs').
Proof.
  intros Hds. revert rs.
  induction Hds as [| d ds Hds IH Hd]; intros rs Hall Ht Hp Hs Hrun; cbn in Hrun.
  - by simplify_eq.
  - destruct (process_date _ _ _ rs d) as [rs1 |] eqn:Hstep; [| done]. cbn in Hrun.
    apply Forall_cons in Hall as [Hrs Hall].
    destruct (process_date_log_sound rs d rs1 ds Hd Hrs Hstep) as [Hlater Hnow].
    apply (IH rs1); [done | apply Hnow | apply Hnow | apply Hnow | done].
Qed.

End TradeLog.

(** X12.  Every record of the trade log of [run_backtest], for every
    strategy, names a symbol of the list given, a date of the data, a
    positive number of shares, and as its price the close of that symbol on
    that date; the records are in the order of their dates; and every
    position left open holds a positive number of shares of a symbol of the
    list, entered at the close of that symbol on its entry date. *)
Theorem trade_log_sound (strategy : string → datetime → series → option signal_info)
    (initial_capital : Q) (symbols : list string) (data_dict : gmap string series)
    (rs : run_state) :
  run_backtest strategy initial_capital symbols data_dict = Some (Results rs) →
  Forall (λ t, trade_sound data_dict symbols t ∧ t_date t ∈ all_dates data_dict)
    (rs_trades rs)
  ∧ StronglySorted (λ a b, date_le (t_date a) (t_date b)) (rs_trades rs)
  ∧ map_Forall (position_sound data_dict symbols) (rs_positions rs).
Proof.
  unfold run_backtest. destruct (_ =? _)%nat; [done |].
  destruct (for_each _ _ _) as [rs' |] eqn:Hrun; [| done]. intros [= ->].
  destruct (all_dates_sorted data_dict) as [Hsorted Helem].
  apply run_dates_log_sound in Hrun as (Ht & Hp & Hs); try done.
  - split; [| done].
    eapply Forall_impl; [exact Ht |]. intros t Hsound. split; [done |].
    destruct Hsound as (_ & _ & data & Hdata & Hc).
    apply Helem. exists (t_symbol t), data. by rewrite Hc.
  - apply Forall_forall. intros d _. cbn. repeat split; try done; constructor.
  - constructor.
Qed.

(** The two records of scenario A. *)
Lemma scenario_A_log_sound :
  ∃ rs, run_backtest scenario_A_strategy 100000 ["DEMO"] scenario_A_data
        = Some (Results rs)
    ∧ t_date <$> rs_trades rs = [day 2023 1 2; day 2023 1 3]
    ∧ Forall (trade_sound scenario_A_data ["DEMO"]) (rs_trades rs).
Proof.
  destruct (run_backtest scenario_A_strategy 100000 ["DEMO"] scenario_A_data)
    as [[| rs] |] eqn:Hrun; try (by vm_compute in Hrun).
  exists rs. split; [reflexivity |].
  destruct (trade_log_sound _ _ _ _ _ Hrun) as (Hlog & _ & _).
  split.
  - clear Hlog. vm_compute in Hrun. simplify_eq. reflexivity.
  - eapply Forall_impl; [exact Hlog |]. by intros t [Ht _].
Defined.

(** A loop whose body returns and keeps an invariant returns and keeps it. *)
Lemma for_each_progress {A B : Type} (f : A → B → option A) (I : A → Prop)
    (l : list B) (a : A) :
  (∀ x a, x ∈ l → I a → ∃ a', f a x = Some a' ∧ I a') →
  I a → ∃ a', for_each f l a = Some a' ∧ I a'.
Proof.
  revert a. induction l as [| x l IH]; intros a Hstep Ha; cbn.
  - by exists a.
  - destruct (Hstep x a) as (a1 & -> & Ha1); [by left | done |]. cbn.
    apply IH; [| done]. intros y b Hy. apply Hstep. by right.
Qed.

Lemma int_of_div_None (a b : Q) : int_of_div a b = None ↔ (b == 0)%Q.
Proof.
  unfold int_of_div, np_div. destruct (Qeq_bool b 0) eqn:Hb.
  - apply Qeq_bool_iff in Hb. done.
  - apply Qeq_bool_neq in Hb. done.
Qed.

Section Raising.

Variable strategy : string → datetime → series → option signal_info.
Variable data_dict : gmap string series.


(** The turn of a symbol returns when the strategy answers on its bars and
    no close is zero. *)
Lemma process_symbol_returns (date : date) (st : sim_state) (symbol : string) :
  answers_on_bars strategy data_dict →
  is_Some (process_symbol strategy data_dict date st symbol).
Proof.
  intros Hbars. unfold process_symbol.
  destruct (data_dict !! symbol) as [data |] eqn:Hdata; [| done].
  destruct (close_on data date) as [price |] eqn:Hbar; [| done].
  destruct (Hbars symbol data date price Hdata Hbar) as [[info ->] Hprice].
  cbn -[mark]. unfold trade_symbol.
  destruct (signal info), (positions st !! symbol); cbn -[mark]; try done.
  unfold buy. destruct (int_of_div _ price) as [n |] eqn:Hn.
  - cbn -[mark]. by destruct (0 <? n).
  - by apply int_of_div_None in Hn.
Qed.

(** A turn leaves the cash, the positions and the log alone or appends a
    record to the log. *)
Lemma process_symbol_traded (date : date) (st st' : sim_state) (symbol : string) :
  process_symbol strategy data_dict date st symbol = Some st' →
  core st' = core st ∨ ∃ t, trades st' = trades st ++ [t].
Proof.
  unfold process_symbol.
  destruct (data_dict !! symbol) as [data |]; [| intros [= <-]; by left].
  destruct (close_on data date) as [price |]; [| intros [= <-]; by left].
  destruct (strategy _ _ _) as [info |]; [| done]. cbn -[mark].
  destruct (trade_symbol _ _ _ _ _) as [st1 |] eqn:Htrade; [| done].
  cbn -[mark]. intros [= <-]. unfold core.
  destruct (mark_frame symbol price st1) as (-> & -> & ->).
  revert Htrade. unfold trade_symbol.
  destruct (signal info), (positions st !! symbol) as [pos |];
    try (intros [= <-]; by left).
  - unfold buy. destruct (int_of_div _ _) as [n |]; [| done]. cbn.
    destruct (0 <? n); intros [= <-]; [right; by eexists | by left].
  - intros [= <-]. right. by eexists.
Qed.

Lemma process_symbol_held_in_data (date : date) (st st' : sim_state) (symbol : string) :
  held_in_data data_dict st →
  process_symbol strategy data_dict date st symbol = Some st' →
  held_in_data data_dict st'.
Proof.
  intros Hst Hstep s Hs.
  destruct (decide (s = symbol)) as [-> | Hne].
  - destruct (data_dict !! symbol) as [data |] eqn:Hdata; [done |].
    unfold process_symbol in Hstep. rewrite Hdata in Hstep. simplify_eq.
    rewrite <- Hdata. by apply Hst.
  - apply Hst. by rewrite <- (process_symbol_frame _ _ _ _ _ _ _ Hstep Hne).
Qed.

Lemma process_symbol_fresh (initial_capital : Q) (date : date) (st st' : sim_state)
    (symbol : string) :
  fresh_until_traded initial_capital st →
  process_symbol strategy data_dict date st symbol = Some st' →
  fresh_until_traded initial_capital st'.
Proof.
  intros Hst [Hcore | [t Ht]]%process_symbol_traded Hnil.
  - unfold core in Hcore. injection Hcore as Hc Hp Ht.
    rewrite Hc, Hp. apply Hst. by rewrite <- Ht.
  - rewrite Ht in Hnil. by destruct (trades st).
Qed.

Lemma total_position_value_returns (date : date) (ps : gmap string position) :
  (∀ s, is_Some (ps !! s) → is_Some (data_dict !! s)) →
  is_Some (total_position_value data_dict date ps).
Proof.
  unfold total_position_value.
  apply (map_fold_weak_ind
           (λ (acc : option Q) (m : gmap string position),
              (∀ s, is_Some (m !! s) → is_Some (data_dict !! s)) → is_Some acc)).
  - done.
  - intros s pos m acc Hnew IH Hin.
    destruct IH as [total ->].
    { intros s' Hs'. apply Hin. destruct (decide (s' = s)) as [-> | Hne].
      - by rewrite lookup_insert_eq.
      - by rewrite lookup_insert_ne. }
    destruct (Hin s) as [data Hdata]; [by rewrite lookup_insert_eq |].
    unfold add_position_value. cbn. rewrite Hdata. cbn.
    by destruct (close_on data date).
Qed.

End Raising.

Section Returning.

Variable strategy : string → datetime → series → option signal_info.
Variable data_dict : gmap string series.
Variable initial_capital : Q.

Hypothesis capital_not_zero : ¬ (initial_capital == 0)%Q.
Hypothesis bars_answered : answers_on_bars strategy data_dict.

Lemma process_date_returns_safe (symbols : list string) (rs : run_state) (date : date) :
  run_safe data_dict initial_capital rs →
  ∃ rs', process_date strategy data_dict symbols rs date = Some rs'
         ∧ run_safe data_dict initial_capital rs'.
Proof.
  intros (Hheld & Hfresh & prev & Hlast & Hprev). unfold process_date.
  destruct (for_each_progress (process_symbol strategy data_dict date)
              (λ st, held_in_data data_dict st
                     ∧ fresh_until_traded initial_capital st
                     ∧ (trades st = [] → rs_trades rs = []))
              symbols (sim_of_run rs)) as (st & Hloop & Hh & Hf & Hmono).
  { intros s a _ (Ha1 & Ha2 & Ha3).
    destruct (process_symbol_returns strategy data_dict date a s bars_answered)
      as [a' Hstep].
    exists a'. split; [done |]. split; [| split].
    - by eapply process_symbol_held_in_data.
    - by eapply process_symbol_fresh.
    - intros Hnil. apply Ha3.
      apply process_symbol_traded in Hstep as [Hcore | [t Ht]].
      + unfold core in Hcore. injection Hcore as _ _ Ht. by rewrite <- Ht.
      + rewrite Ht in Hnil. by destruct (trades a). }
  { done. }
  unfold sim_of_run in Hloop. rewrite Hloop. cbn -[last].
  destruct (total_position_value_returns data_dict date (positions st) Hh)
    as [tpv Htpv].
  rewrite Htpv, Hlast. cbn.
  assert (trades st = [] → (current_capital st + tpv == initial_capital)%Q) as Hvalue.
  { intros Hnil. destruct (Hf Hnil) as [-> Hempty].
    rewrite Hempty in Htpv. unfold total_position_value in Htpv.
    rewrite map_fold_empty in Htpv. injection Htpv as <-. ring. }
  destruct (period_return (trades st) (current_capital st + tpv) prev) as [r |] eqn:Hr.
  - cbn. eexists. split; [done |]. unfold run_safe, sim_of_run. cbn.
    split; [done |]. split; [done |].
    exists (current_capital st + tpv)%Q. by rewrite last_snoc.
  - exfalso. unfold period_return in Hr.
    destruct (trades st) eqn:Htrades; [| done].
    destruct (Qeq_bool prev 0) eqn:Hz; [| done].
    apply Qeq_bool_iff in Hz. apply capital_not_zero.
    by rewrite <- (Hprev (Hmono eq_refl)).
Qed.

Lemma run_dates_returns_safe (symbols : list string) (ds : list date) (rs : run_state) :
  run_safe data_dict initial_capital rs →
  is_Some (for_each (process_date strategy data_dict symbols) ds rs).
Proof.
  intros Hrs.
  destruct (for_each_progress (process_date strategy data_dict symbols)
              (run_safe data_dict initial_capital) ds rs) as (rs' & -> & _);
    [| done | done].
  intros d a _. apply process_date_returns_safe.
Qed.

End Returning.



(** A turn with no cash and nothing held changes nothing. *)
Lemma process_symbol_broke
    (strategy : string → datetime → series → option signal_info)
    (data_dict : gmap string series) (date : date) (st st' : sim_state)
    (symbol : string) :
  (current_capital st == 0)%Q → positions st = ∅ →
  process_symbol strategy data_dict date st symbol = Some st' → st' = st.
Proof.
  intros Hcash Hpos. unfold process_symbol.
  destruct (data_dict !! symbol) as [data |]; [| by intros [= <-]].
  destruct (close_on data date) as [price |]; [| by intros [= <-]].
  destruct (strategy _ _ _) as [info |]; [| done]. cbn -[mark].
  unfold trade_symbol. rewrite Hpos, lookup_empty.
  assert (mark symbol price st = st) as Hmark
    by (unfold mark; by rewrite Hpos, lookup_empty).
  destruct (signal info); cbn -[mark]; try (rewrite Hmark; by intros [= <-]).
  unfold buy, int_of_div, np_div.
  destruct (Qeq_bool price 0); [done |]. cbn -[mark].
  set (q := (current_capital st * confidence info * (1 # 10) / price)%Q).
  assert (py_int q = 0) as ->.
  { assert (q == 0)%Q as Hq by (unfold q; rewrite Hcash; unfold Qdiv; ring).
    clearbody q. unfold py_int. unfold Qeq in Hq. simpl in Hq.
    replace (Qnum q) with 0 by lia. apply Z.quot_0_l. lia. }
  cbn -[mark]. rewrite Hmark. by intros [= <-].
Qed.

(** X15.  With an initial capital of zero [run_backtest] raises as soon as
    the data has one row, whatever the strategy and the symbols: no share
    can be bought, nothing is held, and the return of the first date divides
    zero by zero in plain Python numbers. *)
Theorem zero_capital_raises
    (strategy : string → datetime → series → option signal_info)
    (initial_capital : Q) (symbols : list string) (data_dict : gmap string series) :
  (initial_capital == 0)%Q →
  all_dates data_dict ≠ [] →
  run_backtest strategy initial_capital symbols data_dict = None.
Proof.
  intros Hcap Hdates. unfold run_backtest.
  destruct (Nat.eqb_spec (size data_dict) 0) as [Hsize | _].
  { apply map_size_empty_iff in Hsize. subst data_dict.
    by unfold all_dates in Hdates; rewrite map_fold_empty in Hdates. }
  destruct (all_dates data_dict) as [| d ds]; [done |]. cbn [for_each].
  assert (process_date strategy data_dict symbols (initial_state initial_capital) d
          = None) as ->; [| done].
  unfold process_date.
  destruct (for_each _ symbols _) as [st |] eqn:Hloop; [| done].
  assert (st = sim_of_run (initial_state initial_capital)) as ->.
  { apply (for_each_invariant _ (λ st, st = sim_of_run (initial_state initial_capital))
             _ _ _) in Hloop; [done | | done].
    intros s a a' _ -> Hstep.
    by apply process_symbol_broke in Hstep. }
  cbn. unfold total_position_value. rewrite map_fold_empty. cbn.
  assert (Qeq_bool initial_capital 0 = true) as -> by by apply Qeq_bool_iff.
  done.
Qed.

(** Scenario A with no money. *)
Lemma scenario_A_broke :
  run_backtest scenario_A_strategy 0 ["DEMO"] scenario_A_data = None.
Proof.
  apply zero_capital_raises; [done |]. by vm_compute.
Defined.

(** * Further properties of the data and of the statistics *)

Lemma fetched_entries {world : Type} (get_stock_data : world → string → series * world)
    (symbols : list string) (w : world) (symbol : string) (data : series) :
  (get_multiple_symbols_data get_stock_data symbols w).1 !! symbol = Some data →
  symbol ∈ symbols ∧ data ≠ [].
Proof.
  unfold get_multiple_symbols_data.
  induction symbols as [| s symbols IH] using rev_ind; [done |].
  rewrite fold_left_app. cbn [fold_left].
  destruct (fold_left _ symbols (∅, w)) as [d w1]. unfold fetch_symbol. cbn.
  destruct (get_stock_data w1 s) as [[| row rows] w2]; cbn.
  - intros [Hs Hd]%IH. split; [| done]. apply elem_of_app. by left.
  - destruct (decide (symbol = s)) as [-> | Hne].
    + rewrite lookup_insert_eq. intros [= <-]. split; [| done].
      apply elem_of_app. right. by left.
    + rewrite lookup_insert_ne by done. intros [Hs Hd]%IH. split; [| done].
      apply elem_of_app. by left.
Qed.

Lemma nonempty_data_has_dates (data_dict : gmap string series) :
  data_dict ≠ ∅ → (∀ symbol data, data_dict !! symbol = Some data → data ≠ []) →
  all_dates data_dict ≠ [].
Proof.
  intros Hne Hrows.
  destruct (map_choose data_dict Hne) as (symbol & data & Hdata).
  destruct data as [| [d c] rows]; [by destruct (Hrows symbol [] Hdata) |].
  destruct (all_dates_sorted data_dict) as [_ Helem].
  assert (d ∈ all_dates data_dict) as Hd.
  { apply Helem. exists symbol, ((d, c) :: rows). split; [done |].
    cbn. by rewrite decide_True. }
  intros Hnil. rewrite Hnil in Hd. by apply elem_of_nil in Hd.
Qed.

(** X16.  [get_multiple_symbols_data] keeps a symbol only with data that is
    not empty, and only symbols of its list.  So when it keeps anything the
    backtest has a date to walk through, and [run_backtest] either returns
    the error dictionary (nothing was kept) or results whose
    [portfolio_value] has two entries or more: the initial capital and a
    value for each date. *)
Theorem fetched_data_has_rows {world : Type}
    (get_stock_data : world → string → series * world)
    (strategy : string → datetime → series → option signal_info)
    (initial_capital : Q) (symbols : list string) (w : world) :
  let data_dict := (get_multiple_symbols_data get_stock_data symbols w).1 in
  (∀ symbol data, data_dict !! symbol = Some data → symbol ∈ symbols ∧ data ≠ [])
  ∧ (data_dict ≠ ∅ → all_dates data_dict ≠ [])
  ∧ match run_backtest_fetching get_stock_data strategy initial_capital symbols w with
    | Some NoData => data_dict = ∅
    | Some (Results rs) =>
        data_dict ≠ ∅ ∧ dates rs ≠ [] ∧ (2 ≤ length (portfolio_value rs))%nat
    | None => data_dict ≠ ∅
    end.
Proof.
  cbv zeta. unfold run_backtest_fetching.
  set (data_dict := (get_multiple_symbols_data get_stock_data symbols w).1).
  assert (∀ symbol data, data_dict !! symbol = Some data → symbol ∈ symbols ∧ data ≠ [])
    as Hrows by apply fetched_entries.
  assert (data_dict ≠ ∅ → all_dates data_dict ≠ []) as Hdates.
  { intros Hne. apply nonempty_data_has_dates; [done |].
    intros symbol data Hdata. by apply (Hrows symbol data). }
  split; [done |]. split; [done |].
  unfold run_backtest.
  destruct (Nat.eqb_spec (size data_dict) 0) as [Hsize | Hsize].
  { by apply map_size_empty_iff. }
  assert (data_dict ≠ ∅) as Hne
    by (intros Hempty; apply Hsize; by apply map_size_empty_iff).
  destruct (for_each _ _ _) as [rs |] eqn:Hrun; cbn; [| done].
  apply run_dates_shape in Hrun as (_ & Hd & Hpv & _).
  - split; [done |]. cbn in Hd, Hpv. rewrite Hd, Hpv.
    specialize (Hdates Hne). split; [done |].
    destruct (all_dates data_dict); [done | cbn; lia].
  - split; [done |]. intros [| i] p v Hp Hv; cbn in *; done.
Qed.

(** X17.  [calculate_metrics] on what [run_backtest] returned, for every
    strategy and every implementation of the float operations: the result is
    empty exactly when no data was given (the error dictionary); otherwise
    it has the seven statistics, of which 交易次数 is the length of the trade
    log, and 胜率 is the number of dates whose return on the portfolio value
    is positive divided by the number of dates of the data (0 when there is
    no date): it is a share of days, between 0 and 1, and not a share of
    trades. *)
Theorem metrics_of_run {F : Type} `{FloatOps F}
    (strategy : string → datetime → series → option signal_info)
    (initial_capital : Q) (symbols : list string) (data_dict : gmap string series)
    (results : backtest_result) :
  run_backtest strategy initial_capital symbols data_dict = Some results →
  (calculate_metrics results = [] ↔ data_dict = ∅)
  ∧ (data_dict ≠ ∅ →
     ∃ rs wins,
       results = Results rs
       ∧ (calculate_metrics results).*1 = metric_names
       ∧ wins = length (List.filter (λ r, f_gtb r (f_of_Q 0))
                          (f_of_xfloat <$> drop 1 (returns rs)))
       ∧ (wins ≤ length (all_dates data_dict))%nat
       ∧ calculate_metrics results !! 5%nat
         = Some ("胜率"%string,
                 f_of_Q (if (0 <? length (all_dates data_dict))%nat
                         then inject_Z (Z.of_nat wins)
                              / inject_Z (Z.of_nat (length (all_dates data_dict)))
                         else 0))
       ∧ calculate_metrics results !! 6%nat
         = Some ("交易次数"%string,
                 f_of_Q (inject_Z (Z.of_nat (length (rs_trades rs)))))).
Proof.
  unfold run_backtest.
  destruct (Nat.eqb_spec (size data_dict) 0) as [Hsize | Hsize].
  { intros [= <-]. apply map_size_empty_iff in Hsize. by split. }
  assert (data_dict ≠ ∅) as Hne
    by (intros Hempty; apply Hsize; by apply map_size_empty_iff).
  destruct (for_each _ _ _) as [rs |] eqn:Hrun; [| done]. intros [= <-].
  apply run_dates_shape in Hrun as ([Hlen _] & Hd & Hpv & _);
    [| split; [done |]; intros [| i] p v Hp Hv; cbn in *; done].
  cbn in Hd, Hpv.
  assert (length (f_of_xfloat <$> drop 1 (returns rs)) = length (all_dates data_dict))
    as Hrets.
  { rewrite length_fmap, length_drop, Hlen, Hpv. lia. }
  unfold calculate_metrics.
  destruct (portfolio_value rs) as [| v0 vs] eqn:Hvalues; [cbn in Hpv; lia |].
  split; [split; [discriminate | done] |].
  intros _. eexists rs, _. split; [done |]. split; [done |]. split; [done |].
  split; [rewrite <- Hrets; apply List.filter_length_le |].
  cbn [lookup list_lookup]. rewrite Hrets. split; [| done].
  by destruct (0 <? length (all_dates data_dict))%nat.
Qed.

(** The statistics of scenario A have the seven names. *)
Lemma scenario_A_metrics :
  ∃ results,
    run_backtest scenario_A_strategy 100000 ["DEMO"] scenario_A_data = Some results
    ∧ (@calculate_metrics unit shape_only results).*1 = metric_names.
Proof.
  assert (scenario_A_data ≠ ∅) as Hne by (by vm_compute).
  destruct (run_backtest scenario_A_strategy 100000 ["DEMO"] scenario_A_data)
    as [results |] eqn:Hrun; [| by vm_compute in Hrun].
  exists results. split; [reflexivity |].
  destruct (@metrics_of_run unit shape_only _ _ _ _ _ Hrun) as [_ Hrest].
  by destruct (Hrest Hne) as (rs & wins & _ & Hnames & _).
Defined.

(** * Further properties of the analysis of a chart *)

Lemma max_wuxing_spec (c : wuxing_count) (w : wuxing_t) :
  wx_get c w ≤ wx_get c (max_wuxing c).
Proof.
  destruct c as [c1 c2 c3 c4 c5]. unfold max_wuxing. cbn.
  repeat (match goal with
          | |- context [?a <? ?b] => is_var a; is_var b; destruct (Z.ltb_spec a b)
          end; cbn);
    destruct w; cbn; lia.
Qed.

Lemma min_wuxing_spec (c : wuxing_count) (w : wuxing_t) :
  wx_get c (min_wuxing c) ≤ wx_get c w.
Proof.
  destruct c as [c1 c2 c3 c4 c5]. unfold min_wuxing. cbn.
  repeat (match goal with
          | |- context [?a <? ?b] => is_var a; is_var b; destruct (Z.ltb_spec a b)
          end; cbn);
    destruct w; cbn; lia.
Qed.

(** X18.  For the counts of every chart, the strongest element, as
    品种八字分析.py and demo.py take it with [max], has a count of 2 or
    more and the weakest, taken with [min], a count of 1 or less: the eight
    symbols do not spread evenly over five elements.  So the two are
    different elements, [get_wuxing_relationship] of the strongest and the
    weakest is never 同, and [_generate_personality_traits] never reaches
    its last branch 特征温和: it returns the five traits of the strongest
    element and then 特征明显 or 特征中等. *)
Theorem strongest_and_weakest (bazi : bazi_t) :
  let wuxing := analyze_wuxing_strength bazi in
  let strongest := max_wuxing wuxing in
  let weakest := min_wuxing wuxing in
  (∀ w, wx_get wuxing weakest ≤ wx_get wuxing w ≤ wx_get wuxing strongest)
  ∧ 2 ≤ wx_get wuxing strongest
  ∧ wx_get wuxing weakest ≤ 1
  ∧ strongest ≠ weakest
  ∧ get_wuxing_relationship strongest weakest ≠ R_tong
  ∧ ∃ mark, generate_personality_traits wuxing strongest
            = wuxing_traits strongest ++ [mark]
            ∧ (mark = "特征明显" ∨ mark = "特征中等")
            ∧ length (generate_personality_traits wuxing strongest) = 6%nat.
Proof.
  cbv zeta.
  set (c := analyze_wuxing_strength bazi).
  destruct (analyze_wuxing_strength_total bazi) as [Htotal Hnonneg].
  fold c in Htotal, Hnonneg.
  assert (2 ≤ wx_get c (max_wuxing c)) as Hmax.
  { pose proof (max_wuxing_spec c Mu). pose proof (max_wuxing_spec c Huo).
    pose proof (max_wuxing_spec c Tu). pose proof (max_wuxing_spec c Jin).
    pose proof (max_wuxing_spec c Shui). unfold wx_total in Htotal. cbn in *. lia. }
  assert (wx_get c (min_wuxing c) ≤ 1) as Hmin.
  { pose proof (min_wuxing_spec c Mu). pose proof (min_wuxing_spec c Huo).
    pose proof (min_wuxing_spec c Tu). pose proof (min_wuxing_spec c Jin).
    pose proof (min_wuxing_spec c Shui). unfold wx_total in Htotal. cbn in *. lia. }
  assert (max_wuxing c ≠ min_wuxing c) as Hne by (intros Heq; rewrite Heq in Hmax; lia).
  split; [intros w; split; [apply min_wuxing_spec | apply max_wuxing_spec] |].
  split; [done |]. split; [done |]. split; [done |].
  split; [by destruct (max_wuxing c), (min_wuxing c) |].
  unfold generate_personality_traits.
  destruct (Z.leb_spec 3 (wx_get c (max_wuxing c))).
  - eexists. split; [done |]. split; [by left |]. by destruct (max_wuxing c).
  - destruct (Z.eqb_spec (wx_get c (max_wuxing c)) 2); [| lia].
    eexists. split; [done |]. split; [by right |]. by destruct (max_wuxing c).
Qed.

Lemma list_count_cons {A : Type} `{EqDecision A} (y : A) (l : list A) (x : A) :
  list_count (y :: l) x = (if decide (y = x) then 1 else 0) + list_count l x.
Proof.
  unfold list_count. case_decide.
  - rewrite filter_cons_True by done. cbn [length]. lia.
  - rewrite filter_cons_False by done. lia.
Qed.

Lemma list_count_nil {A : Type} `{EqDecision A} (x : A) : list_count [] x = 0.
Proof. done. Qed.

(** The stems of a list that are in [yang_tiangan], counted by the sums of
    [_analyze_tiangan]. *)
Lemma sum_over_yang (l : list tiangan_t) :
  sum_over (list_count l) yang_tiangan = foldr (λ tg s, Z.b2z (is_yang tg) + s) 0 l
  ∧ sum_over (list_count l) yin_tiangan
    = foldr (λ tg s, Z.b2z (negb (is_yang tg)) + s) 0 l.
Proof.
  unfold sum_over, yang_tiangan, yin_tiangan. cbn [fold_left].
  induction l as [| tg l [IH1 IH2]]; [done |].
  cbn [foldr]. rewrite <- IH1, <- IH2, !list_count_cons.
  split; destruct tg; cbn [is_yang negb Z.b2z];
    repeat (case_decide; try congruence); lia.
Qed.

(** The branches of a list in a season, counted by the sum of
    [_analyze_dizhi]. *)
Lemma sum_over_season (l : list dizhi_t) (s : season_t) :
  sum_over (list_count l) (season_dz s)
  = foldr (λ dz n, Z.b2z (bool_decide (season_of dz = s)) + n) 0 l.
Proof.
  unfold sum_over.
  induction l as [| dz l IH]; [by destruct s |].
  cbn [foldr]. rewrite <- IH.
  destruct s; cbn [season_dz fold_left]; rewrite !list_count_cons;
    destruct dz; cbn [season_of];
    repeat (case_decide; try congruence);
    (rewrite bool_decide_eq_true_2 by done) || (rewrite bool_decide_eq_false_2 by done);
    cbn [Z.b2z]; lia.
Qed.

(** X19.  [_analyze_tiangan] and [_analyze_dizhi] on every chart: the
    counts of yang and yin stems are the numbers of the four stems in and
    out of the yang list and add up to 4, and 阳性 is reported exactly for 3
    or 4 yang stems (2 and 2 is 阴性); the four season counts are the numbers
    of the four branches of each season and add up to 4; the dominant season
    has the largest count, which is at least 1, and the season balance lies
    between 0 and 4, with 0 exactly when each season has one branch. *)
Theorem stems_and_branches_analysis (bazi : bazi_t) :
  let stems := analyze_tiangan bazi in
  let branches := analyze_dizhi bazi in
  let season := season_distribution branches in
  yang_count stems
  = Z.b2z (is_yang (year_tg bazi)) + Z.b2z (is_yang (month_tg bazi))
    + Z.b2z (is_yang (day_tg bazi)) + Z.b2z (is_yang (hour_tg bazi))
  ∧ yang_count stems + yin_count stems = 4
  ∧ (nature stems = "阳性"%string ↔ 3 ≤ yang_count stems)
  ∧ (∀ s, season s
          = Z.b2z (bool_decide (season_of (year_dz bazi) = s))
            + Z.b2z (bool_decide (season_of (month_dz bazi) = s))
            + Z.b2z (bool_decide (season_of (day_dz bazi) = s))
            + Z.b2z (bool_decide (season_of (hour_dz bazi) = s)))
  ∧ season Spring + season Summer + season Autumn + season Winter = 4
  ∧ (∀ s, season s ≤ season (dominant_season branches))
  ∧ 1 ≤ season (dominant_season branches)
  ∧ 0 ≤ season_balance branches ≤ 4
  ∧ (season_balance branches = 0 ↔ ∀ s, season s = 1).
Proof.
  cbv zeta.
  set (stems := [year_tg bazi; month_tg bazi; day_tg bazi; hour_tg bazi]).
  destruct (sum_over_yang stems) as [Hyang Hyin].
  assert (yang_count (analyze_tiangan bazi)
          = Z.b2z (is_yang (year_tg bazi)) + Z.b2z (is_yang (month_tg bazi))
            + Z.b2z (is_yang (day_tg bazi)) + Z.b2z (is_yang (hour_tg bazi))) as Hy.
  { unfold analyze_tiangan. cbn [yang_count]. fold stems. rewrite Hyang. cbn. lia. }
  assert (yin_count (analyze_tiangan bazi)
          = Z.b2z (negb (is_yang (year_tg bazi))) + Z.b2z (negb (is_yang (month_tg bazi)))
            + Z.b2z (negb (is_yang (day_tg bazi)))
            + Z.b2z (negb (is_yang (hour_tg bazi)))) as Hn.
  { unfold analyze_tiangan. cbn [yin_count]. fold stems. rewrite Hyin. cbn. lia. }
  assert (yang_count (analyze_tiangan bazi) + yin_count (analyze_tiangan bazi) = 4)
    as Hsum.
  { rewrite Hy, Hn.
    by destruct (is_yang (year_tg bazi)), (is_yang (month_tg bazi)),
      (is_yang (day_tg bazi)), (is_yang (hour_tg bazi)). }
  split; [done |]. split; [done |]. split.
  { change (nature (analyze_tiangan bazi))
      with (if yin_count (analyze_tiangan bazi) <? yang_count (analyze_tiangan bazi)
            then "阳性"%string else "阴性"%string).
    destruct (Z.ltb_spec (yin_count (analyze_tiangan bazi))
                (yang_count (analyze_tiangan bazi))); split; try done; lia. }
  set (branches := [year_dz bazi; month_dz bazi; day_dz bazi; hour_dz bazi]).
  set (season := season_distribution (analyze_dizhi bazi)).
  assert (∀ s, season s
               = Z.b2z (bool_decide (season_of (year_dz bazi) = s))
                 + Z.b2z (bool_decide (season_of (month_dz bazi) = s))
                 + Z.b2z (bool_decide (season_of (day_dz bazi) = s))
                 + Z.b2z (bool_decide (season_of (hour_dz bazi) = s))) as Hseason.
  { intros s. unfold season, analyze_dizhi. cbn [season_distribution]. fold branches.
    rewrite sum_over_season. cbn. lia. }
  assert (season Spring + season Summer + season Autumn + season Winter = 4) as Hfour.
  { rewrite !Hseason.
    by destruct (season_of (year_dz bazi)), (season_of (month_dz bazi)),
      (season_of (day_dz bazi)), (season_of (hour_dz bazi)). }
  assert (∀ s, 0 ≤ season s) as Hpos.
  { intros s. rewrite Hseason.
    repeat match goal with |- context [bool_decide ?P] => destruct (bool_decide P) end;
      cbn; lia. }
  pose proof (Hpos Spring). pose proof (Hpos Summer).
  pose proof (Hpos Autumn). pose proof (Hpos Winter).
  split; [done |]. split; [done |].
  change (dominant_season (analyze_dizhi bazi))
    with (fold_left (λ best s, if season best <? season s then s else best)
            [Summer; Autumn; Winter] Spring).
  change (season_balance (analyze_dizhi bazi))
    with (fold_left Z.max (season <$> [Summer; Autumn; Winter]) (season Spring)
          - fold_left Z.min (season <$> [Summer; Autumn; Winter]) (season Spring)).
  cbn [fold_left fmap list_fmap].
  generalize dependent season. intros season _ Hfour _ H1 H2 H3 H4.
  set (a := season Spring) in *. set (b := season Summer) in *.
  set (c := season Autumn) in *. set (d := season Winter) in *.
  assert (∀ s, season s = match s with Spring => a | Summer => b | Autumn => c
                                       | Winter => d end) as Hs by (by intros []).
  clearbody a b c d.
  split; [| split; [| split; [| split]]].
  - intros s.
    repeat (rewrite ?Hs; cbv beta iota;
            try match goal with
                | |- context [?x <? ?y] =>
                    is_var x; is_var y; destruct (Z.ltb_spec x y)
                end).
    all: destruct s; lia.
  - repeat (rewrite ?Hs; cbv beta iota;
            try match goal with
                | |- context [?x <? ?y] =>
                    is_var x; is_var y; destruct (Z.ltb_spec x y)
                end).
    all: lia.
  - lia.
  - intros Hbal s. rewrite Hs. destruct s; lia.
  - intros Hall. pose proof (Hall Spring) as Ha. pose proof (Hall Summer) as Hb.
    pose proof (Hall Autumn) as Hc. pose proof (Hall Winter) as Hd.
    rewrite Hs in Ha, Hb, Hc, Hd. lia.
Qed.

Lemma is_yang_stem_at (x : Z) : is_yang (stem_at x) = Z.even x.
Proof.
  unfold stem_at.
  assert (Z.even x = Z.even (x mod 10)) as ->.
  { rewrite !Zeven_mod. f_equal. Z.div_mod_to_equations. lia. }
  assert (0 ≤ x mod 10 < 10) as Hk by (apply Z.mod_pos_bound; lia).
  set (k := x mod 10) in *. clearbody k.
  assert (k = 0 ∨ k = 1 ∨ k = 2 ∨ k = 3 ∨ k = 4 ∨ k = 5 ∨ k = 6 ∨ k = 7
          ∨ k = 8 ∨ k = 9) as Hcases by lia.
  destruct_or!; subst k; reflexivity.
Qed.

(** X20.  The yang stems of the chart of a date, as [_analyze_tiangan]
    counts them on what [calculate_bazi] made: one for an even year, one for
    an odd month, one for an odd day and one for an even double-hour.  So
    the 阳性 or 阴性 that 品种八字分析.py reports for an asset is a statement
    about the parities of its launch date. *)
Theorem yang_count_of_date (date : datetime) :
  ∃ bazi,
    calculate_bazi date = Some bazi
    ∧ yang_count (analyze_tiangan bazi)
      = Z.b2z (Z.even (dt_year date)) + Z.b2z (Z.odd (dt_month date))
        + Z.b2z (Z.odd (dt_day date)) + Z.b2z (Z.even (dt_hour date / 2)).
Proof.
  exists (pillars_of date). split; [apply calculate_bazi_pillars |].
  destruct (sum_over_yang [year_tg (pillars_of date); month_tg (pillars_of date);
                           day_tg (pillars_of date); hour_tg (pillars_of date)])
    as [Hyang _].
  unfold analyze_tiangan. cbn [yang_count]. rewrite Hyang.
  cbn [foldr pillars_of year_tg month_tg day_tg hour_tg].
  rewrite !is_yang_stem_at.
  replace (Z.even (dt_year date - 1900)) with (Z.even (dt_year date))
    by (rewrite !Zeven_mod; f_equal; Z.div_mod_to_equations; lia).
  replace (Z.even (dt_month date - 1)) with (Z.odd (dt_month date))
    by (rewrite <- Z.even_pred; f_equal; lia).
  replace (Z.even (dt_day date - 1)) with (Z.odd (dt_day date))
    by (rewrite <- Z.even_pred; f_equal; lia).
  lia.
Qed.

(** X21.  The features 月度规律分析.py writes down for its three assets are
    what 品种八字分析.py computes from their launch dates: the dominant
    element is the strongest element of the counts of the chart, the nature
    is the one [_analyze_tiangan] reports and the season is the dominant
    season of [_analyze_dizhi]; and the two tables know the same assets
    ([get_asset_bazi] raises exactly for the names without features). *)
Theorem features_match_analysis (asset_name : string) :
  match asset_bazi_features asset_name with
  | Some (dominant, asset_nature, season) =>
      ∃ launch_date bazi wuxing,
        get_asset_bazi asset_name = Some (launch_date, bazi, wuxing)
        ∧ max_wuxing wuxing = dominant
        ∧ nature (analyze_tiangan bazi) = asset_nature
        ∧ dominant_season (analyze_dizhi bazi) = season
  | None => get_asset_bazi asset_name = None
  end.
Proof.
  unfold asset_bazi_features, get_asset_bazi, asset_launch_dates.
  repeat case_decide; cbn -[analyze_wuxing_strength analyze_tiangan analyze_dizhi];
    try done;
    rewrite calculate_bazi_pillars; cbn -[analyze_wuxing_strength analyze_tiangan analyze_dizhi];
    eexists _, _, _; (split; [reflexivity |]); by vm_compute.
Qed.

(** X22.  The month table of 月度规律分析.py against the calculator: for
    the months 1 to 12 (and no other) it has an entry, whose element is the
    element [wuxing_dizhi] gives its branch and whose season is the season
    in which [_analyze_dizhi] counts that branch and in whose months
    [_analyze_seasonal_patterns] lists the month.  But its branch is never
    the branch [calculate_bazi] gives the month of a date: the table starts
    the year at 丑, one branch after the 子 of [calculate_bazi]. *)
Theorem month_table_against_calculator (date : datetime) :
  match month_bazi (dt_month date) with
  | Some (dz, wuxing, season) =>
      1 ≤ dt_month date ≤ 12
      ∧ wuxing = wuxing_dizhi dz
      ∧ season = season_of dz
      ∧ dt_month date ∈ seasonal_months season
      ∧ ∃ bazi, calculate_bazi date = Some bazi
                ∧ month_dz bazi = branch_at (dt_month date - 1)
                ∧ dz = branch_at (dt_month date)
                ∧ dz ≠ month_dz bazi
  | None => ¬ (1 ≤ dt_month date ≤ 12)
  end.
Proof.
  destruct (month_bazi (dt_month date)) as [[[dz wuxing] season] |] eqn:Hrow.
  - assert (dt_month date ∈ [1; 2; 3; 4; 5; 6; 7; 8; 9; 10; 11; 12]) as Hm.
    { unfold month_bazi in Hrow. repeat case_match; try done; set_solver. }
    split; [set_unfold in Hm; lia |].
    assert (wuxing = wuxing_dizhi dz ∧ season = season_of dz
            ∧ dt_month date ∈ seasonal_months season
            ∧ branch_at (dt_month date - 1) ≠ dz
            ∧ dz = branch_at (dt_month date)) as (? & ? & ? & ? & ?).
    { set_unfold in Hm. destruct_or!; try done; rewrite Hm in Hrow |- *;
        cbn in Hrow; simplify_eq; repeat split; try done; set_solver. }
    repeat split; try done.
    exists (pillars_of date). split; [apply calculate_bazi_pillars |]. done.
  - intros Hm. unfold month_bazi in Hrow.
    assert (dt_month date = 1 ∨ dt_month date = 2 ∨ dt_month date = 3
            ∨ dt_month date = 4 ∨ dt_month date = 5 ∨ dt_month date = 6
            ∨ dt_month date = 7 ∨ dt_month date = 8 ∨ dt_month date = 9
            ∨ dt_month date = 10 ∨ dt_month date = 11 ∨ dt_month date = 12)
      as Hcases by lia.
    destruct_or!; rewrite Hcases in Hrow; done.
Qed.

Lemma Qabs_distance (x y : Q) :
  (0 <= x <= 1)%Q → (3 # 10 <= y <= 7 # 10)%Q →
  (0 <= Qabs (x - y) <= 7 # 10)%Q ∧ (Qabs (x - y) == 0 ↔ x == y)%Q.
Proof.
  intros Hx Hy. split; [split; [apply Qabs_nonneg |] |].
  - apply Qabs_Qle_condition. split; lra.
  - split.
    + intros Hz. destruct (Qabs_Qle_condition (x - y) 0) as [Hle _].
      destruct Hle as [H1 H2]; [rewrite Hz; lra | lra].
    + intros Heq. rewrite Heq. assert (y - y == 0)%Q as -> by ring. reflexivity.
Qed.

Lemma predict_monthly_performance_bounds (dominant_wuxing month_wuxing : string)
    (relationship : relation_t) (actual_win_rate : Q) :
  relationship ≠ R_wu → (0 <= actual_win_rate <= 1)%Q →
  let p := predict_monthly_performance dominant_wuxing month_wuxing relationship
             actual_win_rate in
  expected_return p ∈ ["较好"; "很好"; "好"; "较差"; "差"]%string
  ∧ (3 # 10 <= expected_win_rate p <= 7 # 10)%Q
  ∧ accuracy p = (1 - Qabs (actual_win_rate - expected_win_rate p))%Q
  ∧ (3 # 10 <= accuracy p <= 1)%Q
  ∧ (0 < prediction_confidence p <= 8 # 10)%Q
  ∧ (accuracy p == 1 ↔ actual_win_rate == expected_win_rate p)%Q.
Proof.
  intros Hrel Hactual. cbv zeta.
  destruct relationship; try done; unfold predict_monthly_performance;
    cbn [expected_return expected_win_rate accuracy prediction_confidence];
    match goal with
    | |- context [Qabs (actual_win_rate - ?w)] =>
        destruct (Qabs_distance actual_win_rate w Hactual ltac:(lra)) as [Hd Hz];
        set (a := Qabs (actual_win_rate - w)) in *
    end;
    (split; [repeat constructor |]); (split; [lra |]); (split; [done |]);
    (split; [lra |]); (split; [split; nra |]);
    rewrite <- Hz; split; intros Ha; lra.
Qed.

(** X23.  One turn of the loop of [correlate_with_bazi] for an asset with
    a dominant element, a month from 1 to 12 and an actual win rate between 0
    and 1: the relation is never 无, so the prediction is never the default
    one; the expected win rate is one of the five between 0.3 and 0.7; the
    accuracy is 1 minus the distance of the actual win rate from it, between
    0.3 and 1, and 1 exactly when the two agree; and the confidence, scaled
    by the accuracy, is positive and at most 0.8. *)
Theorem month_prediction_bounds (dominant : wuxing_t) (month : Z) (actual_win_rate : Q) :
  1 ≤ month ≤ 12 → (0 <= actual_win_rate <= 1)%Q →
  ∃ relationship p,
    correlate_month (Some dominant) month actual_win_rate = Some (relationship, p)
    ∧ relationship ≠ R_wu
    ∧ expected_return p ∈ ["较好"; "很好"; "好"; "较差"; "差"]%string
    ∧ (3 # 10 <= expected_win_rate p <= 7 # 10)%Q
    ∧ accuracy p = (1 - Qabs (actual_win_rate - expected_win_rate p))%Q
    ∧ (3 # 10 <= accuracy p <= 1)%Q
    ∧ (0 < prediction_confidence p <= 8 # 10)%Q
    ∧ (accuracy p == 1 ↔ actual_win_rate == expected_win_rate p)%Q.
Proof.
  intros Hmonth Hactual. unfold correlate_month.
  destruct (month_bazi month) as [[[dz wuxing] season] |] eqn:Hrow.
  - cbn -[predict_monthly_performance]. eexists _, _. split; [done |].
    assert (get_wuxing_relationship dominant wuxing ≠ R_wu) as Hrel
      by (by destruct dominant, wuxing).
    split; [done |].
    by apply predict_monthly_performance_bounds.
  - exfalso. unfold month_bazi in Hrow.
    assert (month = 1 ∨ month = 2 ∨ month = 3 ∨ month = 4 ∨ month = 5 ∨ month = 6
            ∨ month = 7 ∨ month = 8 ∨ month = 9 ∨ month = 10 ∨ month = 11
            ∨ month = 12) as Hcases by lia.
    destruct_or!; subst month; done.
Qed.

(** 木 in March, a month of 木, with an actual win rate of 3/5. *)
Lemma month_prediction_march :
  ∃ p, correlate_month (Some Mu) 3 (3 # 5) = Some (R_tong, p)
       ∧ (accuracy p == 1)%Q ∧ (prediction_confidence p == 7 # 10)%Q.
Proof.
  destruct (month_prediction_bounds Mu 3 (3 # 5)) as (rel & p & Hp & _);
    [lia | split; by vm_compute |].
  vm_compute in Hp. injection Hp as <- <-.
  eexists. split; [reflexivity |]. split; reflexivity.
Defined.

(** X24.  The curve [plot_portfolio_performance] draws from the results of
    [run_backtest], for every strategy: all the dates, and all the values
    but the last one.  [portfolio_value] begins with the initial capital and
    has one entry more than [dates], so the cut to the same length drops the
    final value, and the value drawn at a date is the one recorded before
    that date was processed; at the first date it is the initial capital. *)
Theorem plotted_curve_drops_final_value
    (strategy : string → datetime → series → option signal_info)
    (initial_capital : Q) (symbols : list string) (data_dict : gmap string series)
    (rs : run_state) :
  run_backtest strategy initial_capital symbols data_dict = Some (Results rs) →
  (plotted_curve rs).1 = dates rs
  ∧ (∃ final, portfolio_value rs = (plotted_curve rs).2 ++ [final])
  ∧ (∀ k, (plotted_curve rs).2 !! k
          = if decide (k < length (dates rs))%nat then portfolio_value rs !! k else None)
  ∧ (dates rs ≠ [] → head (plotted_curve rs).2 = Some initial_capital).
Proof.
  unfold run_backtest. destruct (_ =? _)%nat; [done |].
  destruct (for_each _ _ _) as [rs' |] eqn:Hrun; [| done]. intros [= ->].
  apply run_dates_shape in Hrun as (_ & Hd & Hpv & _ & Hhead & _);
    [| split; [done |]; intros [| i] p v Hp Hv; cbn in *; done].
  cbn in Hd, Hpv, Hhead.
  assert (length (portfolio_value rs) = S (length (dates rs))) as Hlen
    by (rewrite Hpv, Hd; done).
  unfold plotted_curve. cbn [fst snd]. rewrite Hlen.
  replace (Nat.min (length (dates rs)) (S (length (dates rs))))
    with (length (dates rs)) by lia.
  split; [by rewrite firstn_all |].
  split; [| split].
  - destruct (drop (length (dates rs)) (portfolio_value rs)) as [| final rest] eqn:Hdrop.
    + apply (f_equal length) in Hdrop. rewrite length_drop in Hdrop. cbn in Hdrop. lia.
    + exists final. rewrite <- (take_drop (length (dates rs)) (portfolio_value rs)) at 1.
      rewrite Hdrop. f_equal.
      apply (f_equal length) in Hdrop. rewrite length_drop in Hdrop. cbn in Hdrop.
      destruct rest; [done | cbn in Hdrop; lia].
  - intros k. case_decide.
    + by rewrite lookup_take_lt.
    + apply lookup_take_ge. lia.
  - intros Hne. destruct (dates rs) as [| d ds]; [done |].
    destruct (portfolio_value rs) as [| v vs]; [done |]. cbn in *. done.
Qed.

(** The curve of scenario A has three of the four values. *)
Lemma scenario_A_curve :
  ∃ rs, run_backtest scenario_A_strategy 100000 ["DEMO"] scenario_A_data
        = Some (Results rs)
    ∧ length (plotted_curve rs).2 = 3%nat
    ∧ length (portfolio_value rs) = 4%nat.
Proof.
  destruct (run_backtest scenario_A_strategy 100000 ["DEMO"] scenario_A_data)
    as [[| rs] |] eqn:Hrun; try (by vm_compute in Hrun).
  exists rs. split; [reflexivity |].
  destruct (plotted_curve_drops_final_value _ _ _ _ _ Hrun) as (_ & [final Hfinal] & _).
  rewrite Hfinal, length_app. cbn [length].
  vm_compute in Hrun. simplify_eq. clear Hfinal. split; reflexivity.
Defined.

Section Signalled.

Variable strategy : string → datetime → series → option signal_info.
Variable data_dict : gmap string series.

Lemma process_symbol_signalled date st symbol st' :
  Forall (signalled strategy data_dict) (trades st) →
  process_symbol strategy data_dict date st symbol = Some st' →
  Forall (signalled strategy data_dict) (trades st').
Proof.
  intros Hst. unfold process_symbol.
  destruct (data_dict !! symbol) as [data |] eqn:Hdata; [| by intros [= <-]].
  destruct (close_on data date) as [price |]; [| by intros [= <-]].
  destruct (strategy _ _ _) as [info |] eqn:Hinfo; [| done]. cbn -[mark].
  destruct (trade_symbol _ _ _ _ _) as [st1 |] eqn:Htrade; [| done].
  cbn -[mark]. intros [= <-].
  destruct (mark_frame symbol price st1) as (_ & _ & ->).
  revert Htrade. unfold trade_symbol.
  destruct (signal info) eqn:Hsig, (positions st !! symbol) as [pos |];
    try (by intros [= <-]).
  - unfold buy. destruct (int_of_div _ _) as [n |]; [| done]. cbn.
    destruct (0 <? n); intros [= <-]; [| done]. cbn.
    apply Forall_app. split; [done |]. apply Forall_singleton.
    by exists data, info.
  - intros [= <-]. unfold sell. cbn.
    apply Forall_app. split; [done |]. apply Forall_singleton.
    by exists data, info.
Qed.

Lemma reachable_signalled initial_capital st :
  reachable strategy data_dict initial_capital st →
  Forall (signalled strategy data_dict) (trades st).
Proof.
  induction 1 as [| st date symbol st' _ IH Hstep | st _ IH].
  - constructor.
  - by eapply process_symbol_signalled.
  - exact IH.
Qed.

End Signalled.

(** X25.  Every record of the trade log of [run_backtest] was made on a
    signal, for every strategy: a BUY record on a BUY signal of the strategy
    for that symbol and date, called with the data of the symbol, a SELL
    record on a SELL signal, and the record carries the confidence of that
    signal.  No trade is made on HOLD. *)
Theorem trades_were_signalled
    (strategy : string → datetime → series → option signal_info)
    (initial_capital : Q) (symbols : list string) (data_dict : gmap string series)
    (rs : run_state) :
  run_backtest strategy initial_capital symbols data_dict = Some (Results rs) →
  Forall (signalled strategy data_dict) (rs_trades rs).
Proof.
  intros Hrun%run_backtest_reachable.
  by apply (reachable_signalled _ _ _ _ Hrun).
Qed.

(** The two trades of scenario A were signalled. *)
Lemma scenario_A_signalled :
  ∃ rs, run_backtest scenario_A_strategy 100000 ["DEMO"] scenario_A_data
        = Some (Results rs)
    ∧ length (rs_trades rs) = 2%nat
    ∧ Forall (signalled scenario_A_strategy scenario_A_data) (rs_trades rs).
Proof.
  destruct (run_backtest scenario_A_strategy 100000 ["DEMO"] scenario_A_data)
    as [[| rs] |] eqn:Hrun; try (by vm_compute in Hrun).
  exists rs. split; [reflexivity |].
  split; [| by apply (trades_were_signalled _ _ _ _ _ Hrun)].
  vm_compute in Hrun. simplify_eq. reflexivity.
Defined.

Lemma trades_of_Forall (P : trade → Prop) (symbol : string) (l : list trade) :
  Forall P l → Forall P (trades_of symbol l).
Proof.
  unfold trades_of. induction 1 as [| t l Ht _ IH]; [constructor |].
  destruct (decide (t_symbol t = symbol)).
  - rewrite filter_cons_True by done. by constructor.
  - by rewrite filter_cons_False.
Qed.

(** A log of purchases only replays when it has one record at most. *)
Lemma replay_purchases (held : option position) (l : list trade) :
  Forall (λ t, t_action t = A_BUY) l → is_Some (replay held l) →
  (length l ≤ 1)%nat ∧ (is_Some held → l = []).
Proof.
  intros Hbuy Hreplay. destruct l as [| t l]; [by split; [cbn; lia |] |].
  apply Forall_cons in Hbuy as [Ht Hl]. cbn in Hreplay. rewrite Ht in Hreplay.
  destruct held as [pos |]; [by destruct Hreplay |].
  destruct l as [| t' l]; [by split; [cbn; lia | intros []] |].
  apply Forall_cons in Hl as [Ht' _]. cbn in Hreplay. rewrite Ht' in Hreplay.
  by destruct Hreplay.
Qed.

(** X26.  A backtest with the strategy of the repository only buys and
    holds: every record of its trade log is a BUY, each symbol has one
    record at most, and a symbol is held at the end exactly when it has a
    record, so nothing bought is ever sold.  A record on a date with a month
    from 1 to 12 and a day from 1 is dated the first of January of a year
    at offset 26 of the cycle, and has confidence 3/5. *)
Theorem repository_strategy_buys_and_holds (initial_capital : Q)
    (symbols : list string) (data_dict : gmap string series) (rs : run_state) :
  run_backtest get_trading_signal initial_capital symbols data_dict
  = Some (Results rs) →
  Forall (λ t, t_action t = A_BUY
               ∧ (1 ≤ d_month (t_date t) ≤ 12 → 1 ≤ d_day (t_date t) →
                  buy_day (d_year (t_date t)) (d_month (t_date t)) (d_day (t_date t))
                  ∧ t_confidence t = (3 # 5)%Q))
    (rs_trades rs)
  ∧ ∀ symbol,
      (length (trades_of symbol (rs_trades rs)) ≤ 1)%nat
      ∧ (is_Some (rs_positions rs !! symbol) ↔ trades_of symbol (rs_trades rs) ≠ []).
Proof.
  intros Hrun%run_backtest_reachable.
  assert (Forall (signalled get_trading_signal data_dict) (rs_trades rs)) as Hsig
    by apply (reachable_signalled _ _ _ _ Hrun).
  assert (∀ symbol, replay None (trades_of symbol (rs_trades rs))
                    = Some (rs_positions rs !! symbol)) as Hbook
    by apply (reachable_book_kept _ _ _ _ Hrun).
  assert (Forall (λ t, t_action t = A_BUY) (rs_trades rs)) as Hbuy.
  { eapply Forall_impl; [exact Hsig |].
    intros t (data & info & _ & Hinfo & Hs & _).
    destruct (t_action t); [done |].
    by destruct (get_trading_signal_bounds _ _ _ _ Hinfo) as (_ & _ & Hnot). }
  split.
  - apply Forall_forall. intros t Ht.
    rewrite Forall_forall in Hsig, Hbuy.
    destruct (Hsig t Ht) as (data & info & _ & Hinfo & Hs & Hconf).
    split; [by apply Hbuy |]. intros Hm Hd.
    pose proof (get_trading_signal_rule (t_symbol t) (combine_min_time (t_date t))
                  data Hm Hd) as Hrule.
    rewrite Hinfo in Hrule. destruct Hrule as (Hrange & H3 & Hdec).
    rewrite (Hbuy t Ht) in Hs. rewrite Hs in Hdec.
    assert (strength info = 3) as Hstrength.
    { revert Hdec. unfold decide_signal.
      destruct (Z.leb_spec 3 (strength info)); [lia |].
      by destruct (strength info <=? -3). }
    split; [by apply H3 |].
    rewrite Hstrength in Hdec.
    assert (decide_signal 3 = (BUY, (3 # 5)%Q)) as Hd3 by reflexivity.
    rewrite Hd3 in Hdec. rewrite Hconf. congruence.
  - intros symbol. specialize (Hbook symbol).
    assert (Forall (λ t, t_action t = A_BUY) (trades_of symbol (rs_trades rs))) as Hbuys.
    { by apply trades_of_Forall. }
    destruct (replay_purchases None _ Hbuys) as [Hlen _]; [by rewrite Hbook |].
    split; [done |].
    destruct (trades_of symbol (rs_trades rs)) as [| t l] eqn:Hlog.
    + cbn in Hbook. injection Hbook as <-. split; [by intros [? ?] | done].
    + cbn in Hbook. apply Forall_cons in Hbuys as [Ht _]. rewrite Ht in Hbook.
      destruct l; [| cbn in Hlen; lia]. cbn in Hbook. injection Hbook as <-.
      split; [done | by eexists].
Qed.

(** The run over the two symbols of 1 January 1986 buys each once. *)
Lemma two_symbols_bought_once :
  ∃ rs, run_backtest get_trading_signal 100000 ["A"; "B"] two_symbol_data
        = Some (Results rs)
    ∧ t_symbol <$> rs_trades rs = ["A"; "B"]
    ∧ Forall (λ t, t_action t = A_BUY) (rs_trades rs).
Proof.
  destruct (run_backtest get_trading_signal 100000 ["A"; "B"] two_symbol_data)
    as [[| rs] |] eqn:Hrun; try (by vm_compute in Hrun).
  exists rs. split; [reflexivity |].
  destruct (repository_strategy_buys_and_holds _ _ _ _ Hrun) as [Hall _].
  split.
  - clear Hall. vm_compute in Hrun. simplify_eq. reflexivity.
  - eapply Forall_impl; [exact Hall |]. by intros t [Ht _].
Defined.

(** X27.  The confidence of [get_trading_signal], for every pair of element
    counts: 1/2 below a score of 3 and the score divided by 5 from 3 on,
    that is 3/5, 4/5 or 1.  The score never exceeds 5, so the cap
    [min(..., 1.0)] never changes the value it is applied to. *)
Theorem confidence_cap_never_binds (bazi : bazi_t) (cur_wx sym_wx : wuxing_count) :
  let info := evaluate bazi cur_wx sym_wx in
  confidence info
  = (if 3 <=? strength info then inject_Z (strength info) / 5 else 1 # 2)%Q
  ∧ (inject_Z (strength info) / 5 <= 1)%Q
  ∧ (confidence info = (1 # 2)%Q ∧ signal info = HOLD ∧ strength info ∈ [0; 1; 2]
     ∨ confidence info = (inject_Z (strength info) / 5)%Q ∧ signal info = BUY
       ∧ strength info ∈ [3; 4; 5]).
Proof.
  cbv zeta.
  destruct (evaluate_fields bazi cur_wx sym_wx) as (Hs & _ & Hd).
  assert (0 ≤ strength (evaluate bazi cur_wx sym_wx) ≤ 5) as Hrange
    by (rewrite Hs, signal_score_gain; apply count_elements_range).
  rewrite <- Hs in Hd.
  set (info := evaluate bazi cur_wx sym_wx) in *. clearbody info. clear Hs.
  assert (strength info = 0 ∨ strength info = 1 ∨ strength info = 2
          ∨ strength info = 3 ∨ strength info = 4 ∨ strength info = 5)
    as Hcases by lia.
  destruct_or!; rewrite Hcases in Hd |- *;
    match type of Hd with
    | _ = decide_signal ?k =>
        let v := eval vm_compute in (decide_signal k) in
        change (decide_signal k) with v in Hd
    end;
    injection Hd as -> ->;
    (split; [reflexivity |]); (split; [by vm_compute |]);
    [left | left | left | right | right | right];
    (split; [reflexivity |]); (split; [reflexivity |]); repeat constructor.
Qed.
